(** * nydusify-py: blob-copy orchestration, backend rewriting, manifests,
      directory transfer and repacking

    A shallow embedding of [nydus_image.py], [copier.py], [manifest.py] and
    [repacker.py].

    - Values read from JSON are Python values ([Py.value]); exceptions are
      an error result ([Py.result]).
    - Code with effects is a function from a world to an outcome, the world
      afterwards and the list of processes it started ([M]).  The external
      programs ([rclone], [regctl], [nydus-image]) and the library calls on
      files are fields of an interface ([OS]) over an abstract world, so
      that "what was invoked, and in which order" is a statement about the
      emitted events.  The programs are taken to be installed: starting one
      always gives a completed process.
    - A [str] is held as the bytes of its UTF-8 encoding; [str.strip] works
      on the characters these bytes encode.
    - Logging has no effect that a statement here depends on and is left
      out. *)

From Stdlib Require Import ZArith List String Ascii Bool Lia SpecFloat.
From stdpp Require Import base option list strings gmap.

Local Open Scope string_scope.
Local Open Scope Z_scope.
Local Open Scope list_scope.

(** ** Python values that come out of [json.loads] *)

Module Py.

(** [None], [bool], [int], [float] (a binary floating-point datum), [str],
    [list], [dict].  A [dict] keeps
    insertion order; its keys are strings because every dict in this program
    is a JSON object or a string-keyed literal. *)
#[warnings="-register-all"]
Inductive value : Type :=
| VNone
| VBool (b : bool)
| VInt (z : Z)
| VFloat (f : spec_float)
| VStr (s : string)
| VList (l : list value)
| VDict (kvs : list (string * value)).

(** Exceptions the modelled code can raise.  [CalledProcessError] carries
    what [subprocess] stores in it. *)
Inductive exn : Type :=
| ValueError (msg : string)
| AssertionError (msg : string)
| RuntimeError (msg : string)
| KeyError (key : string)
| IndexError
| TypeError
| AttributeError
| JSONDecodeError
| FileNotFoundError
| FileExistsError
| IsADirectoryError
| NotADirectoryError
| CalledProcessError (returncode : Z) (stdout stderr : string).

Inductive result (A : Type) : Type :=
| Ok (a : A)
| Raise (e : exn).
Arguments Ok {A} a.
Arguments Raise {A} e.

Definition is_ok {A} (r : result A) : bool :=
  match r with Ok _ => true | Raise _ => false end.

(** [d.get(k)] on the association list behind a dict. *)
Fixpoint assoc_get {V} (k : string) (kvs : list (string * V)) : option V :=
  match kvs with
  | [] => None
  | (k', v) :: rest => if String.eqb k k' then Some v else assoc_get k rest
  end.

(** [d[k] = v]: overwrite in place, or append a new key. *)
Fixpoint assoc_set {V} (k : string) (v : V) (kvs : list (string * V))
  : list (string * V) :=
  match kvs with
  | [] => [(k, v)]
  | (k', v') :: rest =>
      if String.eqb k k' then (k, v) :: rest else (k', v') :: assoc_set k v rest
  end.

(** [{**d1, **d2}] *)
Definition assoc_merge {V} (d1 d2 : list (string * V)) : list (string * V) :=
  fold_left (fun d kv => assoc_set (fst kv) (snd kv) d) d2 d1.

(** [x.get(k, default)]: only dicts have [.get]. *)
Definition get_default (x : value) (k : string) (default : value) : result value :=
  match x with
  | VDict kvs => Ok (match assoc_get k kvs with Some v => v | None => default end)
  | _ => Raise AttributeError
  end.

(** [x.get(k)] *)
Definition get (x : value) (k : string) : result value := get_default x k VNone.

(** [x[k]] for a string key. *)
Definition getitem (x : value) (k : string) : result value :=
  match x with
  | VDict kvs =>
      match assoc_get k kvs with Some v => Ok v | None => Raise (KeyError k) end
  | _ => Raise TypeError
  end.

(** [x[0]]: first element of a list, first character of a string; a
    string-keyed dict has no key [0]. *)
Definition getitem0 (x : value) : result value :=
  match x with
  | VList (v :: _) => Ok v
  | VList [] => Raise IndexError
  | VStr (String c _) => Ok (VStr (String c EmptyString))
  | VStr EmptyString => Raise IndexError
  | VDict _ => Raise (KeyError "0")
  | _ => Raise TypeError
  end.

(** The float [f] has exactly the integer value [n]: the comparison Python
    makes between a [float] and an [int].  A finite float is
    [(-1)^s * m * 2^e]; infinities and NaN equal no integer. *)
Definition float_eq_Z (f : spec_float) (n : Z) : bool :=
  match f with
  | S754_zero _ => n =? 0
  | S754_finite s m e =>
      let sm := if s then Z.neg m else Z.pos m in
      if 0 <=? e then sm * 2 ^ e =? n else sm =? n * 2 ^ (- e)
  | S754_infinity _ | S754_nan => false
  end.

(** [bool(x)] *)
Definition truthy (x : value) : bool :=
  match x with
  | VNone => false
  | VBool b => b
  | VInt z => negb (z =? 0)
  | VFloat f => negb (float_eq_Z f 0)
  | VStr s => negb (String.eqb s "")
  | VList l => match l with [] => false | _ => true end
  | VDict kvs => match kvs with [] => false | _ => true end
  end.

(** [len(x)] *)
Definition len (x : value) : result nat :=
  match x with
  | VStr s => Ok (String.length s)
  | VList l => Ok (List.length l)
  | VDict kvs => Ok (List.length kvs)
  | _ => Raise TypeError
  end.

(** [x == n] for an [int] [n]: [True] is [1], [False] is [0], and a float
    equals [n] when its value is exactly [n]. *)
Definition eq_int (x : value) (n : Z) : bool :=
  match x with
  | VInt z => z =? n
  | VBool b => (if b then 1 else 0) =? n
  | VFloat f => float_eq_Z f n
  | _ => false
  end.

(** [x == s] for a [str] literal [s]. *)
Definition eq_str (x : value) (s : string) : bool :=
  match x with
  | VStr s' => String.eqb s' s
  | _ => false
  end.

End Py.

Export Py.

(** ** Data model ([nydus_image.py]) *)

(** [pathlib.Path]: the sequence of path parts; equality of paths is
    equality of parts, and [p / name] appends one part. *)
Definition Path := list string.

Definition path_join (p : Path) (name : string) : Path := p ++ [name].

(** [str(path)] *)
Definition path_str (p : Path) : string :=
  match p with
  | "/" :: rest => "/" +:+ String.concat "/" rest
  | _ => String.concat "/" p
  end.

Inductive NydusBackend : Type :=
| NydusS3Backend (endpoint bucket region access_key secret_key object_prefix : string)
| NydusLocalFilesystemBackend (blob_dir : Path).

Record NydusBlobLocation : Type := mkBlob {
  digest : string;
  backend : NydusBackend
}.

Record NydusImageConfig : Type := mkConfig {
  architecture : value;
  os : value;
  config : value
}.

(** [NydusImageConfig()]: the defaults of the dataclass. *)
Definition default_image_config : NydusImageConfig :=
  mkConfig (VStr "amd64") (VStr "linux") VNone.

Record NydusImageWithBackends : Type := mkImage {
  bootstrap_local_path : Path;
  layers : list NydusBlobLocation;
  image_config : NydusImageConfig
}.

(** The dataclass-generated [__eq__]: same class and equal field tuples. *)
Definition path_eqb (p q : Path) : bool := bool_decide (p = q).

Definition backend_eqb (a b : NydusBackend) : bool :=
  match a, b with
  | NydusS3Backend e1 b1 r1 a1 s1 o1, NydusS3Backend e2 b2 r2 a2 s2 o2 =>
      String.eqb e1 e2 && String.eqb b1 b2 && String.eqb r1 r2
      && String.eqb a1 a2 && String.eqb s1 s2 && String.eqb o1 o2
  | NydusLocalFilesystemBackend d1, NydusLocalFilesystemBackend d2 => path_eqb d1 d2
  | _, _ => false
  end.

(** [change_backends] *)
Definition change_backends (image : NydusImageWithBackends) (new_backend : NydusBackend)
  : NydusImageWithBackends :=
  let new_layers :=
    map (fun layer => mkBlob (digest layer) new_backend) (layers image) in
  mkImage (bootstrap_local_path image) new_layers (image_config image).

(** Two descriptors are copy-compatible: same bootstrap path, same layer
    count, equal digests index by index. *)
Definition copy_compatible (a b : NydusImageWithBackends) : Prop :=
  bootstrap_local_path a = bootstrap_local_path b
  /\ List.length (layers a) = List.length (layers b)
  /\ forall i sb tb, layers a !! i = Some sb -> layers b !! i = Some tb ->
                     digest sb = digest tb.

(** ** External processes *)

Record completed_process : Type := mkProc {
  returncode : Z;
  stdout : string;
  stderr : string
}.

(** An argument of a command line: a string, or a path that the code turns
    into a string with [str(path)] when it builds the command. *)
Inductive arg : Type :=
| Str (s : string)
| PathArg (p : Path).

Coercion Str : string >-> arg.

(** The string the process receives. *)
Definition arg_str (a : arg) : string :=
  match a with
  | Str s => s
  | PathArg p => path_str p
  end.

(** One [subprocess.run]: the argument vector, the environment entries the
    caller adds to the inherited environment, and the file that receives the
    standard output when it is redirected ([stdout=f]). *)
Record event : Type := Exec {
  argv : list arg;
  env_extra : list (string * string);
  stdout_file : option Path
}.

(** Effectful code: it reads and changes the world, may raise, and emits the
    events of the processes it ran. *)
Definition M (W A : Type) : Type := W -> result A * W * list event.

Definition ret {W A} (a : A) : M W A := fun w => (Ok a, w, []).

Definition raise {W A} (e : exn) : M W A := fun w => (Raise e, w, []).

Definition bind {W A B} (m : M W A) (k : A -> M W B) : M W B :=
  fun w =>
    match m w with
    | (Ok a, w1, ev1) =>
        match k a w1 with
        | (r, w2, ev2) => (r, w2, ev1 ++ ev2)
        end
    | (Raise e, w1, ev1) => (Raise e, w1, ev1)
    end.

Notation "'let*' x := m 'in' k" := (bind m (fun x => k))
  (at level 10, x name, m at level 100, k at level 200).
Notation "'run' m 'then' k" := (bind m (fun _ => k))
  (at level 10, m at level 100, k at level 200).

Definition lift {W A} (r : result A) : M W A := fun w => (r, w, []).

(** [for x in l: f(x)] *)
Fixpoint for_each {W A} (f : A -> M W unit) (l : list A) : M W unit :=
  match l with
  | [] => ret tt
  | x :: rest => run f x then for_each f rest
  end.

Definition outcome {W A} (x : result A * W * list event) : result A := fst (fst x).
Definition world_after {W A} (x : result A * W * list event) : W := snd (fst x).
Definition events {W A} (x : result A * W * list event) : list event := snd x.

(** [subprocess.run(..., check=False)]: the oracle answers and the call is
    recorded.  The inherited environment is part of the world. *)
Definition subprocess_run {W} (oracle : event -> W -> completed_process * W)
  (e : event) : M W completed_process :=
  fun w => let (cp, w') := oracle e w in (Ok cp, w', [e]).

(** [subprocess.run(..., check=True)]: a non-zero exit status raises
    [CalledProcessError] with the status and the captured output. *)
Definition subprocess_run_check {W} (oracle : event -> W -> completed_process * W)
  (e : event) : M W completed_process :=
  fun w =>
    let (cp, w') := oracle e w in
    if returncode cp =? 0 then (Ok cp, w', [e])
    else (Raise (CalledProcessError (returncode cp) (stdout cp) (stderr cp)), w', [e]).

(** [str.upper] and [str.lower] on the ASCII letters. *)
Definition ascii_upper (c : ascii) : ascii :=
  let n := nat_of_ascii c in
  if ((97 <=? n) && (n <=? 122))%nat then ascii_of_nat (n - 32) else c.

Definition ascii_lower (c : ascii) : ascii :=
  let n := nat_of_ascii c in
  if ((65 <=? n) && (n <=? 90))%nat then ascii_of_nat (n + 32) else c.

Fixpoint str_map (f : ascii -> ascii) (s : string) : string :=
  match s with
  | EmptyString => EmptyString
  | String c rest => String (f c) (str_map f rest)
  end.

Definition upper : string -> string := str_map ascii_upper.
Definition lower : string -> string := str_map ascii_lower.

(** ** Blob copy orchestration ([copier.py]) *)

Record RcloneConfig : Type := mkRclone {
  rc_backend : NydusBackend;
  rc_name : string
}.

(** [RcloneConfig.__init__] *)
Definition RcloneConfig_init (b : NydusBackend) (name : string) : result RcloneConfig :=
  if String.eqb (lower name) name then Ok (mkRclone b name)
  else Raise (AssertionError "RcloneConfig name must be lowercase").

(** [RcloneConfig.with_digest].  The [case _] arm of the source is
    unreachable: the two constructors are all the backends there are. *)
Definition with_digest (self : RcloneConfig) (d : string) : string :=
  match rc_backend self with
  | NydusS3Backend _ bucket _ _ _ object_prefix =>
      rc_name self +:+ ":" +:+ bucket +:+ "/" +:+ object_prefix +:+ d
  | NydusLocalFilesystemBackend blob_dir => path_str blob_dir
  end.

(** [RcloneConfig.env] *)
Definition env (self : RcloneConfig) : list (string * string) :=
  match rc_backend self with
  | NydusS3Backend endpoint _ region access_key secret_key _ =>
      let env_prefix := "RCLONE_CONFIG_" +:+ upper (rc_name self) in
      assoc_merge []
        [ (env_prefix +:+ "_TYPE", "s3");
          (env_prefix +:+ "_ACCESS_KEY_ID", access_key);
          (env_prefix +:+ "_SECRET_ACCESS_KEY", secret_key);
          (env_prefix +:+ "_ENDPOINT", endpoint);
          (env_prefix +:+ "_REGION", region) ]
  | NydusLocalFilesystemBackend _ => []
  end.

(** The process [rclone_copy] starts for one blob. *)
Definition rclone_event (d : string) (source_config target_config : RcloneConfig) : event :=
  Exec [ Str "rclone"; Str "copy";
         Str (with_digest source_config d); Str (with_digest target_config d) ]
       (assoc_merge (env source_config) (env target_config))
       None.

(** The transport invocation [copy_blob] makes for a source and a target
    location. *)
Definition transport_event (sb tb : NydusBlobLocation) : event :=
  rclone_event (digest sb) (mkRclone (backend sb) "source") (mkRclone (backend tb) "target").

Section Copier.

Context {World : Type}.
Variable oracle : event -> World -> completed_process * World.

(** [rclone_copy] *)
Definition rclone_copy (d : string) (source_config target_config : RcloneConfig)
  : M World unit :=
  if String.eqb (rc_name source_config) (rc_name target_config)
  then raise (AssertionError "can't copy between rclone configs with the same name")
  else
    let* _result := subprocess_run_check oracle (rclone_event d source_config target_config) in
    ret tt.

(** [copy_blob] *)
Definition copy_blob (source_blob target_blob : NydusBlobLocation) : M World unit :=
  if negb (String.eqb (digest source_blob) (digest target_blob))
  then raise (AssertionError "")
  else
    let source_backend := backend source_blob in
    let target_backend := backend target_blob in
    if backend_eqb source_backend target_backend then ret tt
    else
      let* source_rclone := lift (RcloneConfig_init source_backend "source") in
      let* target_rclone := lift (RcloneConfig_init target_backend "target") in
      rclone_copy (digest source_blob) source_rclone target_rclone.

Definition copy_pair (p : NydusBlobLocation * NydusBlobLocation) : M World unit :=
  copy_blob (fst p) (snd p).

Definition digests_differ (p : NydusBlobLocation * NydusBlobLocation) : bool :=
  negb (String.eqb (digest (fst p)) (digest (snd p))).

(** [copy_blobs] *)
Definition copy_blobs (source_image target_image : NydusImageWithBackends) : M World unit :=
  if negb (path_eqb (bootstrap_local_path source_image) (bootstrap_local_path target_image))
  then raise (ValueError "Can only copy_blobs between images with the same bootstrap")
  else if negb (Nat.eqb (List.length (layers source_image)) (List.length (layers target_image)))
  then raise (ValueError "Two images with the same bootstrap had different number of layers!")
  else if existsb digests_differ (zip (layers source_image) (layers target_image))
  then raise (ValueError "Tried to copy between images with blobs having different digests")
  else for_each copy_pair (zip (layers source_image) (layers target_image)).

End Copier.

(** Vocabulary for statements about one run of [copy_blobs]. *)
Section CopierRuns.

Context {World : Type}.
Variable oracle : event -> World -> completed_process * World.

Definition backends_differ (p : NydusBlobLocation * NydusBlobLocation) : bool :=
  negb (backend_eqb (backend (fst p)) (backend (snd p))).

Definition digests_agree (p : NydusBlobLocation * NydusBlobLocation) : Prop :=
  digest (fst p) = digest (snd p).

(** The world in which the loop [for s, t in ps: copy_blob(s, t)] starts its
    iteration number [i]: every earlier iteration returned normally.  [None]
    when an earlier iteration raised, so that iteration [i] never starts. *)
Definition loop_reaches (ps : list (NydusBlobLocation * NydusBlobLocation))
  (w : World) (i : nat) : option World :=
  match for_each (copy_pair oracle) (take i ps) w with
  | (Ok _, w_i, _) => Some w_i
  | (Raise _, _, _) => None
  end.

(** The processes started by iteration [i] of that loop; none when the
    iteration never starts. *)
Definition loop_blob_events (ps : list (NydusBlobLocation * NydusBlobLocation))
  (w : World) (i : nat) : list event :=
  match loop_reaches ps w i, ps !! i with
  | Some w_i, Some p => events (copy_pair oracle p w_i)
  | _, _ => []
  end.

(** The same for the loop of [copy_blobs source_image target_image] run
    from world [w]. *)
Definition reaches (source_image target_image : NydusImageWithBackends)
  : World -> nat -> option World :=
  loop_reaches (zip (layers source_image) (layers target_image)).

Definition blob_events (source_image target_image : NydusImageWithBackends)
  : World -> nat -> list event :=
  loop_blob_events (zip (layers source_image) (layers target_image)).

End CopierRuns.

(** The three precondition tests of [copy_blobs], as one boolean. *)
Definition copy_compatibleb (a b : NydusImageWithBackends) : bool :=
  path_eqb (bootstrap_local_path a) (bootstrap_local_path b)
  && Nat.eqb (List.length (layers a)) (List.length (layers b))
  && negb (existsb digests_differ (zip (layers a) (layers b))).

(** ** Sample data *)

Module Sample.

Definition s3 : NydusBackend :=
  NydusS3Backend "https://s3.example" "bucket" "eu-1" "AK" "SK" "nydus/".

Definition localfs : NydusBackend := NydusLocalFilesystemBackend ["/"; "blobs"].

Definition boot : Path := ["/"; "img"; "bootstrap"].

(** Two layers on object storage, and the same image rewritten to the
    local directory. *)
Definition remote_image : NydusImageWithBackends :=
  mkImage boot [mkBlob "00112233" s3; mkBlob "aabbccdd" s3] default_image_config.

Definition local_image : NydusImageWithBackends := change_backends remote_image localfs.

(** The same image in a second local directory. *)
Definition mirror_image : NydusImageWithBackends :=
  change_backends remote_image (NydusLocalFilesystemBackend ["/"; "mirror"]).

Definition three_layers : NydusImageWithBackends :=
  mkImage boot [mkBlob "00112233" s3; mkBlob "aabbccdd" s3; mkBlob "deadbeef" s3]
    default_image_config.

(** Worlds that only count the processes run so far. *)
Definition always_fails (e : event) (w : nat) : completed_process * nat :=
  (mkProc 1 "" "connection refused", S w).

Definition always_succeeds (e : event) (w : nat) : completed_process * nat :=
  (mkProc 0 "" "", S w).

(** The second process fails with status 2. *)
Definition second_fails (e : event) (w : nat) : completed_process * nat :=
  (mkProc (if Nat.eqb w 1 then 2 else 0) "out" "err", S w).

End Sample.

(** ** Code that only raises or returns *)

Definition rbind {A B} (r : result A) (k : A -> result B) : result B :=
  match r with
  | Ok a => k a
  | Raise e => Raise e
  end.

Notation "'let+' x := r 'in' k" := (rbind r (fun x => k))
  (at level 10, x name, r at level 100, k at level 200).

(** A list comprehension [[f(x) for x in l]] whose [f] may raise. *)
Fixpoint map_result {A B} (f : A -> result B) (l : list A) : result (list B) :=
  match l with
  | [] => Ok []
  | x :: rest =>
      let+ y := f x in
      let+ ys := map_result f rest in
      Ok (y :: ys)
  end.

(** [for x in v]: the elements of a list, the keys of a dict, the
    characters of a string. *)
Definition iterate (v : value) : result (list value) :=
  match v with
  | VList l => Ok l
  | VDict kvs => Ok (map (fun kv => VStr (fst kv)) kvs)
  | VStr s => Ok (map (fun c => VStr (String c EmptyString)) (list_ascii_of_string s))
  | _ => Raise TypeError
  end.

(** ** The operating system *)

(** What the program asks of its environment.  [exec] runs a process to
    completion; the other fields are the library calls on files and text
    the sources make. *)
Record OS (World : Type) : Type := mkOS {
  exec : event -> World -> completed_process * World;
  json_loads : string -> option value;
  json_dumps : value -> string;
  shlex_split : string -> option (list string);
  (* Path.mkdir(parents=..., exist_ok=...) *)
  mkdir : Path -> bool -> bool -> World -> result unit * World;
  (* tempfile.NamedTemporaryFile(suffix=...), and its removal on leaving
     the [with] block *)
  mktemp : string -> World -> result Path * World;
  remove : Path -> World -> World;
  (* Path.exists() *)
  path_exists : Path -> World -> bool;
  (* open(path, 'r').read() and open(path, 'w').write(text) *)
  read_text : Path -> World -> result string;
  write_text : Path -> string -> World -> result unit * World;
  (* shutil.copy2(src, dst) *)
  copy2 : Path -> Path -> World -> result unit * World;
  (* tarfile: extract the member [member] of the archive under the name
     [name] into a directory; [KeyError] when there is no such member *)
  tar_extract : Path -> string -> string -> Path -> World -> result unit * World
}.

Arguments exec {World} _ _ _.
Arguments json_loads {World} _ _.
Arguments json_dumps {World} _ _.
Arguments shlex_split {World} _ _.
Arguments mkdir {World} _ _ _ _ _.
Arguments mktemp {World} _ _ _.
Arguments remove {World} _ _ _.
Arguments path_exists {World} _ _ _.
Arguments read_text {World} _ _ _.
Arguments write_text {World} _ _ _ _.
Arguments copy2 {World} _ _ _ _.
Arguments tar_extract {World} _ _ _ _ _ _.

(** A library call that changes the world and starts no process. *)
Definition call {W A} (f : W -> result A * W) : M W A :=
  fun w => let (r, w') := f w in (r, w', []).

(** [with tempfile.NamedTemporaryFile(suffix=...) as f: body]: the file is
    removed however the body ends. *)
Definition with_tempfile {W A} (sys : OS W) (suffix : string) (body : Path -> M W A)
  : M W A :=
  let* p := call (mktemp sys suffix) in
  fun w =>
    match body p w with
    | (r, w1, ev) => (r, remove sys p w1, ev)
    end.

(** ** Text

    A [str] is held as the bytes of its UTF-8 encoding.  [chars] cuts the
    bytes into characters, each with its code point: one byte below 128, or
    a lead byte with its one, two or three continuation bytes (shortest
    form, no surrogate, at most U+10FFFF).  A byte that starts no such
    sequence is a character by itself, with the code point of its own
    number. *)
Definition is_cont (c : ascii) : bool :=
  let n := N_of_ascii c in ((128 <=? n) && (n <=? 191))%N.

Definition cont_bits (c : ascii) : N := N.land (N_of_ascii c) 63.

Definition code_point2 (a b : ascii) : option N :=
  let n := N_of_ascii a in
  if ((194 <=? n) && (n <=? 223))%N && is_cont b
  then Some (N.land n 31 * 64 + cont_bits b)%N
  else None.

Definition code_point3 (a b c : ascii) : option N :=
  let n := N_of_ascii a in
  let cp := (N.land n 15 * 4096 + cont_bits b * 64 + cont_bits c)%N in
  if ((224 <=? n) && (n <=? 239))%N && is_cont b && is_cont c
     && (2048 <=? cp)%N && negb ((55296 <=? cp) && (cp <=? 57343))%N
  then Some cp
  else None.

Definition code_point4 (a b c d : ascii) : option N :=
  let n := N_of_ascii a in
  let cp := (N.land n 7 * 262144 + cont_bits b * 4096 + cont_bits c * 64
             + cont_bits d)%N in
  if ((240 <=? n) && (n <=? 244))%N && is_cont b && is_cont c && is_cont d
     && (65536 <=? cp)%N && (cp <=? 1114111)%N
  then Some cp
  else None.

Fixpoint chars (l : list ascii) : list (N * list ascii) :=
  match l with
  | [] => []
  | a :: l1 =>
      let single := (N_of_ascii a, [a]) :: chars l1 in
      match l1 with
      | [] => single
      | b :: l2 =>
          match code_point2 a b with
          | Some cp => (cp, [a; b]) :: chars l2
          | None =>
              match l2 with
              | [] => single
              | c :: l3 =>
                  match code_point3 a b c with
                  | Some cp => (cp, [a; b; c]) :: chars l3
                  | None =>
                      match l3 with
                      | [] => single
                      | d :: l4 =>
                          match code_point4 a b c d with
                          | Some cp => (cp, [a; b; c; d]) :: chars l4
                          | None => single
                          end
                      end
                  end
              end
          end
      end
  end.

Module SampleText.

(** U+00A0 and U+0085 in two bytes, U+2003 in three, U+00E0 in two; and the
    byte 160 by itself. *)
Definition nbsp : string := String "194" (String "160" "").
Definition nel : string := String "194" (String "133" "").
Definition em_space : string := String "226" (String "128" (String "131" "")).
Definition a_grave : string := String "195" (String "160" "").
Definition byte_160 : string := String "160" "".

End SampleText.

(** [str.isspace] on one character: the white space of Unicode as Python
    has it (U+0009 to U+000D, U+001C to U+0020, U+0085, U+00A0, U+1680,
    U+2000 to U+200A, U+2028, U+2029, U+202F, U+205F, U+3000). *)
Definition is_space (cp : N) : bool :=
  (((9 <=? cp) && (cp <=? 13)) || ((28 <=? cp) && (cp <=? 32))
   || (cp =? 133) || (cp =? 160) || (cp =? 5760)
   || ((8192 <=? cp) && (cp <=? 8202))
   || (cp =? 8232) || (cp =? 8233) || (cp =? 8239) || (cp =? 8287)
   || (cp =? 12288))%N.

(** [str.lstrip()] on the characters. *)
Fixpoint lstrip_chars (l : list (N * list ascii)) : list (N * list ascii) :=
  match l with
  | [] => []
  | c :: rest => if is_space (fst c) then lstrip_chars rest else l
  end.

(** [str.strip()] *)
Definition strip (s : string) : string :=
  string_of_list_ascii
    (concat (map snd
       (rev (lstrip_chars (rev (lstrip_chars (chars (list_ascii_of_string s)))))))).

(** [not s.strip()] *)
Definition is_blank (s : string) : bool := String.eqb (strip s) "".

(** ** [nydus_image.py]: image config and digests *)

(** [NydusImageConfig.from_dict] *)
Definition from_dict (data : value) : result NydusImageConfig :=
  let+ a := get_default data "architecture" (VStr "amd64") in
  let+ o := get_default data "os" (VStr "linux") in
  let+ c := get data "config" in
  Ok (mkConfig a o c).

(** [NydusImageConfig.to_dict] *)
Definition to_dict (self : NydusImageConfig) : value :=
  let result := [("architecture", architecture self); ("os", os self)] in
  match config self with
  | VNone => VDict result
  | c => VDict (assoc_set "config" c result)
  end.

Definition hex_chars : list ascii := list_ascii_of_string "0123456789abcdefABCDEF".

Definition is_hex (c : ascii) : bool := existsb (Ascii.eqb c) hex_chars.

(** The four assertions [get_blob_digests] makes on one blob id, in the
    order of the source. *)
Definition check_digest (d : value) : result string :=
  match d with
  | VStr s =>
      if negb (0 <? String.length s)%nat
      then Raise (AssertionError "Blob ID cannot be empty")
      else if negb (forallb is_hex (list_ascii_of_string s))
      then Raise (AssertionError "Blob ID must be hexadecimal")
      else if negb (8 <=? String.length s)%nat
      then Raise (AssertionError "Blob ID too short (expected at least 8 chars)")
      else Ok s
  | _ => Raise (AssertionError "Blob ID must be a string")
  end.

(** [get_blob_digests] from the parsed inspection output on: the
    comprehension over the entries, then the assertions on each id. *)
Definition digests_of_blob_data (blob_data : value) : result (list string) :=
  let+ entries := iterate blob_data in
  let+ blob_digests := map_result (fun blob => getitem blob "blob_id") entries in
  map_result check_digest blob_digests.

Definition parse_json {W} (sys : OS W) (text : string) : result value :=
  match json_loads sys text with
  | Some v => Ok v
  | None => Raise JSONDecodeError
  end.

Definition inspect_event (bootstrap_path : Path) : event :=
  Exec [Str "nydus-image"; Str "inspect"; PathArg bootstrap_path;
        Str "--request"; Str "blobs"] [] None.

(** [get_blob_digests] *)
Definition get_blob_digests {W} (sys : OS W) (bootstrap_path : Path) : M W (list string) :=
  let* inspect_result := subprocess_run_check (exec sys) (inspect_event bootstrap_path) in
  lift (let+ blob_data := parse_json sys (stdout inspect_result) in
        digests_of_blob_data blob_data).

(** [read_from_dir] *)
Definition read_from_dir {W} (sys : OS W) (directory : Path) (b : NydusBackend)
  : M W NydusImageWithBackends :=
  let bootstrap_path := path_join directory "bootstrap" in
  let* present := (fun w => (Ok (path_exists sys bootstrap_path w), w, [])) in
  if negb present then raise FileNotFoundError
  else
    let config_path := path_join directory "config.json" in
    let* has_config := (fun w => (Ok (path_exists sys config_path w), w, [])) in
    let* image_config :=
      (if (has_config : bool)
       then
         let* text := (fun w => (read_text sys config_path w, w, [])) in
         lift (let+ config_data := parse_json sys text in from_dict config_data)
       else ret default_image_config) in
    let* blob_digests := get_blob_digests sys bootstrap_path in
    let blob_locations := map (fun d => mkBlob d b) blob_digests in
    ret (mkImage bootstrap_path blob_locations image_config).

(** [write_to_dir] *)
Definition write_to_dir {W} (sys : OS W) (image : NydusImageWithBackends) (directory : Path)
  : M W unit :=
  run call (mkdir sys directory true true) then
  let target_bootstrap_path := path_join directory "bootstrap" in
  run (if negb (path_eqb (bootstrap_local_path image) target_bootstrap_path)
       then call (copy2 sys (bootstrap_local_path image) target_bootstrap_path)
       else ret tt) then
  let config_path := path_join directory "config.json" in
  call (write_text sys config_path (json_dumps sys (to_dict (image_config image)))).

(** ** [manifest.py] *)

(** [create_oci_manifest] *)
Definition create_oci_manifest (config_digest : string) (config_size : Z)
  (bootstrap_digest : string) (bootstrap_size : Z) : value :=
  VDict [
    ("schemaVersion", VInt 2);
    ("mediaType", VStr "application/vnd.docker.distribution.manifest.v2+json");
    ("config", VDict [
       ("mediaType", VStr "application/vnd.docker.container.image.v1+json");
       ("digest", VStr config_digest);
       ("size", VInt config_size) ]);
    ("layers", VList [
       VDict [
         ("mediaType", VStr "application/vnd.oci.image.layer.v1.tar+gzip");
         ("digest", VStr bootstrap_digest);
         ("size", VInt bootstrap_size);
         ("annotations", VDict [
            ("containerd.io/snapshot/nydus-bootstrap", VStr "true");
            ("containerd.io/snapshot/nydus-fs-version", VStr "6") ]) ] ])
  ].

Definition accepted_manifest_media_types : list string :=
  [ "application/vnd.docker.distribution.manifest.v2+json";
    "application/vnd.oci.image.manifest.v1+json" ].

Definition expected_config_media_type : string :=
  "application/vnd.oci.image.config.v1+json".

Definition expected_layer_media_type : string :=
  "application/vnd.oci.image.layer.v1.tar+gzip".

(** The checks [download_bootstrap_and_manifest] makes on the manifest
    before it asks for the config blob; the result is the config digest. *)
Definition check_manifest_header (manifest_data : value) : result value :=
  let+ schema_version := get manifest_data "schemaVersion" in
  if negb (eq_int schema_version 2)
  then Raise (ValueError "Unsupported manifest schema version")
  else
    let+ manifest_media_type := get manifest_data "mediaType" in
    if negb (existsb (eq_str manifest_media_type) accepted_manifest_media_types)
    then Raise (ValueError "Unexpected manifest media type")
    else
      let+ config_section := get manifest_data "config" in
      if negb (truthy config_section)
      then Raise (ValueError "No config section found in manifest")
      else
        let+ config_media_type := get config_section "mediaType" in
        if negb (eq_str config_media_type expected_config_media_type)
        then Raise (ValueError "Unexpected config media type")
        else getitem config_section "digest".

(** The checks made on the layers after the config blob was fetched; the
    result is the digest of the bootstrap layer. *)
Definition check_manifest_layers (manifest_data : value) : result value :=
  let+ manifest_layers := get_default manifest_data "layers" (VList []) in
  if negb (truthy manifest_layers)
  then Raise (ValueError "No layers found in manifest")
  else
    let+ n := len manifest_layers in
    if negb (Nat.eqb n 1)
    then Raise (ValueError "Expected exactly 1 layer in manifest")
    else
      let+ bootstrap_layer := getitem0 manifest_layers in
      let+ layer_media_type := get bootstrap_layer "mediaType" in
      if negb (eq_str layer_media_type expected_layer_media_type)
      then Raise (ValueError "Unexpected layer media type")
      else
        let+ annotations := get_default bootstrap_layer "annotations" (VDict []) in
        let+ bootstrap_annotation :=
          get annotations "containerd.io/snapshot/nydus-bootstrap" in
        if negb (eq_str bootstrap_annotation "true")
        then Raise (ValueError "Invalid or missing nydus-bootstrap annotation")
        else
          let+ fs_version_annotation :=
            get annotations "containerd.io/snapshot/nydus-fs-version" in
          if negb (eq_str fs_version_annotation "6")
          then Raise (ValueError "Invalid or missing nydus-fs-version annotation")
          else getitem bootstrap_layer "digest".

(** A command-line argument must be a string. *)
Definition as_str (v : value) : result string :=
  match v with
  | VStr s => Ok s
  | _ => Raise TypeError
  end.

Definition manifest_get_event (reference : string) : event :=
  Exec [Str "regctl"; Str "manifest"; Str "get"; Str "--format"; Str "raw-body";
        Str reference] [] None.

Definition blob_get_event (reference digest_arg : string) (to : option Path) : event :=
  Exec [Str "regctl"; Str "blob"; Str "get"; Str reference; Str digest_arg] [] to.

(** [regctl blob get ...], whatever the blob. *)
Definition is_blob_get (e : event) : bool :=
  match argv e with
  | Str "regctl" :: Str "blob" :: Str "get" :: _ => true
  | _ => false
  end.

Section Manifest.

Context {World : Type}.
Variable sys : OS World.

(** [download_bootstrap_and_manifest] from the parsed manifest on. *)
Definition download_from_manifest (reference : string) (b : NydusBackend)
  (output_dir : Path) (manifest_data : value) : M World NydusImageWithBackends :=
  let* config_digest := lift (check_manifest_header manifest_data) in
  with_tempfile sys ".json" (fun _config_path =>
    let* config_digest_arg := lift (as_str config_digest) in
    let* config_result :=
      subprocess_run_check (exec sys) (blob_get_event reference config_digest_arg None) in
    let* config_data := lift (parse_json sys (stdout config_result)) in
    let* bootstrap_digest := lift (check_manifest_layers manifest_data) in
    with_tempfile sys ".tar.gz" (fun temp_tar_path =>
      let* bootstrap_digest_arg := lift (as_str bootstrap_digest) in
      run subprocess_run_check (exec sys)
            (blob_get_event reference bootstrap_digest_arg (Some temp_tar_path)) then
      let bootstrap_path := path_join output_dir "image.boot" in
      run (fun w =>
             match tar_extract sys temp_tar_path "image/image.boot" "image.boot"
                     output_dir w with
             | (Raise (KeyError _), w') =>
                 (Raise (ValueError
                    "Bootstrap file 'image/image.boot' not found in layer tarball"),
                  w', [])
             | (r, w') => (r, w', [])
             end) then
      let* blob_digests := get_blob_digests sys bootstrap_path in
      let blob_locations := map (fun d => mkBlob d b) blob_digests in
      let* image_config := lift (from_dict config_data) in
      ret (mkImage bootstrap_path blob_locations image_config))).

(** [download_bootstrap_and_manifest] *)
Definition download_bootstrap_and_manifest (reference : string) (b : NydusBackend)
  (output_dir : Path) : M World NydusImageWithBackends :=
  run call (mkdir sys output_dir true true) then
  with_tempfile sys ".json" (fun _manifest_path =>
    let* result := subprocess_run_check (exec sys) (manifest_get_event reference) in
    if is_blank (stdout result)
    then raise (ValueError "regctl returned empty output for manifest")
    else
      let* manifest_data := lift (parse_json sys (stdout result)) in
      download_from_manifest reference b output_dir manifest_data).

End Manifest.

(** ** Vocabulary of the statements on manifests and digests *)

(** A blob id as the specification wants it: a string, not empty, made of
    hexadecimal digits only, at least 8 characters long. *)
Definition valid_blob_id (v : value) : Prop :=
  exists s, v = VStr s
            /\ s <> ""
            /\ Forall (fun c => In c hex_chars) (list_ascii_of_string s)
            /\ (8 <= String.length s)%nat.

(** The manifest says [schemaVersion: 2]. *)
Definition schema_is_2 (m : value) : bool :=
  match get m "schemaVersion" with
  | Ok v => eq_int v 2
  | Raise _ => false
  end.

(** The manifest has exactly one layer. *)
Definition layer_count_is_1 (m : value) : bool :=
  match get_default m "layers" (VList []) with
  | Ok ls => match len ls with Ok 1%nat => true | _ => false end
  | Raise _ => false
  end.

(** The single layer of the manifest carries the annotation
    [containerd.io/snapshot/nydus-fs-version: "6"]. *)
Definition has_fs_version_6 (m : value) : bool :=
  match get_default m "layers" (VList []) with
  | Ok (VList [layer]) =>
      match get_default layer "annotations" (VDict []) with
      | Ok annotations =>
          match get annotations "containerd.io/snapshot/nydus-fs-version" with
          | Ok v => eq_str v "6"
          | Raise _ => false
          end
      | Raise _ => false
      end
  | _ => false
  end.

Module SampleOS.

(** A world that counts library calls and processes.  Every process exits
    with status 0 and prints [out]; [json.loads] knows the document [out]
    only, and reads it as [doc]. *)
Definition const_os (out : string) (doc : value) : OS nat := {|
  exec := fun _ w => (mkProc 0 out "", S w);
  json_loads := fun s => if String.eqb s out then Some doc else None;
  json_dumps := fun _ => out;
  shlex_split := fun _ => Some [];
  mkdir := fun _ _ _ w => (Ok tt, S w);
  mktemp := fun suffix w => (Ok ["/"; "tmp"; ("tmp" +:+ suffix)%string], S w);
  remove := fun _ w => S w;
  path_exists := fun _ _ => true;
  read_text := fun _ _ => Ok out;
  write_text := fun _ _ w => (Ok tt, S w);
  copy2 := fun _ _ w => (Ok tt, S w);
  tar_extract := fun _ _ _ _ w => (Ok tt, S w)
|}.

Definition one_layer (annotations : list (string * value)) : value :=
  VDict [ ("mediaType", VStr "application/vnd.oci.image.layer.v1.tar+gzip");
          ("digest", VStr "sha256:boot");
          ("size", VInt 10);
          ("annotations", VDict annotations) ].

Definition good_annotations : list (string * value) :=
  [ ("containerd.io/snapshot/nydus-bootstrap", VStr "true");
    ("containerd.io/snapshot/nydus-fs-version", VStr "6") ].

Definition manifest_with (schema_version : Z) (manifest_layers : list value) : value :=
  VDict [ ("schemaVersion", VInt schema_version);
          ("mediaType", VStr "application/vnd.oci.image.manifest.v1+json");
          ("config", VDict [ ("mediaType", VStr "application/vnd.oci.image.config.v1+json");
                             ("digest", VStr "sha256:cfg");
                             ("size", VInt 2) ]);
          ("layers", VList manifest_layers) ].



(** Inspection output with two well-formed blob ids. *)
Definition two_blobs : value :=
  VList [ VDict [("blob_id", VStr "00112233")];
          VDict [("blob_id", VStr "AABBccdd99")] ].

End SampleOS.

(** ** A file system *)

(** A world that is a tree of files and directories, and in which the only
    program is the image inspector: what it prints is a function of what sits
    at the path it is given. *)
Module FileSystem.

Inductive node : Type :=
| File (content : string)
| Dir.

Abbreviation FS := (gmap Path node).

(** The proper ancestors of a path, nearest the root first. *)
Definition ancestors (p : Path) : list Path :=
  map (fun n => take n p) (seq 1 (List.length p - 1)).

(** Create the missing directories of [ps]; a file on the way is an error. *)
Fixpoint ensure_dirs (ps : list Path) (fs : FS) : result FS :=
  match ps with
  | [] => Ok fs
  | p :: rest =>
      match fs !! p with
      | Some (File _) => Raise NotADirectoryError
      | Some Dir => ensure_dirs rest fs
      | None => ensure_dirs rest (<[p := Dir]> fs)
      end
  end.

Definition parent (p : Path) : Path := removelast p.

(** The directory that is to hold [p] is there. *)
Definition check_parent (p : Path) (fs : FS) : result unit :=
  match parent p with
  | [] => Ok tt
  | q =>
      match fs !! q with
      | Some Dir => Ok tt
      | Some (File _) => Raise NotADirectoryError
      | None => Raise FileNotFoundError
      end
  end.

(** [Path.mkdir(parents, exist_ok)] *)
Definition fs_mkdir (p : Path) (parents exist_ok : bool) (fs : FS) : result unit * FS :=
  match fs !! p with
  | Some Dir => if exist_ok then (Ok tt, fs) else (Raise FileExistsError, fs)
  | Some (File _) => (Raise FileExistsError, fs)
  | None =>
      if parents
      then
        match ensure_dirs (ancestors p) fs with
        | Ok fs' => (Ok tt, <[p := Dir]> fs')
        | Raise e => (Raise e, fs)
        end
      else
        match check_parent p fs with
        | Ok _ => (Ok tt, <[p := Dir]> fs)
        | Raise e => (Raise e, fs)
        end
  end.

Definition fs_exists (p : Path) (fs : FS) : bool :=
  match fs !! p with Some _ => true | None => false end.

Definition fs_read_text (p : Path) (fs : FS) : result string :=
  match fs !! p with
  | Some (File c) => Ok c
  | Some Dir => Raise IsADirectoryError
  | None => Raise FileNotFoundError
  end.

Definition fs_write_text (p : Path) (text : string) (fs : FS) : result unit * FS :=
  match fs !! p with
  | Some Dir => (Raise IsADirectoryError, fs)
  | _ =>
      match check_parent p fs with
      | Ok _ => (Ok tt, <[p := File text]> fs)
      | Raise e => (Raise e, fs)
      end
  end.

(** [shutil.copy2]: into the directory when the destination is one. *)
Definition fs_copy2 (src dst : Path) (fs : FS) : result unit * FS :=
  match fs !! src with
  | None => (Raise FileNotFoundError, fs)
  | Some Dir => (Raise IsADirectoryError, fs)
  | Some (File c) =>
      let target :=
        match fs !! dst with
        | Some Dir => path_join dst (List.last src "")
        | _ => dst
        end in
      fs_write_text target c fs
  end.

Section Instance.

Variable inspect_tool : node -> completed_process.
Variable loads : string -> option value.
Variable dumps : value -> string.

Definition fs_exec (e : event) (fs : FS) : completed_process * FS :=
  match argv e with
  | [Str cmd; Str sub; PathArg p; Str opt; Str what] =>
      if String.eqb cmd "nydus-image" && String.eqb sub "inspect"
         && String.eqb opt "--request" && String.eqb what "blobs"
      then
        match fs !! p with
        | Some n => (inspect_tool n, fs)
        | None => (mkProc 1 "" "no such file", fs)
        end
      else (mkProc 127 "" "command not found", fs)
  | _ => (mkProc 127 "" "command not found", fs)
  end.

Definition fs_os : OS FS := {|
  exec := fs_exec;
  json_loads := loads;
  json_dumps := dumps;
  shlex_split := fun _ => None;
  mkdir := fs_mkdir;
  mktemp := fun suffix fs =>
    let p := ["/"; "tmp"; ("tmp" +:+ suffix)%string] in
    (Ok p, <[p := File ""]> fs);
  remove := fun p fs => delete p fs;
  path_exists := fs_exists;
  read_text := fs_read_text;
  write_text := fs_write_text;
  copy2 := fs_copy2;
  tar_extract := fun _ member _ _ fs => (Raise (KeyError member), fs)
|}.

(** What [read_from_dir] makes of [config.json] in a directory. *)
Definition dir_config (directory : Path) (fs : FS) : result NydusImageConfig :=
  let config_path := path_join directory "config.json" in
  match fs !! config_path with
  | None => Ok default_image_config
  | Some _ =>
      let+ text := fs_read_text config_path fs in
      let+ config_data := parse_json fs_os text in
      from_dict config_data
  end.

(** What [get_blob_digests] makes of the inspection of a node. *)
Definition node_digests (n : node) : result (list string) :=
  let cp := inspect_tool n in
  if returncode cp =? 0
  then
    let+ blob_data := parse_json fs_os (stdout cp) in
    digests_of_blob_data blob_data
  else Raise (CalledProcessError (returncode cp) (stdout cp) (stderr cp)).

End Instance.

End FileSystem.

Module SampleFS.

Import FileSystem.

Definition source_dir : Path := ["/"; "src"].
Definition target_dir : Path := ["/"; "dst"].

(** A source directory with a bootstrap and no [config.json]. *)
Definition disk : FS :=
  <[path_join source_dir "bootstrap" := File "BOOT"]>
    (<[source_dir := Dir]> (<[["/"] := Dir]> ∅)).

(** The same disk with a target directory in which [bootstrap] is a
    directory. *)
Definition disk_with_bootstrap_dir : FS :=
  <[path_join target_dir "bootstrap" := Dir]> (<[target_dir := Dir]> disk).

Definition inspector (n : node) : completed_process :=
  match n with
  | File c => if String.eqb c "BOOT" then mkProc 0 "BLOBS" "" else mkProc 1 "" "bad image"
  | Dir => mkProc 1 "" "is a directory"
  end.

Definition loads (s : string) : option value :=
  if String.eqb s "BLOBS" then Some SampleOS.two_blobs
  else if String.eqb s "CONFIG" then Some (to_dict default_image_config)
  else None.

Definition dumps (_ : value) : string := "CONFIG".

Definition disk_os : OS FS := fs_os inspector loads dumps.

Definition image_read : NydusImageWithBackends :=
  mkImage (path_join source_dir "bootstrap")
    [mkBlob "00112233" Sample.s3; mkBlob "AABBccdd99" Sample.s3]
    default_image_config.

End SampleFS.

(** ** [repacker.py] *)

Definition unpack_event (bootstrap_path blob_dir output_tar : Path) : event :=
  Exec [Str "nydus-image"; Str "unpack"; Str "--output"; PathArg output_tar;
        Str "--blob-dir"; PathArg blob_dir; PathArg bootstrap_path] [] None.

Definition create_event (bootstrap_path blob_dir tar_path : Path)
  (additional_opts : list string) : event :=
  Exec ([Str "nydus-image"; Str "create"; Str "--type"; Str "tar-rafs";
         Str "--bootstrap"; PathArg bootstrap_path;
         Str "--blob-dir"; PathArg blob_dir; PathArg tar_path]
        ++ map Str additional_opts) [] None.

Definition local_dir_of (b : NydusBackend) : option Path :=
  match b with
  | NydusLocalFilesystemBackend blob_dir => Some blob_dir
  | NydusS3Backend _ _ _ _ _ _ => None
  end.

Section Repacker.

Context {World : Type}.
Variable sys : OS World.

(** [unpack_nydus_image] *)
Definition unpack_nydus_image (bootstrap_path blob_dir output_tar : Path) : M World unit :=
  let* result := subprocess_run (exec sys) (unpack_event bootstrap_path blob_dir output_tar) in
  if negb (returncode result =? 0)
  then raise (RuntimeError "nydus-image unpack failed")
  else ret tt.

(** [repack_nydus_image] *)
Definition repack_nydus_image (tar_path repack_dir : Path) (create_opts : string)
  (target_blob_dir : option Path) : M World (Path * Path) :=
  let bootstrap_path := path_join repack_dir "bootstrap" in
  let* blob_dir :=
    match target_blob_dir with
    | Some d => run call (mkdir sys d true true) then ret d
    | None =>
        let d := path_join repack_dir "blobs" in
        run call (mkdir sys d true false) then ret d
    end in
  let* additional_opts :=
    (if negb (is_blank create_opts)
     then
       match shlex_split sys create_opts with
       | Some opts => ret opts
       | None => raise (ValueError "No closing quotation")
       end
     else ret []) in
  let* result :=
    subprocess_run_check (exec sys)
      (create_event bootstrap_path blob_dir tar_path additional_opts) in
  if negb (returncode result =? 0)
  then raise (RuntimeError "nydus-image create failed")
  else ret (bootstrap_path, blob_dir).

(** Step 1 of [repack_image]: the directory in which the source blobs are
    to be found by the unpacking. *)
Definition localize_source (source_image : NydusImageWithBackends) (temp_dir : Path)
  : M World Path :=
  let download :=
    let local_blob_dir := path_join temp_dir "local_blobs" in
    run call (mkdir sys local_blob_dir true false) then
    let local_source_backend := NydusLocalFilesystemBackend local_blob_dir in
    let local_blob_locations :=
      map (fun layer => mkBlob (digest layer) local_source_backend)
        (layers source_image) in
    let local_source_image :=
      mkImage (bootstrap_local_path source_image) local_blob_locations
        (image_config source_image) in
    run copy_blobs (exec sys) source_image local_source_image then
    ret local_blob_dir in
  match layers source_image with
  | first :: _ =>
      match backend first with
      | NydusLocalFilesystemBackend blob_dir => ret blob_dir
      | NydusS3Backend _ _ _ _ _ _ => download
      end
  | [] => download
  end.

(** [repack_image] *)
Definition repack_image (source_image : NydusImageWithBackends)
  (target_backend : NydusBackend) (create_opts : string) (temp_dir : Path)
  : M World (NydusImageWithBackends * NydusImageWithBackends) :=
  let unpack_tar_path := path_join temp_dir "unpacked.tar" in
  let repack_dir := path_join temp_dir "repack" in
  run call (mkdir sys repack_dir true false) then
  let* local_blob_dir := localize_source source_image temp_dir in
  run unpack_nydus_image (bootstrap_local_path source_image) local_blob_dir
        unpack_tar_path then
  let target_blob_dir_for_create := local_dir_of target_backend in
  let* created :=
    repack_nydus_image unpack_tar_path repack_dir create_opts target_blob_dir_for_create in
  let new_bootstrap_path := fst created in
  let actual_blob_dir := snd created in
  let* blob_digests := get_blob_digests sys new_bootstrap_path in
  let repacked_image :=
    mkImage new_bootstrap_path (map (fun d => mkBlob d target_backend) blob_digests)
      (image_config source_image) in
  let temp_localfs_backend := NydusLocalFilesystemBackend actual_blob_dir in
  let temp_source_image :=
    mkImage new_bootstrap_path (map (fun d => mkBlob d temp_localfs_backend) blob_digests)
      (image_config repacked_image) in
  ret (repacked_image, temp_source_image).

End Repacker.

Module SampleRepack.

Definition other_dir : NydusBackend := NydusLocalFilesystemBackend ["/"; "cache"].

(** The first layer is in a local directory, the second on object
    storage. *)
Definition mixed_image : NydusImageWithBackends :=
  mkImage Sample.boot
    [mkBlob "00112233" Sample.localfs; mkBlob "aabbccdd" Sample.s3]
    default_image_config.

Definition work_dir : Path := ["/"; "tmp"; "work"].

Definition counting_os : OS nat := SampleOS.const_os "[]" SampleOS.two_blobs.

End SampleRepack.

#[global] Instance NydusBackend_eq_dec : EqDecision NydusBackend.
Proof. solve_decision. Defined.

(** The manifest [m] with the media type of its config entry replaced. *)
Definition with_config_media_type (m : value) (media_type : string) : value :=
  match m with
  | VDict kvs =>
      match assoc_get "config" kvs with
      | Some (VDict config_kvs) =>
          VDict (assoc_set "config"
                   (VDict (assoc_set "mediaType" (VStr media_type) config_kvs)) kvs)
      | _ => m
      end
  | _ => m
  end.

(** The options [repack_nydus_image] appends to the [create] command. *)
Definition create_args {World : Type} (sys : OS World) (create_opts : string)
  : option (list string) :=
  if negb (is_blank create_opts) then shlex_split sys create_opts else Some [].

(** The directory [localize_source] hands to the unpacking. *)
Definition local_blob_dir_of (source_image : NydusImageWithBackends) (temp_dir : Path)
  : Path :=
  match layers source_image with
  | first :: _ =>
      match local_dir_of (backend first) with
      | Some d => d
      | None => path_join temp_dir "local_blobs"
      end
  | [] => path_join temp_dir "local_blobs"
  end.

(** ** [main.py]: backend arguments *)

(** [d.pop(k)] leaves the dict without the key. *)
Fixpoint assoc_del {V} (k : string) (kvs : list (string * V)) : list (string * V) :=
  match kvs with
  | [] => []
  | (k', v) :: rest =>
      if String.eqb k k' then assoc_del k rest else (k', v) :: assoc_del k rest
  end.

(** [if alias in config: config[name] = config.pop(alias)] *)
Definition rename_key (alias name : string) (kvs : list (string * value))
  : list (string * value) :=
  match assoc_get alias kvs with
  | Some v => assoc_set name v (assoc_del alias kvs)
  | None => kvs
  end.

Definition expected_keys : list string :=
  ["endpoint"; "bucket"; "region"; "object_prefix"; "access_key"; "secret_key"].

Definition is_expected (k : string) : bool := existsb (String.eqb k) expected_keys.

(** The keyword arguments the constructor [NydusS3Backend] receives from
    the filtered config; the dataclass stores them as they are. *)
Record S3Fields : Type := mkS3Fields {
  f_endpoint : value;
  f_bucket : value;
  f_region : value;
  f_access_key : value;
  f_secret_key : value;
  f_object_prefix : value
}.

(** The constructor [NydusS3Backend] on keyword arguments: the five fields
    without a default are required; [object_prefix] has a default. *)
Definition NydusS3Backend_kwargs (kwargs : list (string * value)) : result S3Fields :=
  match assoc_get "endpoint" kwargs, assoc_get "bucket" kwargs, assoc_get "region" kwargs,
        assoc_get "access_key" kwargs, assoc_get "secret_key" kwargs with
  | Some e, Some b, Some r, Some a, Some s =>
      Ok (mkS3Fields e b r a s
            (match assoc_get "object_prefix" kwargs with
             | Some o => o
             | None => VStr "nydus/"
             end))
  | _, _, _, _, _ => Raise TypeError
  end.

(** The backend of the data model, when every field is a string. *)
Definition backend_of_fields (f : S3Fields) : option NydusBackend :=
  match f_endpoint f, f_bucket f, f_region f, f_access_key f, f_secret_key f,
        f_object_prefix f with
  | VStr e, VStr b, VStr r, VStr a, VStr s, VStr o => Some (NydusS3Backend e b r a s o)
  | _, _, _, _, _, _ => None
  end.

(** The ["s3"] case of [BackendArguments.parse_arguments], from the parsed
    config file on, for a config that is a JSON object: the fields of the
    backend, and the keys the warning names (none: no warning). *)
Definition parse_s3_config (config : list (string * value))
  : result S3Fields * list string :=
  let config := rename_key "bucket_name" "bucket" config in
  let config := rename_key "access_key_id" "access_key" config in
  let config := rename_key "access_key_secret" "secret_key" config in
  let excess_keys := filter (fun k => is_expected k = false) (map fst config) in
  let config :=
    match assoc_get "object_prefix" config with
    | Some _ => config
    | None => assoc_set "object_prefix" (VStr "nydus/") config
    end in
  let filtered_config := filter (fun kv => is_expected (fst kv) = true) config in
  (NydusS3Backend_kwargs filtered_config, excess_keys).

(** The same for whatever [json.load] returned: only a dict has the methods
    the code calls.  A list lets the membership tests through and fails at
    [pop] when it holds an alias name, at [keys] otherwise; a string fails at
    [pop] or at [keys]; [None], numbers and booleans fail at the first
    membership test. *)
Definition parse_s3_config_value (config : value) : result S3Fields * list string :=
  match config with
  | VDict kvs => parse_s3_config kvs
  | VList l =>
      if existsb (fun v => eq_str v "bucket_name" || eq_str v "access_key_id"
                           || eq_str v "access_key_secret") l
      then (Raise TypeError, [])
      else (Raise AttributeError, [])
  | VStr _ => (Raise AttributeError, [])
  | _ => (Raise TypeError, [])
  end.

(** A field given under its alias or under its own name; the alias wins. *)
Definition alias_or (alias name : string) (config : list (string * value)) : option value :=
  match assoc_get alias config with
  | Some v => Some v
  | None => assoc_get name config
  end.

Definition alias_keys : list string :=
  ["bucket_name"; "access_key_id"; "access_key_secret"].

Module SampleConfig.

(** The three aliases and nothing else. *)
Definition aliases_only : list (string * value) :=
  [ ("bucket_name", VStr "x"); ("access_key_id", VStr "a");
    ("access_key_secret", VStr "s") ].

(** A complete config that uses the aliases. *)
Definition with_aliases : list (string * value) :=
  [ ("endpoint", VStr "https://s3.example"); ("region", VStr "eu-1");
    ("bucket_name", VStr "x"); ("access_key_id", VStr "a");
    ("access_key_secret", VStr "s") ].

End SampleConfig.

(** ** [manifest.py]: upload *)

(** [v[k] = x] on a dict. *)
Definition setitem (v : value) (k : string) (x : value) : value :=
  match v with
  | VDict kvs => VDict (assoc_set k x kvs)
  | _ => v
  end.

(** What the upload and the command line ask of the environment besides
    [OS]. *)
Record OSExt (World : Type) : Type := mkOSExt {
  (* tarfile.open(archive, "w:gz") and tar.add(file, arcname=...) *)
  tar_add : Path -> Path -> string -> World -> result unit * World;
  (* path.stat().st_size *)
  stat_size : Path -> World -> result Z;
  (* json.dump without indentation *)
  json_dumps_compact : value -> string;
  (* tempfile.TemporaryDirectory(), and its removal on leaving the with
     block *)
  mkdtemp : World -> result Path * World;
  rmtree : Path -> World -> World;
  (* Path(text) *)
  to_path : string -> Path
}.

Arguments tar_add {World} _ _ _ _ _.
Arguments stat_size {World} _ _ _.
Arguments json_dumps_compact {World} _ _.
Arguments mkdtemp {World} _ _.
Arguments rmtree {World} _ _ _.
Arguments to_path {World} _ _.

Definition blob_put_event (reference : string) (file : Path) : event :=
  Exec [Str "regctl"; Str "blob"; Str "put"; Str reference; PathArg file] [] None.

Definition manifest_put_event (reference : string) (file : Path) : event :=
  Exec [Str "regctl"; Str "manifest"; Str "put"; Str reference; PathArg file] [] None.

(** The config blob: the image config with the root file system that has
    the bootstrap layer as its only layer. *)
Definition config_blob (c : NydusImageConfig) (bootstrap_digest : string) : value :=
  setitem (to_dict c) "rootfs"
    (VDict [("type", VStr "layers"); ("diff_ids", VList [VStr bootstrap_digest])]).

Section Upload.

Context {World : Type}.
Variable sys : OS World.
Variable ext : OSExt World.

(** [upload_bootstrap_and_manifest] *)
Definition upload_bootstrap_and_manifest (nydus_image : NydusImageWithBackends)
  (reference : string) : M World unit :=
  with_tempfile sys ".tar.gz" (fun temp_tar_path =>
    run call (tar_add ext temp_tar_path (bootstrap_local_path nydus_image)
                "image/image.boot") then
    let* result :=
      subprocess_run_check (exec sys) (blob_put_event reference temp_tar_path) in
    let bootstrap_digest := strip (stdout result) in
    let* bootstrap_size := (fun w => (stat_size ext temp_tar_path w, w, [])) in
    let config := config_blob (image_config nydus_image) bootstrap_digest in
    with_tempfile sys ".json" (fun config_path =>
      run call (write_text sys config_path (json_dumps_compact ext config)) then
      let* config_result :=
        subprocess_run_check (exec sys) (blob_put_event reference config_path) in
      let config_digest := strip (stdout config_result) in
      let* config_size := (fun w => (stat_size ext config_path w, w, [])) in
      let manifest :=
        create_oci_manifest config_digest config_size bootstrap_digest bootstrap_size in
      with_tempfile sys ".json" (fun manifest_path =>
        run call (write_text sys manifest_path (json_dumps_compact ext manifest)) then
        run subprocess_run_check (exec sys)
              (manifest_put_event reference manifest_path) then
        ret tt))).

End Upload.

(** ** [main.py]: the copy command *)

(** The four options of the command that choose source and target; each is
    a string or [None]. *)
Record CopyArgs : Type := mkCopyArgs {
  source_oci_reference : option string;
  source_oci_dir : option string;
  target_oci_reference : option string;
  target_oci_dir : option string
}.

(** [if option:]: given and not empty. *)
Definition given (o : option string) : option string :=
  match o with
  | Some s => if String.eqb s "" then None else Some s
  | None => None
  end.

(** [with tempfile.TemporaryDirectory() as temp_dir: body]: the directory is
    removed however the body ends. *)
Definition with_tempdir {W A} (ext : OSExt W) (body : Path -> M W A) : M W A :=
  let* p := call (mkdtemp ext) in
  fun w =>
    match body p w with
    | (r, w1, ev) => (r, rmtree ext p w1, ev)
    end.

Section CopyCommand.

Context {World : Type}.
Variable sys : OS World.
Variable ext : OSExt World.

(** The first half of [CopyCommand.run]: load the source image. *)
Definition load_source (args : CopyArgs) (source_backend : NydusBackend)
  (temp_path : Path) : M World NydusImageWithBackends :=
  match given (source_oci_reference args) with
  | Some reference => download_bootstrap_and_manifest sys reference source_backend temp_path
  | None =>
      match given (source_oci_dir args) with
      | Some dir => read_from_dir sys (to_path ext dir) source_backend
      | None =>
          raise (ValueError
                   "Either --source-oci-reference or --source-oci-dir must be specified")
      end
  end.

(** The last step of [CopyCommand.run]: save the target image. *)
Definition save_target (args : CopyArgs) (target_image : NydusImageWithBackends)
  : M World unit :=
  match given (target_oci_reference args) with
  | Some reference => upload_bootstrap_and_manifest sys ext target_image reference
  | None =>
      match given (target_oci_dir args) with
      | Some dir => write_to_dir sys target_image (to_path ext dir)
      | None =>
          raise (ValueError
                   "Either --target-oci-reference or --target-oci-dir must be specified")
      end
  end.

(** [CopyCommand.run], from the two parsed backends on. *)
Definition copy_command_run (args : CopyArgs) (source_backend target_backend : NydusBackend)
  : M World unit :=
  with_tempdir ext (fun temp_path =>
    let* source_image := load_source args source_backend temp_path in
    let target_image := change_backends source_image target_backend in
    run copy_blobs (exec sys) source_image target_image then
    save_target args target_image).

End CopyCommand.

(** The three kinds of process the copy command starts. *)
Definition is_transport (e : event) : bool :=
  match argv e with
  | Str cmd :: Str sub :: _ => String.eqb cmd "rclone" && String.eqb sub "copy"
  | _ => false
  end.

Definition is_put (e : event) : bool :=
  match argv e with
  | Str cmd :: Str _ :: Str verb :: _ => String.eqb cmd "regctl" && String.eqb verb "put"
  | _ => false
  end.

(** A process that only reads: neither a transport nor a put. *)
Definition is_read_only (e : event) : bool := negb (is_transport e) && negb (is_put e).

Module SampleWorld.

(** A world that counts its steps.  A process fails (status 1) when
    [fails] says so; a blob download prints an empty JSON object, every
    other process the inspection output with two blobs. *)
Definition scripted_os (fails : event -> bool) : OS nat := {|
  exec := fun e w =>
    (mkProc (if fails e then 1 else 0) (if is_blob_get e then "{}" else "[]") "failed",
     S w);
  json_loads := fun s =>
    if String.eqb s "{}" then Some (VDict [])
    else if String.eqb s "[]" then Some SampleOS.two_blobs
    else None;
  json_dumps := fun _ => "{}";
  shlex_split := fun _ => Some [];
  mkdir := fun _ _ _ w => (Ok tt, S w);
  mktemp := fun suffix w => (Ok ["/"; "tmp"; ("tmp" +:+ suffix)%string], S w);
  remove := fun _ w => S w;
  path_exists := fun _ _ => true;
  read_text := fun _ _ => Ok "{}";
  write_text := fun _ _ w => (Ok tt, S w);
  copy2 := fun _ _ w => (Ok tt, S w);
  tar_extract := fun _ _ _ _ w => (Ok tt, S w)
|}.

Definition reliable_os : OS nat := scripted_os (fun _ => false).

Definition counting_ext : OSExt nat := {|
  tar_add := fun _ _ _ w => (Ok tt, S w);
  stat_size := fun _ _ => Ok 10;
  json_dumps_compact := fun _ => "{}";
  mkdtemp := fun w => (Ok ["/"; "tmp"; "work"], S w);
  rmtree := fun _ w => S w;
  to_path := fun s => [s]
|}.

Definition valid_manifest : value :=
  SampleOS.manifest_with 2 [SampleOS.one_layer SampleOS.good_annotations].

Definition dir_to_dir : CopyArgs := mkCopyArgs None (Some "src") None (Some "dst").

(** The process is the unpacking. *)
Definition is_unpack (e : event) : bool :=
  match argv e with
  | Str _ :: Str sub :: _ => String.eqb sub "unpack"
  | _ => false
  end.

End SampleWorld.

(** * Properties *)

(** ** The monad and the loop *)

Lemma for_each_app {W A} (f : A -> M W unit) (l1 l2 : list A) (w : W) :
  for_each f (l1 ++ l2) w =
  match for_each f l1 w with
  | (Ok _, w1, ev1) =>
      match for_each f l2 w1 with (r, w2, ev2) => (r, w2, ev1 ++ ev2) end
  | (Raise e, w1, ev1) => (Raise e, w1, ev1)
  end.
Proof.
  revert w. induction l1 as [|x l1 IH]; intros w; simpl.
  - unfold ret. destruct (for_each f l2 w) as [[r w2] ev2]. reflexivity.
  - unfold bind. destruct (f x w) as [[[u|e] w1] ev1]; [|reflexivity].
    rewrite IH. destruct (for_each f l1 w1) as [[[u1|e1] w2] ev2].
    + destruct (for_each f l2 w2) as [[r w3] ev3]. by rewrite app_assoc.
    + reflexivity.
Qed.

Lemma outcome_bind {W A B} (m : M W A) (k : A -> M W B) (w : W) :
  outcome (bind m k w) =
  match outcome (m w) with
  | Ok a => outcome (k a (world_after (m w)))
  | Raise e => Raise e
  end.
Proof.
  unfold bind, outcome, world_after.
  destruct (m w) as [[[a|e] w1] ev1]; simpl; [|reflexivity].
  by destruct (k a w1) as [[r w2] ev2].
Qed.

Lemma world_after_bind {W A B} (m : M W A) (k : A -> M W B) (w : W) :
  world_after (bind m k w) =
  match outcome (m w) with
  | Ok a => world_after (k a (world_after (m w)))
  | Raise e => world_after (m w)
  end.
Proof.
  unfold bind, outcome, world_after.
  destruct (m w) as [[[a|e] w1] ev1]; simpl; [|reflexivity].
  by destruct (k a w1) as [[r w2] ev2].
Qed.

Lemma bind_Ok_inv {W A B} (m : M W A) (k : A -> M W B) (w w' : W) (b : B)
    (evs : list event) :
  bind m k w = (Ok b, w', evs) ->
  exists a w1 ev1 ev2,
    m w = (Ok a, w1, ev1) /\ k a w1 = (Ok b, w', ev2) /\ evs = ev1 ++ ev2.
Proof.
  unfold bind. destruct (m w) as [[[a|e] w1] ev1]; [|discriminate].
  destruct (k a w1) as [[r w2] ev2] eqn:Hk. intros [= -> -> <-].
  by exists a, w1, ev1, ev2.
Qed.

(** ** Backend equality *)

Lemma backend_eqb_eq (a b : NydusBackend) : backend_eqb a b = true <-> a = b.
Proof.
  destruct a, b; simpl; unfold path_eqb;
    rewrite ?andb_true_iff, ?String.eqb_eq, ?bool_decide_eq_true;
    try (split; [discriminate | discriminate]);
    split; try (intros; destruct_and?; congruence);
    intros H; injection H; intros; subst; auto 10.
Qed.

Lemma backend_eqb_neq (a b : NydusBackend) : backend_eqb a b = false <-> a <> b.
Proof.
  rewrite <- backend_eqb_eq. destruct (backend_eqb a b); split; congruence.
Qed.

(** ** [copy_blobs] *)

Section CopierFacts.

Context {World : Type}.
Variable oracle : event -> World -> completed_process * World.

(** What one iteration does once the digests agree: nothing for equal
    backends, one checked [rclone copy] otherwise. *)
Lemma copy_pair_run (p : NydusBlobLocation * NydusBlobLocation) (w : World) :
  digest (fst p) = digest (snd p) ->
  copy_pair oracle p w =
  if backends_differ p
  then
    let ev := transport_event (fst p) (snd p) in
    let cp := fst (oracle ev w) in
    if returncode cp =? 0 then (Ok tt, snd (oracle ev w), [ev])
    else (Raise (CalledProcessError (returncode cp) (stdout cp) (stderr cp)),
          snd (oracle ev w), [ev])
  else (Ok tt, w, []).
Proof.
  intros Hd. destruct p as [sb tb]. simpl in *.
  unfold copy_pair, copy_blob, backends_differ. simpl.
  rewrite Hd, String.eqb_refl. simpl.
  destruct (backend_eqb (backend sb) (backend tb)); simpl; [reflexivity|].
  unfold bind, lift, rclone_copy, subprocess_run_check, transport_event. simpl.
  unfold bind. rewrite Hd.
  destruct (oracle _ w) as [cp w']. simpl.
  destruct (returncode cp =? 0); reflexivity.
Qed.

Lemma compatible_pairs (a b : NydusImageWithBackends) :
  copy_compatible a b -> Forall digests_agree (zip (layers a) (layers b)).
Proof.
  intros (_ & _ & Hd). apply Forall_lookup_2. intros i [sb tb] Hi.
  apply lookup_zip_with_Some in Hi as (x & y & Heq & Hx & Hy).
  injection Heq as -> ->. exact (Hd i x y Hx Hy).
Qed.

(** With the preconditions met, [copy_blobs] is its loop. *)
Lemma copy_blobs_compatible (a b : NydusImageWithBackends) (w : World) :
  copy_compatible a b ->
  copy_blobs oracle a b w = for_each (copy_pair oracle) (zip (layers a) (layers b)) w.
Proof.
  intros Hc. pose proof (compatible_pairs a b Hc) as Hall.
  destruct Hc as (Hb & Hl & _). unfold copy_blobs, path_eqb.
  rewrite bool_decide_eq_true_2 by exact Hb. simpl.
  rewrite Hl, Nat.eqb_refl. simpl.
  replace (existsb digests_differ (zip (layers a) (layers b))) with false; [reflexivity|].
  symmetry. apply not_true_is_false. intros He.
  apply existsb_exists in He as (p & Hin & Hp).
  rewrite Forall_forall in Hall. apply list_elem_of_In in Hin.
  specialize (Hall p Hin). unfold digests_agree in Hall.
  unfold digests_differ in Hp. rewrite Hall, String.eqb_refl in Hp. discriminate.
Qed.

(** A loop that returns normally ran exactly the transports of the pairs
    with different backends, in list order. *)
Lemma loop_ok_events (ps : list (NydusBlobLocation * NydusBlobLocation)) :
  Forall digests_agree ps ->
  forall w u w' evs,
    for_each (copy_pair oracle) ps w = (Ok u, w', evs) ->
    evs = map (fun p => transport_event (fst p) (snd p)) (filter (fun p => backends_differ p = true) ps).
Proof.
  induction 1 as [|p ps Hp Hps IH]; intros w u w' evs Hrun; simpl in Hrun.
  - unfold ret in Hrun. by injection Hrun as <- <- <-.
  - unfold bind in Hrun. rewrite (copy_pair_run p w Hp) in Hrun.
    rewrite filter_cons. destruct (backends_differ p) eqn:Hdiff.
    + simpl in Hrun.
      destruct (returncode (oracle (transport_event p.1 p.2) w).1 =? 0); [|discriminate].
      destruct (for_each _ ps _) as [[r w2] ev2] eqn:Hrest.
      injection Hrun as -> <- <-.
      rewrite decide_True by reflexivity. simpl. f_equal. eapply IH; eauto.
    + destruct (for_each _ ps _) as [[r w2] ev2] eqn:Hrest.
      injection Hrun as -> <- <-.
      rewrite decide_False by discriminate. simpl. eapply IH; eauto.
Qed.

Lemma reaches_events (a b : NydusImageWithBackends) (w w_i : World) (i : nat) :
  copy_compatible a b ->
  reaches oracle a b w i = Some w_i ->
  exists u,
    for_each (copy_pair oracle) (take i (zip (layers a) (layers b))) w =
    (Ok u, w_i,
     map (fun p => transport_event (fst p) (snd p))
       (filter (fun p => backends_differ p = true) (take i (zip (layers a) (layers b))))).
Proof.
  intros Hc Hr. unfold reaches, loop_reaches in Hr.
  destruct (for_each _ _ w) as [[[u|e] w1] evs] eqn:Hrun; [|discriminate].
  injection Hr as ->. exists u. f_equal.
  eapply loop_ok_events; [|exact Hrun].
  apply Forall_take. by apply compatible_pairs.
Qed.

(** The loop gets to blob [i] only after getting to every earlier blob and
    returning normally from its iteration. *)
Lemma reaches_earlier (a b : NydusImageWithBackends) (w w_i : World) (i j : nat) p :
  copy_compatible a b ->
  reaches oracle a b w i = Some w_i ->
  (j < i)%nat ->
  zip (layers a) (layers b) !! j = Some p ->
  exists w_j, reaches oracle a b w j = Some w_j
              /\ outcome (copy_pair oracle p w_j) = Ok tt.
Proof.
  intros Hc Hr Hlt Hp. unfold reaches, loop_reaches in *.
  set (ps := zip (layers a) (layers b)) in *.
  assert (Hsplit : take i ps = take j ps ++ p :: drop (S j) (take i ps)).
  { rewrite <- (take_drop j (take i ps)) at 1.
    rewrite take_take, Nat.min_l by lia. f_equal.
    apply drop_S. rewrite lookup_take_lt by lia. exact Hp. }
  rewrite Hsplit, for_each_app in Hr.
  destruct (for_each _ (take j ps) w) as [[[u|e] w1] ev1]; [|discriminate].
  exists w1. split; [reflexivity|].
  simpl in Hr. unfold bind in Hr.
  destruct (copy_pair oracle p w1) as [[[[]|e] w2] ev2]; [reflexivity|discriminate].
Qed.

Lemma loop_events_prefix (ps : list (NydusBlobLocation * NydusBlobLocation)) :
  Forall digests_agree ps ->
  forall w,
    events (for_each (copy_pair oracle) ps w) `prefix_of`
    map (fun p => transport_event (fst p) (snd p)) (filter (fun p => backends_differ p = true) ps).
Proof.
  induction 1 as [|p ps Hp Hps IH]; intros w; simpl.
  - reflexivity.
  - unfold bind. rewrite (copy_pair_run p w Hp), filter_cons.
    destruct (backends_differ p) eqn:Hdiff.
    + rewrite decide_True by reflexivity. simpl.
      destruct (returncode _ =? 0).
      * specialize (IH (oracle (transport_event p.1 p.2) w).2).
        destruct (for_each _ ps _) as [[r w2] ev2]. simpl in *.
        by apply prefix_cons.
      * simpl. apply prefix_cons, prefix_nil.
    + rewrite decide_False by discriminate.
      specialize (IH w). destruct (for_each _ ps _) as [[r w2] ev2]. exact IH.
Qed.

(** The events of the loop are those of its iterations, one after another. *)
Lemma loop_events_by_blob (ps : list (NydusBlobLocation * NydusBlobLocation)) :
  forall w,
    events (for_each (copy_pair oracle) ps w) =
    concat (map (loop_blob_events oracle ps w) (seq 0 (List.length ps))).
Proof.
  induction ps as [|p ps IH]; intros w; [reflexivity|].
  cbn [List.length seq map concat].
  rewrite <- seq_shift, map_map.
  assert (H0 : loop_blob_events oracle (p :: ps) w 0 = events (copy_pair oracle p w))
    by reflexivity.
  rewrite H0. simpl for_each. unfold bind.
  destruct (copy_pair oracle p w) as [[[u|e] w1] ev1] eqn:Hp.
  - specialize (IH w1).
    destruct (for_each _ ps w1) as [[r w2] ev2] eqn:Hrest. simpl in *.
    f_equal. rewrite IH. f_equal. apply map_ext. intros i.
    unfold loop_blob_events, loop_reaches. simpl. unfold bind. rewrite Hp.
    destruct (for_each _ (take i ps) w1) as [[[]  w3] ev3]; reflexivity.
  - simpl. rewrite <- (app_nil_r ev1) at 1. f_equal.
    symmetry. apply concat_nil_Forall, Forall_map, Forall_forall. intros i _.
    unfold loop_blob_events, loop_reaches. simpl. unfold bind. by rewrite Hp.
Qed.

(** With agreeing digests the loop returns normally or raises the
    [CalledProcessError] of a failed transport, nothing else. *)
Lemma loop_outcome (ps : list (NydusBlobLocation * NydusBlobLocation)) :
  Forall digests_agree ps ->
  forall w,
    outcome (for_each (copy_pair oracle) ps w) = Ok tt
    \/ exists rc out err,
         outcome (for_each (copy_pair oracle) ps w) = Raise (CalledProcessError rc out err).
Proof.
  induction 1 as [|p ps Hp Hps IH]; intros w; simpl; [by left|].
  rewrite outcome_bind, (copy_pair_run p w Hp).
  destruct (backends_differ p); [|apply IH].
  cbv zeta. destruct (returncode _ =? 0); [apply IH|].
  right. simpl. eauto.
Qed.

End CopierFacts.

Lemma copy_compatibleb_sound (a b : NydusImageWithBackends) :
  copy_compatibleb a b = true -> copy_compatible a b.
Proof.
  unfold copy_compatibleb, path_eqb.
  rewrite !andb_true_iff, bool_decide_eq_true, Nat.eqb_eq, negb_true_iff.
  intros [[Hb Hl] He]. split; [exact Hb|]. split; [exact Hl|].
  intros i sb tb Hs Ht.
  destruct (String.eqb (digest sb) (digest tb)) eqn:Hd; [by apply String.eqb_eq|].
  exfalso. apply not_true_iff_false in He. apply He.
  apply existsb_exists. exists (sb, tb). split.
  - apply list_elem_of_In, list_elem_of_lookup. exists i.
    apply lookup_zip_with_Some. eauto.
  - unfold digests_differ. simpl. by rewrite Hd.
Qed.

Section CopierClaims.

Context {World : Type}.
Variable oracle : event -> World -> completed_process * World.

(** C1 (as amended).  For copy-compatible descriptors and a layer index [i]
    holding [sb] in the source and [tb] in the target: the iteration for blob
    [i] starts a transport process if and only if the two backends differ and
    the loop gets to blob [i], that is, no transport for an earlier blob
    failed.  When it starts one, it starts exactly one, [rclone copy] with a
    source and a target address: on an object-storage side the address is
    [name:bucket/object_prefix] followed by that blob's digest; on a
    local-filesystem side it is the blob directory alone, without the digest.
    With equal backends it starts none.  The processes of the whole run are
    those of the iterations in layer order. *)
Theorem copy_blobs_transport_iff (a b : NydusImageWithBackends) (w : World)
    (i : nat) (sb tb : NydusBlobLocation) :
  copy_compatible a b ->
  layers a !! i = Some sb ->
  layers b !! i = Some tb ->
  (blob_events oracle a b w i <> [] <->
     backend sb <> backend tb /\ is_Some (reaches oracle a b w i))
  /\ (blob_events oracle a b w i <> [] ->
      blob_events oracle a b w i =
      [rclone_event (digest sb) (mkRclone (backend sb) "source")
                    (mkRclone (backend tb) "target")])
  /\ (forall e, e ∈ blob_events oracle a b w i ->
        argv e =
        [ Str "rclone"; Str "copy";
          Str (match backend sb with
               | NydusS3Backend _ bucket _ _ _ object_prefix =>
                   "source:" +:+ bucket +:+ "/" +:+ object_prefix +:+ digest sb
               | NydusLocalFilesystemBackend blob_dir => path_str blob_dir
               end);
          Str (match backend tb with
               | NydusS3Backend _ bucket _ _ _ object_prefix =>
                   "target:" +:+ bucket +:+ "/" +:+ object_prefix +:+ digest tb
               | NydusLocalFilesystemBackend blob_dir => path_str blob_dir
               end) ])
  /\ (backend sb = backend tb -> blob_events oracle a b w i = [])
  /\ events (copy_blobs oracle a b w) =
     concat (map (blob_events oracle a b w) (seq 0 (List.length (layers a)))).
Proof.
  intros Hc Hs Ht.
  assert (Hp : zip (layers a) (layers b) !! i = Some (sb, tb))
    by (apply lookup_zip_with_Some; eauto).
  assert (Hd : digests_agree (sb, tb)) by (destruct Hc as (_ & _ & Hd); exact (Hd i sb tb Hs Ht)).
  assert (Hshape :
    blob_events oracle a b w i =
    match reaches oracle a b w i with
    | Some _ => if backends_differ (sb, tb) then [transport_event sb tb] else []
    | None => []
    end).
  { unfold blob_events, loop_blob_events, reaches. rewrite Hp.
    destruct (loop_reaches oracle _ w i) as [w_i|]; [|reflexivity].
    rewrite (copy_pair_run oracle (sb, tb) w_i Hd).
    destruct (backends_differ (sb, tb)); [|reflexivity]. simpl.
    destruct (returncode _ =? 0); reflexivity. }
  assert (Hdiff : backends_differ (sb, tb) = true <-> backend sb <> backend tb).
  { unfold backends_differ. simpl. rewrite negb_true_iff. apply backend_eqb_neq. }
  split; [split|split; [|split; [|split]]].
  - intros Hne. rewrite Hshape in Hne.
    destruct (reaches oracle a b w i); [|congruence].
    destruct (backends_differ (sb, tb)); [|congruence].
    split; [by apply Hdiff | eauto].
  - intros [Hne [w_i Hr]]. rewrite Hshape, Hr.
    apply Hdiff in Hne. rewrite Hne. discriminate.
  - intros Hne. rewrite Hshape in *.
    destruct (reaches oracle a b w i); [|congruence].
    destruct (backends_differ (sb, tb)); [reflexivity|congruence].
  - intros e He. rewrite Hshape in He.
    assert (He' : e = transport_event sb tb).
    { destruct (reaches oracle a b w i); [|by apply elem_of_nil in He].
      destruct (backends_differ (sb, tb)); [|by apply elem_of_nil in He].
      by apply list_elem_of_singleton in He. }
    subst e. unfold digests_agree in Hd. cbn [fst snd] in Hd. rewrite <- Hd.
    destruct sb as [ds [e1 b1 r1 a1 s1 o1|d1]], tb as [dt [e2 b2 r2 a2 s2 o2|d2]];
      reflexivity.
  - intros Heq. rewrite Hshape.
    destruct (reaches oracle a b w i); [|reflexivity].
    destruct (backends_differ (sb, tb)); [|reflexivity].
    exfalso. by apply Hdiff.
  - rewrite (copy_blobs_compatible oracle a b w Hc), loop_events_by_blob.
    unfold blob_events. rewrite length_zip_with.
    destruct Hc as (_ & Hl & _). by rewrite <- Hl, Nat.min_id.
Qed.

(** C2.  If the bootstrap paths differ, or the layer counts differ, or the
    digests differ at some index, [copy_blobs] raises [ValueError], starts no
    process and leaves the world as it found it. *)
Theorem copy_blobs_rejects_incompatible (a b : NydusImageWithBackends) (w : World) :
  bootstrap_local_path a <> bootstrap_local_path b
  \/ List.length (layers a) <> List.length (layers b)
  \/ (exists i sb tb, layers a !! i = Some sb /\ layers b !! i = Some tb
                      /\ digest sb <> digest tb) ->
  exists msg, copy_blobs oracle a b w = (Raise (ValueError msg), w, []).
Proof.
  intros H. unfold copy_blobs, path_eqb.
  destruct (bool_decide _) eqn:Hb; simpl; [|eexists; reflexivity].
  destruct (Nat.eqb _ _) eqn:Hl; simpl; [|eexists; reflexivity].
  destruct (existsb _ _) eqn:He; [eexists; reflexivity|].
  exfalso. apply bool_decide_eq_true in Hb. apply Nat.eqb_eq in Hl.
  destruct H as [H | [H | (i & sb & tb & Hs & Ht & Hd)]]; [contradiction..|].
  apply not_true_iff_false in He. apply He, existsb_exists.
  exists (sb, tb). split.
  - apply list_elem_of_In, list_elem_of_lookup. exists i.
    apply lookup_zip_with_Some. eauto.
  - unfold digests_differ. simpl. apply negb_true_iff, String.eqb_neq, Hd.
Qed.

End CopierClaims.

Section CopierFailure.

Context {World : Type}.
Variable oracle : event -> World -> completed_process * World.

(** C3.  Blobs are handled in layer order: the processes of any run are an
    initial segment of the transports of the layers whose backends differ.
    When the loop gets to blob [i] in world [w_i] and the transport for blob
    [i] exits with a non-zero status, [copy_blobs] raises
    [CalledProcessError] with that status and the captured output; the
    processes run are the transports of the earlier blobs followed by the
    failed one; every earlier iteration had returned normally; and no
    iteration for a later blob starts. *)
Theorem copy_blobs_aborts_on_transport_failure (a b : NydusImageWithBackends)
    (w w_i : World) (i : nat) (sb tb : NydusBlobLocation) :
  copy_compatible a b ->
  layers a !! i = Some sb ->
  layers b !! i = Some tb ->
  backend sb <> backend tb ->
  reaches oracle a b w i = Some w_i ->
  returncode (fst (oracle (transport_event sb tb) w_i)) <> 0 ->
  let pairs := zip (layers a) (layers b) in
  let transports (ps : list (NydusBlobLocation * NydusBlobLocation)) :=
    map (fun p => transport_event (fst p) (snd p))
      (filter (fun p => backends_differ p = true) ps) in
  let cp := fst (oracle (transport_event sb tb) w_i) in
  copy_blobs oracle a b w =
    (Raise (CalledProcessError (returncode cp) (stdout cp) (stderr cp)),
     snd (oracle (transport_event sb tb) w_i),
     transports (take i pairs) ++ [transport_event sb tb])
  /\ events (copy_blobs oracle a b w) `prefix_of` transports pairs
  /\ (forall j p, (j < i)%nat -> pairs !! j = Some p ->
        exists w_j, reaches oracle a b w j = Some w_j
                    /\ outcome (copy_pair oracle p w_j) = Ok tt)
  /\ (forall j, (i < j)%nat ->
        reaches oracle a b w j = None /\ blob_events oracle a b w j = []).
Proof.
  intros Hc Hs Ht Hne Hr Hrc pairs transports cp.
  assert (Hp : pairs !! i = Some (sb, tb)) by (apply lookup_zip_with_Some; eauto).
  assert (Hd : digests_agree (sb, tb))
    by (destruct Hc as (_ & _ & Hd); exact (Hd i sb tb Hs Ht)).
  assert (Hdiff : backends_differ (sb, tb) = true)
    by (unfold backends_differ; simpl; by apply negb_true_iff, backend_eqb_neq).
  destruct (reaches_events oracle a b w w_i i Hc Hr) as [u Hpre].
  fold pairs in Hpre.
  assert (Hstep : copy_pair oracle (sb, tb) w_i =
    (Raise (CalledProcessError (returncode cp) (stdout cp) (stderr cp)),
     snd (oracle (transport_event sb tb) w_i), [transport_event sb tb])).
  { rewrite (copy_pair_run oracle (sb, tb) w_i Hd), Hdiff. simpl.
    apply Z.eqb_neq in Hrc. by rewrite Hrc. }
  assert (Hfrom : forall rest,
    for_each (copy_pair oracle) (take i pairs ++ (sb, tb) :: rest) w =
    (Raise (CalledProcessError (returncode cp) (stdout cp) (stderr cp)),
     snd (oracle (transport_event sb tb) w_i),
     transports (take i pairs) ++ [transport_event sb tb])).
  { intros rest. rewrite for_each_app, Hpre. simpl. unfold bind.
    by rewrite Hstep. }
  split; [|split; [|split]].
  - rewrite (copy_blobs_compatible oracle a b w Hc). fold pairs.
    rewrite <- (take_drop_middle pairs i (sb, tb) Hp) at 1. apply Hfrom.
  - rewrite (copy_blobs_compatible oracle a b w Hc).
    apply loop_events_prefix. by apply compatible_pairs.
  - intros j p Hlt Hj. by apply (reaches_earlier oracle a b w w_i i j p).
  - intros j Hlt.
    assert (Hnone : reaches oracle a b w j = None).
    { unfold reaches, loop_reaches. fold pairs.
      assert (Hsplit : take j pairs = take i pairs ++ (sb, tb) :: drop (S i) (take j pairs)).
      { rewrite <- (take_drop i (take j pairs)) at 1.
        rewrite take_take, Nat.min_l by lia. f_equal.
        apply drop_S. by rewrite lookup_take_lt by lia. }
      by rewrite Hsplit, Hfrom. }
    split; [exact Hnone|].
    unfold blob_events, loop_blob_events. unfold reaches in Hnone. by rewrite Hnone.
Qed.

End CopierFailure.

(** ** [change_backends] *)

(** C4.  [change_backends] is a function of its two arguments, defined on
    every descriptor; its result has the bootstrap path, the layer count, the
    digest at every index and the image config of its argument, and every
    layer of the result has the new backend. *)
Theorem change_backends_preserves (I : NydusImageWithBackends) (B : NydusBackend) :
  bootstrap_local_path (change_backends I B) = bootstrap_local_path I
  /\ List.length (layers (change_backends I B)) = List.length (layers I)
  /\ (forall i, digest <$> layers (change_backends I B) !! i = digest <$> layers I !! i)
  /\ image_config (change_backends I B) = image_config I
  /\ (forall i l, layers (change_backends I B) !! i = Some l -> backend l = B).
Proof.
  unfold change_backends. simpl. repeat split.
  - apply length_map.
  - intros i. rewrite list_lookup_fmap. by destruct (layers I !! i).
  - intros i l. rewrite list_lookup_fmap.
    destruct (layers I !! i); simpl; [|discriminate]. by intros [= <-].
Qed.

(** A rewritten descriptor is copy-compatible with the one it came from. *)
Lemma change_backends_compatible (I : NydusImageWithBackends) (B : NydusBackend) :
  copy_compatible I (change_backends I B).
Proof.
  unfold change_backends. split; [reflexivity|]. split.
  - simpl. symmetry. apply length_map.
  - simpl. intros i sb tb Hs Ht. rewrite list_lookup_fmap, Hs in Ht.
    by injection Ht as <-.
Qed.

(** ** Runs on the sample data *)

Import Sample.

Lemma sample_compatible : copy_compatible remote_image local_image.
Proof. apply copy_compatibleb_sound. vm_compute. reflexivity. Qed.

Lemma s3_not_localfs : s3 <> localfs.
Proof. discriminate. Qed.

(** The claim C1 as first stated fails in two ways.  Transport for blob [i]
    if and only if the backends at [i] differ: both blobs of the sample image
    have different backends, the first transport fails, and no process is
    started for the second blob.  A transport addressed with the blob's
    digest: copying the sample image from one local directory to another
    starts the same process, [rclone copy /blobs /mirror], for the blob
    [00112233] and for the blob [aabbccdd]; no digest is in it. *)
Lemma copy_blobs_transport_iff_counterexample :
  (copy_compatible remote_image local_image
   /\ layers remote_image !! 1%nat = Some (mkBlob "aabbccdd" s3)
   /\ layers local_image !! 1%nat = Some (mkBlob "aabbccdd" localfs)
   /\ ~ (blob_events always_fails remote_image local_image 0%nat 1 <> []
         <-> backend (mkBlob "aabbccdd" s3) <> backend (mkBlob "aabbccdd" localfs)))
  /\ (copy_compatible local_image mirror_image
      /\ map digest (layers local_image) = ["00112233"; "aabbccdd"]
      /\ blob_events always_succeeds local_image mirror_image 0%nat 0
         = [Exec [Str "rclone"; Str "copy"; Str "/blobs"; Str "/mirror"] [] None]
      /\ blob_events always_succeeds local_image mirror_image 0%nat 1
         = [Exec [Str "rclone"; Str "copy"; Str "/blobs"; Str "/mirror"] [] None]).
Proof.
  split.
  - split; [exact sample_compatible|]. split; [reflexivity|]. split; [reflexivity|].
    intros [_ H]. apply H; [exact s3_not_localfs|]. vm_compute. reflexivity.
  - split; [apply copy_compatibleb_sound; vm_compute; reflexivity|].
    split; [reflexivity|]. split; vm_compute; reflexivity.
Qed.

Lemma copy_blobs_transport_iff_witness :
  copy_compatible remote_image local_image
  /\ layers remote_image !! 1%nat = Some (mkBlob "aabbccdd" s3)
  /\ layers local_image !! 1%nat = Some (mkBlob "aabbccdd" localfs)
  /\ (blob_events always_succeeds remote_image local_image 0%nat 1 <> [] <->
        s3 <> localfs /\ is_Some (reaches always_succeeds remote_image local_image 0%nat 1))
  /\ blob_events always_succeeds remote_image local_image 0%nat 1 =
     [Exec [Str "rclone"; Str "copy"; Str "source:bucket/nydus/aabbccdd"; Str "/blobs"]
        [("RCLONE_CONFIG_SOURCE_TYPE", "s3");
         ("RCLONE_CONFIG_SOURCE_ACCESS_KEY_ID", "AK");
         ("RCLONE_CONFIG_SOURCE_SECRET_ACCESS_KEY", "SK");
         ("RCLONE_CONFIG_SOURCE_ENDPOINT", "https://s3.example");
         ("RCLONE_CONFIG_SOURCE_REGION", "eu-1")]
        None].
Proof.
  split; [exact sample_compatible|]. split; [reflexivity|]. split; [reflexivity|].
  destruct (copy_blobs_transport_iff always_succeeds remote_image local_image 0%nat 1
              (mkBlob "aabbccdd" s3) (mkBlob "aabbccdd" localfs)
              sample_compatible eq_refl eq_refl) as (Hiff & _).
  split; [exact Hiff|]. vm_compute. reflexivity.
Defined.

Lemma copy_blobs_rejects_incompatible_witness :
  List.length (layers remote_image) <> List.length (layers three_layers)
  /\ exists msg,
       copy_blobs always_succeeds remote_image three_layers 0%nat
       = (Raise (ValueError msg), 0%nat, []).
Proof.
  assert (H : List.length (layers remote_image) <> List.length (layers three_layers))
    by (simpl; lia).
  split; [exact H|].
  apply (copy_blobs_rejects_incompatible always_succeeds remote_image three_layers 0%nat).
  right. left. exact H.
Defined.

Lemma copy_blobs_aborts_on_transport_failure_witness :
  copy_blobs second_fails remote_image local_image 0%nat =
  (Raise (CalledProcessError 2 "out" "err"), 2%nat,
   [transport_event (mkBlob "00112233" s3) (mkBlob "00112233" localfs);
    transport_event (mkBlob "aabbccdd" s3) (mkBlob "aabbccdd" localfs)]).
Proof.
  refine (proj1 (copy_blobs_aborts_on_transport_failure second_fails
            remote_image local_image 0%nat 1%nat 1
            (mkBlob "aabbccdd" s3) (mkBlob "aabbccdd" localfs)
            sample_compatible eq_refl eq_refl s3_not_localfs _ _)).
  - vm_compute. reflexivity.
  - vm_compute. discriminate.
Defined.

(** ** [create_oci_manifest] *)

(** C5 (the code departs from the claim).  Whatever the digests and sizes,
    the manifest built for upload has [schemaVersion] 2 and one layer of
    media type [application/vnd.oci.image.layer.v1.tar+gzip] with the two
    annotations, but the media type of its config entry is
    [application/vnd.docker.container.image.v1+json], not
    [application/vnd.oci.image.config.v1+json]; the header check of the
    download path rejects this very manifest. *)
Theorem create_oci_manifest_config_media_type (config_digest : string) (config_size : Z)
    (bootstrap_digest : string) (bootstrap_size : Z) :
  let m := create_oci_manifest config_digest config_size bootstrap_digest bootstrap_size in
  get m "schemaVersion" = Ok (VInt 2)
  /\ (let+ c := get m "config" in get c "mediaType")
     = Ok (VStr "application/vnd.docker.container.image.v1+json")
  /\ (let+ c := get m "config" in get c "mediaType")
     <> Ok (VStr "application/vnd.oci.image.config.v1+json")
  /\ get m "layers"
     = Ok (VList [ VDict [
         ("mediaType", VStr "application/vnd.oci.image.layer.v1.tar+gzip");
         ("digest", VStr bootstrap_digest);
         ("size", VInt bootstrap_size);
         ("annotations", VDict [
            ("containerd.io/snapshot/nydus-bootstrap", VStr "true");
            ("containerd.io/snapshot/nydus-fs-version", VStr "6") ]) ] ])
  /\ check_manifest_header m = Raise (ValueError "Unexpected config media type").
Proof.
  cbv zeta. repeat split; try reflexivity. discriminate.
Qed.

(** ** [get_blob_digests] *)

Lemma is_hex_In (c : ascii) : is_hex c = true <-> In c hex_chars.
Proof.
  unfold is_hex. rewrite existsb_exists. split.
  - intros (x & Hin & Heq). apply Ascii.eqb_eq in Heq. by subst.
  - intros Hin. exists c. split; [exact Hin | apply Ascii.eqb_refl].
Qed.

Lemma string_length_0 (s : string) : String.length s = 0%nat <-> s = "".
Proof. destruct s; simpl; split; intros; congruence. Qed.

(** [check_digest] accepts exactly the valid blob ids, returns the id
    itself, and otherwise fails an assertion. *)
Lemma check_digest_cases (v : value) :
  (exists s, v = VStr s /\ check_digest v = Ok s /\ valid_blob_id v)
  \/ (exists msg, check_digest v = Raise (AssertionError msg) /\ ~ valid_blob_id v).
Proof.
  destruct v as [| b | z | f | s | l | kvs];
    try (right; eexists; split; [reflexivity | intros (s' & Heq & _); discriminate]).
  unfold check_digest.
  destruct (0 <? String.length s)%nat eqn:Hlen; cbn [negb].
  2:{ right. eexists. split; [reflexivity|].
      intros (s' & [= <-] & Hne & _). apply Hne, string_length_0.
      apply Nat.ltb_ge in Hlen. lia. }
  destruct (forallb is_hex (list_ascii_of_string s)) eqn:Hhex; cbn [negb].
  2:{ right. eexists. split; [reflexivity|].
      intros (s' & [= <-] & _ & Hall & _).
      apply not_true_iff_false in Hhex. apply Hhex, forallb_forall.
      intros c Hc. apply is_hex_In. rewrite Forall_forall in Hall.
      by apply Hall, list_elem_of_In. }
  destruct (8 <=? String.length s)%nat eqn:H8; cbn [negb].
  2:{ right. eexists. split; [reflexivity|].
      intros (s' & [= <-] & _ & _ & Hge). apply Nat.leb_gt in H8. lia. }
  left. exists s. split; [reflexivity|]. split; [reflexivity|].
  exists s. split; [reflexivity|]. split.
  - intros ->. discriminate.
  - split; [|by apply Nat.leb_le].
    apply Forall_forall. intros c Hc. apply is_hex_In.
    rewrite forallb_forall in Hhex. by apply Hhex, list_elem_of_In.
Qed.

Lemma check_digests_cases (ids : list value) :
  (Forall valid_blob_id ids
   /\ exists ds, map_result check_digest ids = Ok ds /\ map VStr ds = ids)
  \/ (~ Forall valid_blob_id ids
      /\ exists msg, map_result check_digest ids = Raise (AssertionError msg)).
Proof.
  induction ids as [|v ids IH].
  - left. split; [constructor|]. by exists [].
  - simpl. destruct (check_digest_cases v) as [(s & -> & Hs & Hv) | (msg & Hs & Hv)].
    + rewrite Hs. simpl.
      destruct IH as [(Hall & ds & Hds & Hmap) | (Hnot & msg & Hds)].
      * left. split; [by constructor|]. exists (s :: ds). rewrite Hds. simpl.
        by rewrite Hmap.
      * right. split; [intros Hall; by inversion Hall|]. exists msg. by rewrite Hds.
    + right. split; [intros Hall; by inversion Hall|]. exists msg. by rewrite Hs.
Qed.

Section Digests.

Context {World : Type}.
Variable sys : OS World.

(** C7.  When the inspection succeeds and prints a list of entries that all
    have a [blob_id], [get_blob_digests] returns the ids unchanged and in
    order if every one of them is a non-empty hexadecimal string of at
    least 8 characters, and fails an assertion otherwise. *)
Theorem get_blob_digests_validation (bootstrap_path : Path) (w : World)
    (entries ids : list value) :
  let inspect_result := fst (exec sys (inspect_event bootstrap_path) w) in
  returncode inspect_result = 0 ->
  json_loads sys (stdout inspect_result) = Some (VList entries) ->
  map_result (fun blob => getitem blob "blob_id") entries = Ok ids ->
  let r := get_blob_digests sys bootstrap_path w in
  (Forall valid_blob_id ids ->
     exists ds, outcome r = Ok ds /\ map VStr ds = ids)
  /\ (~ Forall valid_blob_id ids ->
        exists msg, outcome r = Raise (AssertionError msg)).
Proof.
  intros inspect_result Hrc Hjson Hids r.
  assert (Hr : outcome r = map_result check_digest ids).
  { subst r. unfold get_blob_digests, bind, subprocess_run_check, lift, parse_json.
    subst inspect_result.
    destruct (exec sys (inspect_event bootstrap_path) w) as [cp w'] eqn:Hexec.
    simpl in *. rewrite Hrc. simpl. rewrite Hjson. simpl.
    unfold digests_of_blob_data. simpl. rewrite Hids. reflexivity. }
  rewrite Hr.
  destruct (check_digests_cases ids) as [(Hall & ds & Hds & Hmap) | (Hnot & msg & Hds)].
  - split; [intros _; eauto | intros Hn; contradiction].
  - split; [intros Hall; contradiction | intros _; eauto].
Qed.

End Digests.

Lemma check_digest_Ok_valid (v : value) (s : string) :
  check_digest v = Ok s -> valid_blob_id v.
Proof.
  intros H. destruct (check_digest_cases v) as [(s' & _ & _ & Hv) | (msg & Hr & _)];
    [exact Hv | congruence].
Qed.

Lemma get_blob_digests_validation_witness :
  exists ds,
    outcome (get_blob_digests (SampleOS.const_os "[]" SampleOS.two_blobs)
               Sample.boot 0%nat) = Ok ds
    /\ map VStr ds = [VStr "00112233"; VStr "AABBccdd99"].
Proof.
  refine (proj1 (get_blob_digests_validation (SampleOS.const_os "[]" SampleOS.two_blobs)
            Sample.boot 0%nat
            [ VDict [("blob_id", VStr "00112233")];
              VDict [("blob_id", VStr "AABBccdd99")] ]
            [VStr "00112233"; VStr "AABBccdd99"]
            eq_refl eq_refl eq_refl) _).
  repeat constructor.
  - by apply (check_digest_Ok_valid _ "00112233").
  - by apply (check_digest_Ok_valid _ "AABBccdd99").
Defined.

(** ** [download_bootstrap_and_manifest] *)

Lemma bad_layers_rejected (m : value) :
  layer_count_is_1 m = false \/ has_fs_version_6 m = false ->
  exists e, check_manifest_layers m = Raise e.
Proof.
  unfold layer_count_is_1, has_fs_version_6, check_manifest_layers.
  destruct (get_default m "layers" (VList [])) as [ls|e]; simpl; [|eauto].
  destruct (truthy ls) eqn:Htruthy; simpl; [|eauto].
  destruct (len ls) as [n|e] eqn:Hlen; simpl; [|eauto].
  destruct (Nat.eqb n 1) eqn:Hn; simpl; [|eauto].
  apply Nat.eqb_eq in Hn. subst n.
  intros [H | H]; [discriminate|].
  destruct (getitem0 ls) as [layer|e] eqn:Hlayer; simpl; [|eauto].
  destruct (get layer "mediaType") as [mt|e]; simpl; [|eauto].
  destruct (eq_str mt expected_layer_media_type); simpl; [|eauto].
  destruct ls as [| | | | s | l | kvs]; try discriminate.
  - (* a one-character string: its element has no [get] *)
    destruct s as [|c s]; [discriminate|]. simpl in Hlayer. injection Hlayer as <-.
    simpl. eauto.
  - destruct l as [|x [|y l]]; try discriminate. simpl in Hlayer.
    injection Hlayer as <-.
    destruct (get_default x "annotations" (VDict [])) as [anns|e]; simpl; [|eauto].
    destruct (get anns "containerd.io/snapshot/nydus-bootstrap") as [ba|e]; simpl; [|eauto].
    destruct (eq_str ba "true"); simpl; [|eauto].
    destruct (get anns "containerd.io/snapshot/nydus-fs-version") as [fv|e]; simpl; [|eauto].
    rewrite H. simpl. eauto.
Qed.

Section ManifestClaims.

Context {World : Type}.
Variable sys : OS World.

(** Once the manifest has been fetched and parsed, the download is
    [download_from_manifest] on it: the same outcome, and the same processes
    after the [regctl manifest get]. *)
Lemma download_runs_from_manifest (reference : string) (b : NydusBackend)
    (output_dir manifest_path : Path) (m : value) (w w1 w2 w3 : World)
    (cp : completed_process) :
  mkdir sys output_dir true true w = (Ok tt, w1) ->
  mktemp sys ".json" w1 = (Ok manifest_path, w2) ->
  exec sys (manifest_get_event reference) w2 = (cp, w3) ->
  returncode cp = 0 ->
  is_blank (stdout cp) = false ->
  json_loads sys (stdout cp) = Some m ->
  let r := download_bootstrap_and_manifest sys reference b output_dir w in
  let r' := download_from_manifest sys reference b output_dir m w3 in
  outcome r = outcome r'
  /\ events r = manifest_get_event reference :: events r'.
Proof.
  intros Hmk Htmp Hexec Hrc Hblank Hjson. cbv zeta.
  unfold download_bootstrap_and_manifest, with_tempfile, bind, call, lift,
    subprocess_run_check, parse_json, outcome, events.
  rewrite Hmk, Htmp, Hexec, Hrc. simpl. rewrite Hblank, Hjson. simpl.
  destruct (download_from_manifest sys reference b output_dir m w3) as [[r w4] evs].
  destruct r; simpl; done.
Qed.

End ManifestClaims.



(** ** Directory transfer on the file-system world *)

Lemma from_dict_to_dict (c : NydusImageConfig) : from_dict (to_dict c) = Ok c.
Proof.
  destruct c as [a o c]. unfold to_dict. simpl.
  destruct c; reflexivity.
Qed.

Module FileSystemFacts.

Import FileSystem.

Lemma ensure_dirs_keeps (ps : list Path) (fs fs' : FS) (q : Path) (n : node) :
  ensure_dirs ps fs = Ok fs' -> fs !! q = Some n -> fs' !! q = Some n.
Proof.
  revert fs. induction ps as [|p ps IH]; intros fs Hrun Hq; simpl in Hrun.
  - by injection Hrun as <-.
  - destruct (fs !! p) as [[c|]|] eqn:Hp; [discriminate | by eapply IH |].
    eapply IH; [exact Hrun|]. rewrite lookup_insert_ne; [exact Hq|].
    intros ->. congruence.
Qed.

Lemma ensure_dirs_elsewhere (ps : list Path) (fs fs' : FS) (q : Path) :
  ensure_dirs ps fs = Ok fs' -> q ∉ ps -> fs' !! q = fs !! q.
Proof.
  revert fs. induction ps as [|p ps IH]; intros fs Hrun Hq; simpl in Hrun.
  - by injection Hrun as <-.
  - apply not_elem_of_cons in Hq as [Hne Hq].
    destruct (fs !! p) as [[c|]|] eqn:Hp; [discriminate | by eapply IH |].
    rewrite (IH _ Hrun Hq). by apply lookup_insert_ne.
Qed.

Lemma ancestors_shorter (p q : Path) :
  q ∈ ancestors p -> (List.length q < List.length p)%nat.
Proof.
  unfold ancestors. intros Hin. apply list_elem_of_fmap in Hin as (n & -> & Hn).
  apply elem_of_seq in Hn. rewrite length_take. lia.
Qed.

Lemma join_not_ancestor (p : Path) (name : string) :
  (path_join p name ∉ ancestors p) /\ path_join p name <> p.
Proof.
  split.
  - intros Hin. apply ancestors_shorter in Hin.
    unfold path_join in Hin. rewrite length_app in Hin. simpl in Hin. lia.
  - unfold path_join. intros Heq. apply (f_equal List.length) in Heq.
    rewrite length_app in Heq. simpl in Heq. lia.
Qed.

(** A successful [mkdir(parents=True, exist_ok=True)] keeps what there was
    and touches nothing below the directory. *)
Lemma fs_mkdir_keeps (p q : Path) (fs fs' : FS) (n : node) :
  fs_mkdir p true true fs = (Ok tt, fs') -> fs !! q = Some n -> fs' !! q = Some n.
Proof.
  unfold fs_mkdir. intros Hrun Hq.
  destruct (fs !! p) as [[c|]|] eqn:Hp; [discriminate | by injection Hrun as <- |].
  destruct (ensure_dirs (ancestors p) fs) as [fs1|e] eqn:Hens; [|discriminate].
  injection Hrun as <-. rewrite lookup_insert_ne.
  - by eapply ensure_dirs_keeps.
  - intros ->. congruence.
Qed.

Lemma fs_mkdir_below (p : Path) (name : string) (fs fs' : FS) :
  fs_mkdir p true true fs = (Ok tt, fs') ->
  fs' !! path_join p name = fs !! path_join p name.
Proof.
  unfold fs_mkdir. intros Hrun.
  destruct (join_not_ancestor p name) as [Hanc Hne].
  destruct (fs !! p) as [[c|]|] eqn:Hp; [discriminate | by injection Hrun as <- |].
  destruct (ensure_dirs (ancestors p) fs) as [fs1|e] eqn:Hens; [|discriminate].
  injection Hrun as <-. rewrite lookup_insert_ne by congruence.
  by eapply ensure_dirs_elsewhere.
Qed.

Lemma fs_write_text_lookup (p q : Path) (text : string) (fs fs' : FS) :
  fs_write_text p text fs = (Ok tt, fs') ->
  fs' !! q = if decide (p = q) then Some (File text) else fs !! q.
Proof.
  unfold fs_write_text. intros Hrun.
  assert (Hins : match check_parent p fs with
                 | Ok _ => (Ok tt, <[p:=File text]> fs)
                 | Raise e => (Raise e, fs)
                 end = (Ok tt, fs') -> fs' = <[p:=File text]> fs).
  { destruct (check_parent p fs); [by intros [= <-] | discriminate]. }
  assert (fs' = <[p:=File text]> fs) as ->.
  { destruct (fs !! p) as [[c|]|]; [by apply Hins | discriminate | by apply Hins]. }
  apply lookup_insert.
Qed.

Lemma join_inj_name (p q : Path) (a b : string) :
  a <> b -> path_join p a <> path_join q b.
Proof.
  unfold path_join. intros Hne Heq. apply app_inj_tail in Heq as [_ Heq]. contradiction.
Qed.

Section RoundTrip.

Variable inspect_tool : node -> completed_process.
Variable loads : string -> option value.
Variable dumps : value -> string.

Let sys : OS FS := fs_os inspect_tool loads dumps.

Lemma get_blob_digests_fs (p : Path) (fs : FS) (n : node) :
  fs !! p = Some n ->
  outcome (get_blob_digests sys p fs) = node_digests inspect_tool loads dumps n
  /\ world_after (get_blob_digests sys p fs) = fs.
Proof.
  intros Hp. unfold get_blob_digests, node_digests, bind, subprocess_run_check, lift,
    outcome, world_after.
  simpl. unfold fs_exec. simpl. rewrite Hp.
  destruct (returncode (inspect_tool n) =? 0); simpl; [|done].
  by destruct (parse_json _ _) as [data|e]; simpl; [destruct (digests_of_blob_data data)|].
Qed.

(** [read_from_dir] on this world, in one expression. *)
Lemma read_from_dir_outcome (D : Path) (B : NydusBackend) (fs : FS) :
  outcome (read_from_dir sys D B fs) =
  match fs !! path_join D "bootstrap" with
  | None => Raise FileNotFoundError
  | Some n =>
      let+ image_config := dir_config inspect_tool loads dumps D fs in
      let+ blob_digests := node_digests inspect_tool loads dumps n in
      Ok (mkImage (path_join D "bootstrap") (map (fun d => mkBlob d B) blob_digests)
            image_config)
  end.
Proof.
  unfold read_from_dir. rewrite outcome_bind. cbn [outcome world_after fst snd].
  change (path_exists sys) with fs_exists. unfold fs_exists at 1.
  destruct (fs !! path_join D "bootstrap") as [n|] eqn:Hboot; [|reflexivity].
  cbn [negb]. rewrite outcome_bind. cbn [outcome world_after fst snd].
  rewrite outcome_bind.
  destruct (get_blob_digests_fs (path_join D "bootstrap") fs n Hboot) as [Hd Hw].
  unfold fs_exists, dir_config.
  destruct (fs !! path_join D "config.json") as [c|] eqn:Hcfg.
  - rewrite outcome_bind, world_after_bind. cbn [outcome world_after fst snd lift].
    change (read_text sys) with fs_read_text.
    destruct (fs_read_text (path_join D "config.json") fs) as [text|e]; [|reflexivity].
    cbn [rbind].
    change (fs_os inspect_tool loads dumps) with sys.
    destruct (let+ config_data := parse_json sys text in from_dict config_data)
      as [cfg|e]; [|reflexivity].
    cbn [rbind]. rewrite outcome_bind, Hd.
    by destruct (node_digests inspect_tool loads dumps n).
  - cbn [outcome world_after fst snd ret rbind]. rewrite outcome_bind, Hd.
    by destruct (node_digests inspect_tool loads dumps n).
Qed.

(** [write_to_dir] on this world, in one expression. *)
Lemma write_to_dir_run (img : NydusImageWithBackends) (D2 : Path) (fs : FS) :
  let r := write_to_dir sys img D2 fs in
  (outcome r, world_after r) =
  match fs_mkdir D2 true true fs with
  | (Raise e, fs1) => (Raise e, fs1)
  | (Ok _, fs1) =>
      match (if negb (path_eqb (bootstrap_local_path img) (path_join D2 "bootstrap"))
             then fs_copy2 (bootstrap_local_path img) (path_join D2 "bootstrap") fs1
             else (Ok tt, fs1)) with
      | (Raise e, fs2) => (Raise e, fs2)
      | (Ok _, fs2) =>
          fs_write_text (path_join D2 "config.json")
            (dumps (to_dict (image_config img))) fs2
      end
  end.
Proof.
  cbv zeta. unfold write_to_dir, bind, call, outcome, world_after.
  change (mkdir sys) with fs_mkdir. change (copy2 sys) with fs_copy2.
  change (write_text sys) with fs_write_text. change (json_dumps sys) with dumps.
  destruct (fs_mkdir D2 true true fs) as [[[]|e] fs1]; [|reflexivity].
  destruct (negb _).
  - destruct (fs_copy2 _ _ fs1) as [[[]|e] fs2]; [|reflexivity].
    by destruct (fs_write_text _ _ fs2) as [r fs3].
  - unfold ret. by destruct (fs_write_text _ _ fs1) as [r fs3].
Qed.

(** C8 (as amended).  On the file-system world, with the inspector a fixed
    function of what it is pointed at: if reading [D] with backend [B] gives
    a descriptor, and writing that descriptor to [D2] succeeds, where
    [D2/bootstrap] was not a directory and [json.load] reads back the config
    document [json.dump] wrote, then reading [D2] with [B] gives a descriptor
    with the same digest sequence and the same image config. *)
Theorem dir_round_trip (D D2 : Path) (B : NydusBackend) (fs : FS)
    (img : NydusImageWithBackends) :
  outcome (read_from_dir sys D B fs) = Ok img ->
  outcome (write_to_dir sys img D2 fs) = Ok tt ->
  fs !! path_join D2 "bootstrap" <> Some Dir ->
  loads (dumps (to_dict (image_config img))) = Some (to_dict (image_config img)) ->
  exists img',
    outcome (read_from_dir sys D2 B (world_after (write_to_dir sys img D2 fs))) = Ok img'
    /\ map digest (layers img') = map digest (layers img)
    /\ image_config img' = image_config img.
Proof.
  intros Hread Hwrite Hnodir Hjson.
  rewrite read_from_dir_outcome in Hread.
  destruct (fs !! path_join D "bootstrap") as [n|] eqn:Hboot; [|discriminate].
  destruct (dir_config inspect_tool loads dumps D fs) as [cfg|e] eqn:Hcfg; [|discriminate].
  cbn [rbind] in Hread.
  destruct (node_digests inspect_tool loads dumps n) as [ds|e] eqn:Hds; [|discriminate].
  cbn [rbind] in Hread. injection Hread as <-.
  cbn [image_config bootstrap_local_path layers] in *.
  pose proof (write_to_dir_run
                (mkImage (path_join D "bootstrap") (map (fun d => mkBlob d B) ds) cfg)
                D2 fs) as Hrun.
  cbv zeta in Hrun. rewrite Hwrite in Hrun.
  cbn [image_config bootstrap_local_path layers] in Hrun.
  set (fs' := world_after _) in *. clearbody fs'.
  set (boot2 := path_join D2 "bootstrap") in *.
  set (cfg2 := path_join D2 "config.json") in *.
  destruct (fs_mkdir D2 true true fs) as [[[]|e] fs1] eqn:Hmk; [|discriminate].
  assert (Hboot1 : fs1 !! path_join D "bootstrap" = Some n)
    by (eapply fs_mkdir_keeps; eauto).
  assert (Hdst1 : fs1 !! boot2 = fs !! boot2) by (by eapply fs_mkdir_below).
  assert (Hstep2 : exists fs2,
    (if negb (path_eqb (path_join D "bootstrap") boot2)
     then fs_copy2 (path_join D "bootstrap") boot2 fs1
     else (Ok tt, fs1)) = (Ok tt, fs2) /\ fs2 !! boot2 = Some n).
  { unfold path_eqb in *.
    destruct (bool_decide (path_join D "bootstrap" = boot2)) eqn:Heq; cbn [negb] in *.
    - apply bool_decide_eq_true in Heq. exists fs1. split; [reflexivity|].
      by rewrite <- Heq.
    - unfold fs_copy2 in *. rewrite Hboot1 in *.
      destruct n as [c|]; [|discriminate].
      assert (Htarget : match fs1 !! boot2 with
                        | Some Dir => path_join boot2 (List.last (path_join D "bootstrap") "")
                        | _ => boot2
                        end = boot2).
      { rewrite Hdst1. destruct (fs !! boot2) as [[c'|]|]; congruence. }
      rewrite Htarget in *.
      destruct (fs_write_text boot2 c fs1) as [[[]|e] fs2] eqn:Hw; [|discriminate].
      exists fs2. split; [reflexivity|].
      rewrite (fs_write_text_lookup boot2 boot2 c fs1 fs2 Hw).
      by rewrite decide_True. }
  destruct Hstep2 as (fs2 & Hrun2 & Hboot2). rewrite Hrun2 in Hrun.
  symmetry in Hrun.
  assert (Hne : cfg2 <> boot2) by (apply join_inj_name; discriminate).
  pose proof (fs_write_text_lookup cfg2 boot2 _ fs2 fs' Hrun) as Hb3.
  rewrite decide_False in Hb3 by exact Hne.
  pose proof (fs_write_text_lookup cfg2 cfg2 _ fs2 fs' Hrun) as Hc3.
  rewrite decide_True in Hc3 by reflexivity.
  rewrite read_from_dir_outcome. fold boot2. rewrite Hb3, Hboot2.
  unfold dir_config. fold cfg2. rewrite Hc3. unfold fs_read_text. rewrite Hc3.
  cbn [rbind]. unfold parse_json. cbn [json_loads fs_os]. rewrite Hjson.
  cbn [rbind]. rewrite from_dict_to_dict. cbn [rbind]. rewrite Hds. cbn [rbind].
  eexists. split; [reflexivity|]. split; reflexivity.
Qed.
End RoundTrip.

End FileSystemFacts.

(** The claim C8 as first stated, for every target directory, fails when
    [D2/bootstrap] is a directory: the read of [D] and the write to [D2]
    succeed, but [shutil.copy2] has put the bootstrap inside that directory,
    as [D2/bootstrap/bootstrap]; the read of [D2] then inspects the
    directory and raises. *)
Lemma dir_round_trip_counterexample :
  let fs := SampleFS.disk_with_bootstrap_dir in
  let fs' := world_after (write_to_dir SampleFS.disk_os SampleFS.image_read
                            SampleFS.target_dir fs) in
  fs !! path_join SampleFS.source_dir "bootstrap" = Some (FileSystem.File "BOOT")
  /\ fs !! path_join SampleFS.target_dir "bootstrap" = Some FileSystem.Dir
  /\ outcome (read_from_dir SampleFS.disk_os SampleFS.source_dir Sample.s3 fs)
     = Ok SampleFS.image_read
  /\ outcome (write_to_dir SampleFS.disk_os SampleFS.image_read SampleFS.target_dir fs)
     = Ok tt
  /\ SampleFS.loads (SampleFS.dumps (to_dict (image_config SampleFS.image_read)))
     = Some (to_dict (image_config SampleFS.image_read))
  /\ fs' !! path_join SampleFS.target_dir "bootstrap" = Some FileSystem.Dir
  /\ fs' !! path_join (path_join SampleFS.target_dir "bootstrap") "bootstrap"
     = Some (FileSystem.File "BOOT")
  /\ outcome (read_from_dir SampleFS.disk_os SampleFS.target_dir Sample.s3 fs')
     = Raise (CalledProcessError 1 "" "is a directory").
Proof. cbv zeta. repeat split; vm_compute; reflexivity. Qed.

Lemma dir_round_trip_witness :
  outcome (read_from_dir SampleFS.disk_os SampleFS.source_dir Sample.s3 SampleFS.disk)
    = Ok SampleFS.image_read
  /\ exists img',
       outcome (read_from_dir SampleFS.disk_os SampleFS.target_dir Sample.s3
                  (world_after (write_to_dir SampleFS.disk_os SampleFS.image_read
                                  SampleFS.target_dir SampleFS.disk))) = Ok img'
       /\ map digest (layers img') = map digest (layers SampleFS.image_read)
       /\ image_config img' = image_config SampleFS.image_read.
Proof.
  assert (Hread : outcome (read_from_dir SampleFS.disk_os SampleFS.source_dir Sample.s3
                             SampleFS.disk) = Ok SampleFS.image_read)
    by (vm_compute; reflexivity).
  split; [exact Hread|].
  apply (FileSystemFacts.dir_round_trip SampleFS.inspector SampleFS.loads SampleFS.dumps
           SampleFS.source_dir SampleFS.target_dir Sample.s3 SampleFS.disk
           SampleFS.image_read Hread).
  - vm_compute. reflexivity.
  - vm_compute. discriminate.
  - reflexivity.
Defined.

(** ** [repack_image] *)

Section RepackFacts.

Context {World : Type}.
Variable sys : OS World.

Lemma repack_nydus_image_Ok (tar_path repack_dir : Path) (create_opts : string)
    (target_blob_dir : option Path) (w w' : World) (created : Path * Path)
    (evs : list event) :
  repack_nydus_image sys tar_path repack_dir create_opts target_blob_dir w
    = (Ok created, w', evs) ->
  let blob_dir := match target_blob_dir with
                  | Some d => d
                  | None => path_join repack_dir "blobs"
                  end in
  created = (path_join repack_dir "bootstrap", blob_dir)
  /\ exists opts,
       evs = [create_event (path_join repack_dir "bootstrap") blob_dir tar_path opts].
Proof.
  unfold repack_nydus_image. intros H. cbv zeta.
  apply bind_Ok_inv in H as (dir & w1 & ev1 & ev1' & Hdir & H & ->).
  apply bind_Ok_inv in H as (opts & w2 & ev2 & ev2' & Hopts & H & ->).
  apply bind_Ok_inv in H as (cp & w3 & ev3 & ev3' & Hrun & H & ->).
  assert (Hd : dir = match target_blob_dir with
                     | Some d => d
                     | None => path_join repack_dir "blobs"
                     end /\ ev1 = []).
  { destruct target_blob_dir as [d|];
      apply bind_Ok_inv in Hdir as (u & w0 & ev0 & ev0' & Hmk & Hret & ->);
      unfold ret in Hret; injection Hret as <- <- <-; unfold call in Hmk;
      destruct (mkdir _ _ _ _ _) as [r0 w0']; by injection Hmk as _ _ <-. }
  destruct Hd as [-> ->].
  assert (ev2 = []) as ->.
  { destruct (negb (is_blank create_opts)).
    - destruct (shlex_split sys create_opts); [|discriminate].
      unfold ret in Hopts. by injection Hopts as _ _ <-.
    - unfold ret in Hopts. by injection Hopts as _ _ <-. }
  unfold subprocess_run_check in Hrun.
  destruct (exec sys _ w2) as [cp' w2'].
  destruct (returncode cp' =? 0) eqn:Hrc; [|discriminate].
  injection Hrun as <- <- <-. rewrite Hrc in H. unfold ret in H. simpl in H.
  injection H as <- <- <-. split; [reflexivity|]. exists opts. reflexivity.
Qed.

Lemma get_blob_digests_events (p : Path) (w w' : World) (ds : list string)
    (evs : list event) :
  get_blob_digests sys p w = (Ok ds, w', evs) -> evs = [inspect_event p].
Proof.
  unfold get_blob_digests. intros H.
  apply bind_Ok_inv in H as (cp & w1 & ev1 & ev1' & Hrun & H & ->).
  unfold subprocess_run_check in Hrun. destruct (exec sys _ w) as [cp' w2].
  destruct (returncode cp' =? 0); [|discriminate]. injection Hrun as <- <- <-.
  unfold lift in H. by injection H as _ _ <-.
Qed.

(** C10.  When [repack_image] returns the pair (target, temp source): both
    have the new bootstrap path [temp_dir/repack/bootstrap]; they are
    copy-compatible, so that [copy_blobs] from the temp source to the target
    never raises the [ValueError] of a failed precondition; every layer of
    the target has the target backend; every layer of the temp source has
    the local-filesystem backend of the directory given to
    [nydus-image create --blob-dir], which is the target directory for a
    local target and [temp_dir/repack/blobs] otherwise; and both have the
    image config of the source. *)
Theorem repack_image_descriptors (source_image : NydusImageWithBackends)
    (target_backend : NydusBackend) (create_opts : string) (temp_dir : Path)
    (w w' : World) (target temp_source : NydusImageWithBackends) (evs : list event) :
  repack_image sys source_image target_backend create_opts temp_dir w
    = (Ok (target, temp_source), w', evs) ->
  let new_bootstrap := path_join (path_join temp_dir "repack") "bootstrap" in
  let actual_blob_dir :=
    match local_dir_of target_backend with
    | Some d => d
    | None => path_join (path_join temp_dir "repack") "blobs"
    end in
  bootstrap_local_path target = new_bootstrap
  /\ bootstrap_local_path temp_source = new_bootstrap
  /\ copy_compatible temp_source target
  /\ (forall (W2 : Type) (oracle : event -> W2 -> completed_process * W2) (w2 : W2)
             (msg : string),
        outcome (copy_blobs oracle temp_source target w2) <> Raise (ValueError msg))
  /\ (forall i l, layers target !! i = Some l -> backend l = target_backend)
  /\ (forall i l, layers temp_source !! i = Some l ->
                  backend l = NydusLocalFilesystemBackend actual_blob_dir)
  /\ (exists opts,
        create_event new_bootstrap actual_blob_dir (path_join temp_dir "unpacked.tar") opts
          ∈ evs)
  /\ image_config target = image_config source_image
  /\ image_config temp_source = image_config source_image.
Proof.
  unfold repack_image. intros H. cbv zeta.
  apply bind_Ok_inv in H as (u1 & w1 & ev1 & ev1' & Hmk & H & ->).
  apply bind_Ok_inv in H as (local_blob_dir & w2 & ev2 & ev2' & Hloc & H & ->).
  apply bind_Ok_inv in H as (u3 & w3 & ev3 & ev3' & Hunpack & H & ->).
  apply bind_Ok_inv in H as (created & w4 & ev4 & ev4' & Hcreate & H & ->).
  apply bind_Ok_inv in H as (blob_digests & w5 & ev5 & ev5' & Hinspect & H & ->).
  apply repack_nydus_image_Ok in Hcreate as [-> (opts & ->)].
  unfold ret in H. injection H as <- <- <- <-. cbn [fst snd].
  set (temp_source := mkImage _ (map (fun d => mkBlob d (NydusLocalFilesystemBackend _)) _) _).
  set (target := mkImage _ (map (fun d => mkBlob d target_backend) _) _).
  assert (Hc : copy_compatible temp_source target).
  { split; [reflexivity|]. split; [simpl; by rewrite !length_map|].
    simpl. intros i sb tb Hs Ht. rewrite list_lookup_fmap in Hs, Ht.
    destruct (blob_digests !! i); simpl in *; [|discriminate].
    injection Hs as <-. by injection Ht as <-. }
  split; [reflexivity|]. split; [reflexivity|]. split; [exact Hc|].
  split.
  { intros W2 oracle w0 msg. rewrite (copy_blobs_compatible oracle _ _ w0 Hc).
    destruct (loop_outcome oracle _ (compatible_pairs _ _ Hc) w0)
      as [Hok | (rc & out & err & Herr)]; congruence. }
  split.
  { simpl. intros i l Hl. rewrite list_lookup_fmap in Hl.
    destruct (blob_digests !! i); simpl in Hl; [|discriminate]. by injection Hl as <-. }
  split.
  { simpl. intros i l Hl. rewrite list_lookup_fmap in Hl.
    destruct (blob_digests !! i); simpl in Hl; [|discriminate]. by injection Hl as <-. }
  split; [|split; reflexivity].
  exists opts. set_solver.
Qed.

(** [localize_source] takes the directory of the first layer when that
    layer is local, whatever the other layers are. *)
Lemma localize_source_first_local (source_image : NydusImageWithBackends)
    (temp_dir blob_dir : Path) (first : NydusBlobLocation)
    (rest : list NydusBlobLocation) (w : World) :
  layers source_image = first :: rest ->
  backend first = NydusLocalFilesystemBackend blob_dir ->
  localize_source sys source_image temp_dir w = (Ok blob_dir, w, []).
Proof. unfold localize_source. by intros -> ->. Qed.

(** Otherwise it makes [temp_dir/local_blobs] and copies every blob there:
    the target of [copy_blobs] is the source rewritten to that directory. *)
Lemma localize_source_download (source_image : NydusImageWithBackends)
    (temp_dir : Path) :
  match layers source_image with
  | first :: _ => local_dir_of (backend first) = None
  | [] => True
  end ->
  let local_blob_dir := path_join temp_dir "local_blobs" in
  localize_source sys source_image temp_dir =
  (run call (mkdir sys local_blob_dir true false) then
   run copy_blobs (exec sys) source_image
         (change_backends source_image (NydusLocalFilesystemBackend local_blob_dir)) then
   ret local_blob_dir).
Proof.
  unfold localize_source, change_backends.
  destruct (layers source_image) as [|first rest]; [reflexivity|].
  by destruct (backend first).
Qed.

End RepackFacts.

(** C9 (the code departs from the claim).  The first layer of the sample
    image is in a local directory and the second on object storage:
    [localize_source] hands the directory of the first layer to the
    unpacking, makes no directory, runs no process, and so never pulls the
    second blob. *)
Theorem localize_source_ignores_later_layers :
  layers SampleRepack.mixed_image
    = [mkBlob "00112233" Sample.localfs; mkBlob "aabbccdd" Sample.s3]
  /\ localize_source SampleRepack.counting_os SampleRepack.mixed_image SampleRepack.work_dir 0%nat
     = (Ok ["/"; "blobs"], 0%nat, []).
Proof. split; reflexivity. Qed.

Lemma repack_image_descriptors_witness :
  exists target temp_source w' evs,
    repack_image SampleRepack.counting_os Sample.remote_image Sample.localfs ""
      SampleRepack.work_dir 0%nat = (Ok (target, temp_source), w', evs)
    /\ copy_compatible temp_source target
    /\ image_config target = image_config Sample.remote_image.
Proof.
  eexists _, _, _, _. split; [vm_compute; reflexivity|].
  match goal with
  | |- copy_compatible ?ts ?t /\ _ =>
      pose proof (repack_image_descriptors SampleRepack.counting_os Sample.remote_image
                    Sample.localfs "" SampleRepack.work_dir 0%nat _ t ts _ eq_refl)
        as (_ & _ & Hc & _ & _ & _ & _ & Hcfg & _)
  end.
  split; [exact Hc | exact Hcfg].
Defined.

(** ** More on [copy_blobs] *)

Section CopierMore.

Context {World : Type}.
Variable oracle : event -> World -> completed_process * World.

(** A loop over pairs with agreeing digests and equal backends does
    nothing. *)
Lemma loop_same_backends (ps : list (NydusBlobLocation * NydusBlobLocation)) (w : World) :
  Forall (fun p => digests_agree p /\ backends_differ p = false) ps ->
  for_each (copy_pair oracle) ps w = (Ok tt, w, []).
Proof.
  induction 1 as [|p ps [Hd Hb] _ IH]; [reflexivity|].
  simpl. unfold bind. rewrite (copy_pair_run oracle p w Hd), Hb, IH. reflexivity.
Qed.

(** X1.  When the two descriptors are copy-compatible and the backends are
    equal layer by layer, [copy_blobs] returns normally, starts no process
    and leaves the world as it was. *)
Theorem copy_blobs_same_backends_noop (a b : NydusImageWithBackends) (w : World) :
  copy_compatible a b ->
  (forall i sb tb, layers a !! i = Some sb -> layers b !! i = Some tb ->
                   backend sb = backend tb) ->
  copy_blobs oracle a b w = (Ok tt, w, []).
Proof.
  intros Hc Hsame. rewrite (copy_blobs_compatible oracle a b w Hc).
  apply loop_same_backends.
  apply Forall_lookup_2. intros i [sb tb] Hi.
  apply lookup_zip_with_Some in Hi as (x & y & [= -> ->] & Hx & Hy).
  split; [destruct Hc as (_ & _ & Hd); exact (Hd i x y Hx Hy)|].
  unfold backends_differ. simpl. apply negb_false_iff, backend_eqb_eq. eauto.
Qed.

(** X2.  With a transport that always exits with status 0, [copy_blobs] on
    copy-compatible descriptors returns normally and has started exactly one
    transport for each layer whose backends differ, in layer order. *)
Theorem copy_blobs_reliable_transport (a b : NydusImageWithBackends) (w : World) :
  copy_compatible a b ->
  (forall e w0, returncode (fst (oracle e w0)) = 0) ->
  outcome (copy_blobs oracle a b w) = Ok tt
  /\ events (copy_blobs oracle a b w) =
     map (fun p => transport_event (fst p) (snd p))
       (filter (fun p => backends_differ p = true) (zip (layers a) (layers b))).
Proof.
  intros Hc Hok. rewrite (copy_blobs_compatible oracle a b w Hc).
  pose proof (compatible_pairs a b Hc) as Hall.
  assert (Hrun : outcome (for_each (copy_pair oracle) (zip (layers a) (layers b)) w) = Ok tt).
  { clear Hc. revert w. induction Hall as [|p ps Hp _ IH]; intros w; [reflexivity|].
    simpl. rewrite outcome_bind, (copy_pair_run oracle p w Hp).
    destruct (backends_differ p); [|apply IH].
    cbv zeta. rewrite Hok. simpl. apply IH. }
  split; [exact Hrun|].
  destruct (for_each _ _ w) as [[r w'] evs] eqn:Hfe.
  unfold outcome, events in *. simpl in *. subst r.
  eapply loop_ok_events; eauto.
Qed.

Lemma zip_rewritten_transports (B : NydusBackend) (l : list NydusBlobLocation) :
  map (fun p => transport_event (fst p) (snd p))
    (filter (fun p => backends_differ p = true)
       (zip l (map (fun layer => mkBlob (digest layer) B) l)))
  = map (fun layer => transport_event layer (mkBlob (digest layer) B))
      (filter (fun layer => backend layer <> B) l).
Proof.
  induction l as [|x l IH]; [reflexivity|].
  cbn [map zip zip_with]. rewrite !filter_cons.
  assert (Hiff : backends_differ (x, mkBlob (digest x) B) = true <-> backend x <> B).
  { unfold backends_differ. simpl. rewrite negb_true_iff. apply backend_eqb_neq. }
  destruct (decide (backends_differ (x, mkBlob (digest x) B) = true)) as [Hd|Hd];
    destruct (decide (backend x <> B)) as [Hn|Hn]; try tauto.
  cbn [map]. f_equal. exact IH.
Qed.

(** X3.  Copying from a descriptor to the same descriptor rewritten to a
    backend [B] never fails a precondition: the run returns normally or
    raises the [CalledProcessError] of a failed transport, and the processes
    it starts are an initial segment of the transports of the layers that
    are not yet on [B], in layer order. *)
Theorem copy_blobs_after_change_backends (I : NydusImageWithBackends) (B : NydusBackend)
    (w : World) :
  let r := copy_blobs oracle I (change_backends I B) w in
  (outcome r = Ok tt
   \/ exists rc out err, outcome r = Raise (CalledProcessError rc out err))
  /\ events r `prefix_of`
       map (fun layer => transport_event layer (mkBlob (digest layer) B))
         (filter (fun layer => backend layer <> B) (layers I)).
Proof.
  cbv zeta. pose proof (change_backends_compatible I B) as Hc.
  rewrite (copy_blobs_compatible oracle _ _ w Hc).
  pose proof (compatible_pairs _ _ Hc) as Hall. split.
  - apply loop_outcome. exact Hall.
  - rewrite <- zip_rewritten_transports. apply loop_events_prefix. exact Hall.
Qed.

End CopierMore.

(** ** Addresses and environment of a transport *)

Lemma append_inj_r (p a b : string) : p +:+ a = p +:+ b -> a = b.
Proof. induction p as [|c p IH]; simpl; [done|]. intros [= H]. by apply IH. Qed.

(** X4.  An object-storage address names the blob: different digests give
    different addresses.  A local-filesystem address is the directory alone,
    the same for every digest; so the command line of a copy between two
    local directories does not depend on the blob. *)
Theorem with_digest_addressing :
  (forall e bk r ak sk op name d1 d2,
     with_digest (mkRclone (NydusS3Backend e bk r ak sk op) name) d1
     = with_digest (mkRclone (NydusS3Backend e bk r ak sk op) name) d2 ->
     d1 = d2)
  /\ (forall dir name d1 d2,
        with_digest (mkRclone (NydusLocalFilesystemBackend dir) name) d1
        = with_digest (mkRclone (NydusLocalFilesystemBackend dir) name) d2)
  /\ (forall dir1 dir2 d1 d2,
        transport_event (mkBlob d1 (NydusLocalFilesystemBackend dir1))
                        (mkBlob d1 (NydusLocalFilesystemBackend dir2))
        = transport_event (mkBlob d2 (NydusLocalFilesystemBackend dir1))
                          (mkBlob d2 (NydusLocalFilesystemBackend dir2))).
Proof.
  split; [|split].
  - intros e bk r ak sk op name d1 d2. unfold with_digest. simpl. intros H.
    repeat (apply append_inj_r in H). exact H.
  - reflexivity.
  - reflexivity.
Qed.

(** X5.  The variables a transport adds to the environment are those of the
    source configuration followed by those of the target configuration: no
    name is used twice, so neither side overwrites the other.  The command
    line is [rclone copy] with the two addresses, made of bucket, object
    prefix and digest or of the blob directory: it carries neither the access
    key, the secret key, the endpoint nor the region of the source or of the
    target, and is the same whatever they are. *)
Theorem transport_event_environment (sb tb : NydusBlobLocation) :
  env_extra (transport_event sb tb)
  = env (mkRclone (backend sb) "source") ++ env (mkRclone (backend tb) "target")
  /\ NoDup (map fst (env_extra (transport_event sb tb)))
  /\ argv (transport_event sb tb)
     = [ Str "rclone"; Str "copy";
         Str (match backend sb with
              | NydusS3Backend _ bucket _ _ _ object_prefix =>
                  "source:" +:+ bucket +:+ "/" +:+ object_prefix +:+ digest sb
              | NydusLocalFilesystemBackend blob_dir => path_str blob_dir
              end);
         Str (match backend tb with
              | NydusS3Backend _ bucket _ _ _ object_prefix =>
                  "target:" +:+ bucket +:+ "/" +:+ object_prefix +:+ digest sb
              | NydusLocalFilesystemBackend blob_dir => path_str blob_dir
              end) ]
  /\ (forall d e bk r ak sk op e' r' ak' sk' t,
        argv (transport_event (mkBlob d (NydusS3Backend e bk r ak sk op)) t)
        = argv (transport_event (mkBlob d (NydusS3Backend e' bk r' ak' sk' op)) t))
  /\ (forall s d e bk r ak sk op e' r' ak' sk',
        argv (transport_event s (mkBlob d (NydusS3Backend e bk r ak sk op)))
        = argv (transport_event s (mkBlob d (NydusS3Backend e' bk r' ak' sk' op))))
  /\ (forall d e bk r ak sk op d2 e2 bk2 r2 ak2 sk2 op2 e' r' ak' sk' e2' r2' ak2' sk2',
        argv (transport_event (mkBlob d (NydusS3Backend e bk r ak sk op))
                (mkBlob d2 (NydusS3Backend e2 bk2 r2 ak2 sk2 op2)))
        = argv (transport_event (mkBlob d (NydusS3Backend e' bk r' ak' sk' op))
                  (mkBlob d2 (NydusS3Backend e2' bk2 r2' ak2' sk2' op2)))).
Proof.
  split; [|split; [|split; [|split; [|split]]]].
  - destruct sb as [ds [e1 b1 r1 a1 s1 o1|d1]], tb as [dt [e2 b2 r2 a2 s2 o2|d2]];
      reflexivity.
  - destruct sb as [ds [e1 b1 r1 a1 s1 o1|d1]], tb as [dt [e2 b2 r2 a2 s2 o2|d2]];
      cbn; apply (bool_decide_unpack _); vm_compute; reflexivity.
  - destruct sb as [ds [e1 b1 r1 a1 s1 o1|d1]], tb as [dt [e2 b2 r2 a2 s2 o2|d2]];
      reflexivity.
  - reflexivity.
  - reflexivity.
  - reflexivity.
Qed.

(** ** More on [get_blob_digests] and [read_from_dir] *)

Lemma map_result_check_digest_valid (ids : list value) (ds : list string) :
  map_result check_digest ids = Ok ds ->
  Forall (fun d => valid_blob_id (VStr d)) ds.
Proof.
  revert ds. induction ids as [|v ids IH]; intros ds H; simpl in H.
  - injection H as <-. constructor.
  - destruct (check_digest_cases v) as [(s & -> & Hs & Hv) | (msg & Hs & _)];
      rewrite Hs in H; simpl in H; [|discriminate].
    destruct (map_result check_digest ids) as [ds'|e]; simpl in H; [|discriminate].
    injection H as <-. constructor; [exact Hv | by apply IH].
Qed.

Lemma digests_of_blob_data_valid (blob_data : value) (ds : list string) :
  digests_of_blob_data blob_data = Ok ds ->
  Forall (fun d => valid_blob_id (VStr d)) ds.
Proof.
  unfold digests_of_blob_data. intros H.
  destruct (iterate blob_data) as [entries|e]; simpl in H; [|discriminate].
  destruct (map_result _ entries) as [ids|e]; simpl in H; [|discriminate].
  by eapply map_result_check_digest_valid.
Qed.

Section DigestsMore.

Context {World : Type}.
Variable sys : OS World.

Lemma get_blob_digests_Ok_valid (p : Path) (w w' : World) (ds : list string)
    (evs : list event) :
  get_blob_digests sys p w = (Ok ds, w', evs) ->
  Forall (fun d => valid_blob_id (VStr d)) ds.
Proof.
  unfold get_blob_digests. intros H.
  apply bind_Ok_inv in H as (cp & w1 & ev1 & ev1' & _ & H & ->).
  unfold lift, parse_json in H. injection H as H _ _.
  destruct (json_loads sys (stdout cp)) as [data|]; simpl in H; [|discriminate].
  by eapply digests_of_blob_data_valid.
Qed.

(** X6.  [get_blob_digests] starts exactly one process, the inspection of
    the bootstrap it is given, whatever the outcome; a non-zero exit status
    is raised as [CalledProcessError] with the status and the output; output
    that is not JSON is raised as [JSONDecodeError]; and every digest it
    returns is a non-empty hexadecimal string of at least 8 characters. *)
Theorem get_blob_digests_run (bootstrap_path : Path) (w : World) :
  let cp := fst (exec sys (inspect_event bootstrap_path) w) in
  let r := get_blob_digests sys bootstrap_path w in
  events r = [inspect_event bootstrap_path]
  /\ world_after r = snd (exec sys (inspect_event bootstrap_path) w)
  /\ (returncode cp <> 0 ->
      outcome r = Raise (CalledProcessError (returncode cp) (stdout cp) (stderr cp)))
  /\ (returncode cp = 0 -> json_loads sys (stdout cp) = None ->
      outcome r = Raise JSONDecodeError)
  /\ (forall ds, outcome r = Ok ds -> Forall (fun d => valid_blob_id (VStr d)) ds).
Proof.
  cbv zeta. unfold get_blob_digests, bind, subprocess_run_check, lift, parse_json,
    outcome, world_after, events.
  destruct (exec sys (inspect_event bootstrap_path) w) as [cp w'].
  cbn [fst snd].
  destruct (returncode cp =? 0) eqn:Hrc.
  - apply Z.eqb_eq in Hrc.
    destruct (json_loads sys (stdout cp)) as [data|] eqn:Hjson; cbn.
    + repeat split; try congruence.
      intros ds Hds. by eapply digests_of_blob_data_valid.
    + repeat split; congruence.
  - apply Z.eqb_neq in Hrc. cbn. repeat split; congruence.
Qed.

(** X7.  The entries are read before any id is checked: when some entry of
    the inspection output has no [blob_id], or is not an object,
    [get_blob_digests] raises [KeyError] or [TypeError], never an assertion
    failure, even if an earlier id is malformed.  An empty list of entries
    gives the empty list of digests. *)
Theorem digests_of_blob_data_entries (entries : list value) (e : exn) :
  digests_of_blob_data (VList []) = Ok []
  /\ (map_result (fun blob => getitem blob "blob_id") entries = Raise e ->
      digests_of_blob_data (VList entries) = Raise e
      /\ (e = KeyError "blob_id" \/ e = TypeError)).
Proof.
  split; [reflexivity|]. intros H. split.
  - unfold digests_of_blob_data. simpl. by rewrite H.
  - revert H. induction entries as [|x entries IH]; simpl; [discriminate|].
    destruct (getitem x "blob_id") as [v|e'] eqn:Hx; simpl.
    + destruct (map_result _ entries) as [vs|e'']; simpl; [discriminate|].
      intros [= ->]. by apply IH.
    + intros [= ->]. unfold getitem in Hx.
      destruct x; try (injection Hx as <-; by right).
      destruct (assoc_get "blob_id" kvs); [discriminate|].
      injection Hx as <-. by left.
Qed.

(** X8.  Without a bootstrap file [read_from_dir] raises
    [FileNotFoundError], starts no process and changes nothing.  A
    descriptor it returns has the bootstrap path [directory/bootstrap];
    every layer carries the backend given; every digest is a valid blob id;
    the only process started was the inspection of that bootstrap; and
    without a [config.json] the image config is the default one (amd64,
    linux, no config). *)
Theorem read_from_dir_behaviour (directory : Path) (b : NydusBackend) (w w' : World)
    (img : NydusImageWithBackends) (evs : list event) :
  (path_exists sys (path_join directory "bootstrap") w = false ->
   read_from_dir sys directory b w = (Raise FileNotFoundError, w, [])) /\
  (read_from_dir sys directory b w = (Ok img, w', evs) ->
  bootstrap_local_path img = path_join directory "bootstrap"
  /\ path_exists sys (path_join directory "bootstrap") w = true
  /\ (forall i l, layers img !! i = Some l ->
        backend l = b /\ valid_blob_id (VStr (digest l)))
  /\ evs = [inspect_event (path_join directory "bootstrap")]
  /\ (path_exists sys (path_join directory "config.json") w = false ->
      image_config img = default_image_config)).
Proof.
  split; [unfold read_from_dir, bind; by intros ->|].
  unfold read_from_dir. intros H.
  apply bind_Ok_inv in H as (present & w1 & ev1 & ev1' & Hp & H & ->).
  injection Hp as <- <- <-.
  destruct (path_exists sys (path_join directory "bootstrap") w) eqn:Hboot;
    [|discriminate]. cbn [negb] in H.
  apply bind_Ok_inv in H as (has_config & w2 & ev2 & ev2' & Hc & H & ->).
  injection Hc as <- <- <-.
  apply bind_Ok_inv in H as (cfg & w3 & ev3 & ev3' & Hcfg & H & ->).
  apply bind_Ok_inv in H as (ds & w4 & ev4 & ev4' & Hds & H & ->).
  injection H as <- <- <-.
  assert (Hev3 : ev3 = [] /\ w3 = w
                 /\ (path_exists sys (path_join directory "config.json") w = false ->
                     cfg = default_image_config)).
  { destruct (path_exists sys (path_join directory "config.json") w).
    - apply bind_Ok_inv in Hcfg as (text & w5 & ev5 & ev5' & Ht & Hcfg & ->).
      injection Ht as _ <- <-. unfold lift in Hcfg. injection Hcfg as _ <- <-.
      repeat split. discriminate.
    - injection Hcfg as <- <- <-. repeat split. }
  destruct Hev3 as (-> & -> & Hdef).
  pose proof (get_blob_digests_Ok_valid _ _ _ _ _ Hds) as Hvalid.
  apply get_blob_digests_events in Hds as ->.
  split; [reflexivity|]. split; [reflexivity|]. split; [|split; [reflexivity|exact Hdef]].
  cbn. intros i l Hl. rewrite list_lookup_fmap in Hl.
  destruct (ds !! i) as [d|] eqn:Hd; [|discriminate]. injection Hl as <-. cbn.
  split; [reflexivity|]. rewrite Forall_lookup in Hvalid. by eapply Hvalid.
Qed.

End DigestsMore.

Module FileSystemMore.

Import FileSystem FileSystemFacts.

Lemma fs_mkdir_made (p : Path) (fs fs' : FS) :
  fs_mkdir p true true fs = (Ok tt, fs') -> fs' !! p = Some Dir.
Proof.
  unfold fs_mkdir. intros H.
  destruct (fs !! p) as [[c|]|] eqn:Hp; [discriminate | by injection H as <- |].
  destruct (ensure_dirs (ancestors p) fs) as [fs1|e]; [|discriminate].
  injection H as <-. apply lookup_insert_eq.
Qed.

Lemma fs_copy2_lookup (src dst q : Path) (fs fs' : FS) :
  fs_copy2 src dst fs = (Ok tt, fs') ->
  q <> dst -> q <> path_join dst (List.last src "") ->
  fs' !! q = fs !! q.
Proof.
  unfold fs_copy2. intros H Hq1 Hq2.
  destruct (fs !! src) as [[c|]|]; [|discriminate..].
  rewrite (fs_write_text_lookup _ q _ _ _ H).
  apply decide_False. destruct (fs !! dst) as [[c'|]|]; congruence.
Qed.

Section WriteFrame.

Variable inspect_tool : node -> completed_process.
Variable loads : string -> option value.
Variable dumps : value -> string.

Let sys : OS FS := fs_os inspect_tool loads dumps.

(** X9.  On the file-system world, a [write_to_dir] that succeeds starts no
    process; afterwards the target is a directory and its [config.json]
    holds the serialised image config; and whatever was on the disk before
    is still there unchanged, but for [config.json] and the copied
    bootstrap in the target directory.  When the descriptor's bootstrap is
    already [directory/bootstrap], the bootstrap is not touched. *)
Theorem write_to_dir_frame (img : NydusImageWithBackends) (directory : Path) (fs : FS) :
  outcome (write_to_dir sys img directory fs) = Ok tt ->
  let fs' := world_after (write_to_dir sys img directory fs) in
  let boot := path_join directory "bootstrap" in
  let conf := path_join directory "config.json" in
  events (write_to_dir sys img directory fs) = []
  /\ fs' !! directory = Some Dir
  /\ fs' !! conf = Some (File (dumps (to_dict (image_config img))))
  /\ (forall q n, fs !! q = Some n ->
        q <> conf -> q <> boot ->
        q <> path_join boot (List.last (bootstrap_local_path img) "") ->
        fs' !! q = Some n)
  /\ (bootstrap_local_path img = boot -> fs' !! boot = fs !! boot).
Proof.
  intros Hok. cbv zeta.
  pose proof (write_to_dir_run inspect_tool loads dumps img directory fs) as Hrun.
  cbv zeta in Hrun. fold sys in Hrun. rewrite Hok in Hrun.
  set (fs' := world_after _) in *.
  assert (Hev : events (write_to_dir sys img directory fs) = []).
  { unfold write_to_dir, bind, call, ret, events.
    destruct (mkdir sys directory true true fs) as [[[]|e] fs1]; [|reflexivity].
    destruct (negb _).
    - destruct (copy2 sys _ _ fs1) as [[[]|e] fs2]; [|reflexivity].
      by destruct (write_text sys _ _ fs2) as [r fs3].
    - by destruct (write_text sys _ _ fs1) as [r fs3]. }
  clearbody fs'.
  set (boot := path_join directory "bootstrap") in *.
  set (conf := path_join directory "config.json") in *.
  destruct (fs_mkdir directory true true fs) as [[[]|e] fs1] eqn:Hmk; [|discriminate].
  destruct (if negb (path_eqb (bootstrap_local_path img) boot)
            then fs_copy2 (bootstrap_local_path img) boot fs1
            else (Ok tt, fs1)) as [[[]|e] fs2] eqn:Hcopy; [|discriminate].
  symmetry in Hrun.
  assert (Hne : conf <> boot) by (apply join_inj_name; discriminate).
  assert (Hdir_conf : directory <> conf)
    by (intros Heq; by apply (join_not_ancestor directory "config.json")).
  assert (Hdir_boot : directory <> boot)
    by (intros Heq; by apply (join_not_ancestor directory "bootstrap")).
  assert (Hdir_in : forall x, directory <> path_join boot x).
  { intros x Heq. apply (f_equal List.length) in Heq.
    unfold boot, path_join in Heq. rewrite !length_app in Heq. simpl in Heq. lia. }
  assert (H12 : forall q, q <> boot ->
            q <> path_join boot (List.last (bootstrap_local_path img) "") ->
            fs2 !! q = fs1 !! q).
  { intros q Hq1 Hq2. destruct (negb _).
    - by eapply fs_copy2_lookup.
    - by injection Hcopy as <-. }
  split; [exact Hev|]. split; [|split; [|split]].
  - rewrite (fs_write_text_lookup _ directory _ _ _ Hrun), decide_False by congruence.
    rewrite H12 by (try apply Hdir_in; congruence). by eapply fs_mkdir_made.
  - rewrite (fs_write_text_lookup _ conf _ _ _ Hrun). by apply decide_True.
  - intros q n Hq Hc Hb Hin.
    rewrite (fs_write_text_lookup _ q _ _ _ Hrun), decide_False by congruence.
    rewrite H12 by assumption. by eapply fs_mkdir_keeps.
  - intros Heq. rewrite (fs_write_text_lookup _ boot _ _ _ Hrun), decide_False by exact Hne.
    unfold path_eqb in Hcopy. rewrite bool_decide_eq_true_2 in Hcopy by exact Heq.
    injection Hcopy as <-. by eapply fs_mkdir_below.
Qed.

End WriteFrame.

End FileSystemMore.

(** ** More on manifests *)

Lemma header_Ok_schema (m v : value) :
  check_manifest_header m = Ok v -> schema_is_2 m = true.
Proof.
  unfold check_manifest_header, schema_is_2.
  destruct (get m "schemaVersion") as [sv|e]; simpl; [|discriminate].
  by destruct (eq_int sv 2).
Qed.

(** X10.  What stands between an uploaded manifest and the download checks
    is the media type of its config entry alone: the layer checks accept
    the manifest [create_oci_manifest] builds and give back the bootstrap
    digest it was built from, and with the config media type replaced by
    the expected one the header checks accept it too and give back the
    config digest. *)
Theorem uploaded_manifest_against_download_checks (config_digest : string)
    (config_size : Z) (bootstrap_digest : string) (bootstrap_size : Z) :
  let m := create_oci_manifest config_digest config_size bootstrap_digest bootstrap_size in
  check_manifest_layers m = Ok (VStr bootstrap_digest)
  /\ check_manifest_header (with_config_media_type m expected_config_media_type)
     = Ok (VStr config_digest)
  /\ check_manifest_layers (with_config_media_type m expected_config_media_type)
     = Ok (VStr bootstrap_digest).
Proof. cbv zeta. repeat split; reflexivity. Qed.

Section DownloadMore.

Context {World : Type}.
Variable sys : OS World.

(** X11.  A descriptor comes out of [download_from_manifest] only for a
    manifest that passed every check: schema version 2, exactly one layer,
    the file-system version annotation.  The run then started exactly three
    processes, in this order: the download of the config blob, the download
    of the bootstrap layer into a temporary archive, and the inspection of
    the extracted bootstrap [output_dir/image.boot]; that path is the
    bootstrap path of the descriptor and every layer carries the backend
    given, with a valid digest. *)
Theorem download_from_manifest_Ok (reference : string) (b : NydusBackend)
    (output_dir : Path) (m : value) (w w' : World) (img : NydusImageWithBackends)
    (evs : list event) :
  download_from_manifest sys reference b output_dir m w = (Ok img, w', evs) ->
  schema_is_2 m = true /\ layer_count_is_1 m = true /\ has_fs_version_6 m = true
  /\ (exists config_digest bootstrap_digest temp_tar,
        check_manifest_header m = Ok (VStr config_digest)
        /\ check_manifest_layers m = Ok (VStr bootstrap_digest)
        /\ evs = [ blob_get_event reference config_digest None;
                   blob_get_event reference bootstrap_digest (Some temp_tar);
                   inspect_event (path_join output_dir "image.boot") ])
  /\ bootstrap_local_path img = path_join output_dir "image.boot"
  /\ (forall i l, layers img !! i = Some l ->
        backend l = b /\ valid_blob_id (VStr (digest l))).
Proof.
  unfold download_from_manifest, with_tempfile. intros H.
  apply bind_Ok_inv in H as (cd & w1 & ev1 & ev1' & Hhead & H & ->).
  unfold lift in Hhead. injection Hhead as Hhead <- <-.
  apply bind_Ok_inv in H as (p1 & w2 & ev2 & ev2' & Htmp & H & ->).
  unfold call in Htmp. destruct (mktemp sys ".json" w) as [r1 w1']. injection Htmp as -> <- <-.
  match type of H with
  | (match ?body with _ => _ end) = _ => destruct body as [[r3 w3] ev3] eqn:Hbody
  end.
  injection H as -> _ ->.
  apply bind_Ok_inv in Hbody as (cds & w4 & ev4 & ev4' & Hcds & Hbody & ->).
  unfold lift in Hcds. injection Hcds as Hcds <- <-.
  apply bind_Ok_inv in Hbody as (cres & w5 & ev5 & ev5' & Hget & Hbody & ->).
  apply bind_Ok_inv in Hbody as (cdata & w6 & ev6 & ev6' & Hparse & Hbody & ->).
  unfold lift in Hparse. injection Hparse as Hparse <- <-.
  apply bind_Ok_inv in Hbody as (bd & w7 & ev7 & ev7' & Hlayers & Hbody & ->).
  unfold lift in Hlayers. injection Hlayers as Hlayers <- <-.
  apply bind_Ok_inv in Hbody as (p2 & w8 & ev8 & ev8' & Htmp2 & Hbody & ->).
  unfold call in Htmp2. destruct (mktemp sys ".tar.gz" w5) as [r2 w5'].
  injection Htmp2 as -> <- <-.
  match type of Hbody with
  | (match ?body with _ => _ end) = _ => destruct body as [[r9 w9] ev9] eqn:Hinner
  end.
  injection Hbody as -> _ ->.
  apply bind_Ok_inv in Hinner as (bds & w10 & ev10 & ev10' & Hbds & Hinner & ->).
  unfold lift in Hbds. injection Hbds as Hbds <- <-.
  apply bind_Ok_inv in Hinner as (u11 & w11 & ev11 & ev11' & Hget2 & Hinner & ->).
  apply bind_Ok_inv in Hinner as (u12 & w12 & ev12 & ev12' & Htar & Hinner & ->).
  apply bind_Ok_inv in Hinner as (ds & w13 & ev13 & ev13' & Hds & Hinner & ->).
  apply bind_Ok_inv in Hinner as (cfg & w14 & ev14 & ev14' & Hcfg & Hinner & ->).
  unfold lift in Hcfg. injection Hcfg as Hcfg <- <-.
  unfold ret in Hinner. injection Hinner as <- _ <-.
  assert (ev5 = [blob_get_event reference cds None]) as ->.
  { unfold subprocess_run_check in Hget. destruct (exec sys _ w1') as [cp wx].
    destruct (returncode cp =? 0); [|discriminate]. by injection Hget as _ _ <-. }
  assert (ev11 = [blob_get_event reference bds (Some p2)]) as ->.
  { unfold subprocess_run_check in Hget2. destruct (exec sys _ w5') as [cp wx].
    destruct (returncode cp =? 0); [|discriminate]. by injection Hget2 as _ _ <-. }
  assert (ev12 = []) as ->.
  { destruct (tar_extract sys p2 "image/image.boot" "image.boot" output_dir w11)
      as [[u|[]] wx]; by injection Htar as _ _ <-. }
  pose proof (get_blob_digests_Ok_valid sys _ _ _ _ _ Hds) as Hvalid.
  apply get_blob_digests_events in Hds as ->.
  destruct cd as [| | | | cd' | |]; try discriminate. injection Hcds as ->.
  destruct bd as [| | | | bd' | |]; try discriminate. injection Hbds as ->.
  split; [by eapply header_Ok_schema|].
  assert (Hgood : layer_count_is_1 m = true /\ has_fs_version_6 m = true).
  { destruct (layer_count_is_1 m) eqn:H1, (has_fs_version_6 m) eqn:H2; try done;
      (destruct (bad_layers_rejected m) as [e He]; [auto | congruence]). }
  destruct Hgood as [H1 H2]. split; [exact H1|]. split; [exact H2|].
  split; [exists cds, bds, p2; repeat split; done|].
  split; [reflexivity|].
  cbn. intros i l Hl. rewrite list_lookup_fmap in Hl.
  destruct (ds !! i) as [d|] eqn:Hd; [|discriminate]. injection Hl as <-. cbn.
  split; [reflexivity|]. rewrite Forall_lookup in Hvalid. by eapply Hvalid.
Qed.

End DownloadMore.

(** ** More on repacking *)

Section RepackMore.

Context {World : Type}.
Variable sys : OS World.


Lemma call_Ok_inv {A} (f : World -> result A * World) (w w' : World) (a : A)
    (evs : list event) :
  call f w = (Ok a, w', evs) -> f w = (Ok a, w') /\ evs = [].
Proof. unfold call. destruct (f w) as [r w1]. by intros [= -> -> <-]. Qed.

Lemma repack_nydus_image_Ok_args (tar_path repack_dir : Path) (create_opts : string)
    (target_blob_dir : option Path) (w w' : World) (created : Path * Path)
    (evs : list event) :
  repack_nydus_image sys tar_path repack_dir create_opts target_blob_dir w
    = (Ok created, w', evs) ->
  let blob_dir := match target_blob_dir with
                  | Some d => d
                  | None => path_join repack_dir "blobs"
                  end in
  created = (path_join repack_dir "bootstrap", blob_dir)
  /\ exists opts,
       create_args sys create_opts = Some opts
       /\ evs = [create_event (path_join repack_dir "bootstrap") blob_dir tar_path opts].
Proof.
  unfold repack_nydus_image. intros H. cbv zeta.
  apply bind_Ok_inv in H as (dir & w1 & ev1 & ev1' & Hdir & H & ->).
  apply bind_Ok_inv in H as (opts & w2 & ev2 & ev2' & Hopts & H & ->).
  apply bind_Ok_inv in H as (cp & w3 & ev3 & ev3' & Hrun & H & ->).
  assert (Hd : dir = match target_blob_dir with
                     | Some d => d
                     | None => path_join repack_dir "blobs"
                     end /\ ev1 = []).
  { destruct target_blob_dir as [d|];
      apply bind_Ok_inv in Hdir as (u & w0 & ev0 & ev0' & Hmk & Hret & ->);
      unfold ret in Hret; injection Hret as <- <- <-;
      apply call_Ok_inv in Hmk as [_ ->]; done. }
  destruct Hd as [-> ->].
  assert (Hargs : create_args sys create_opts = Some opts /\ ev2 = []).
  { unfold create_args. destruct (negb (is_blank create_opts)).
    - destruct (shlex_split sys create_opts); [|discriminate].
      unfold ret in Hopts. by injection Hopts as <- _ <-.
    - unfold ret in Hopts. by injection Hopts as <- _ <-. }
  destruct Hargs as [Hargs ->].
  unfold subprocess_run_check in Hrun.
  destruct (exec sys _ w2) as [cp' w2'].
  destruct (returncode cp' =? 0) eqn:Hrc; [|discriminate].
  injection Hrun as <- <- <-. rewrite Hrc in H. unfold ret in H. simpl in H.
  injection H as <- <- <-. split; [reflexivity|]. exists opts. done.
Qed.

Lemma localize_source_Ok (source_image : NydusImageWithBackends) (temp_dir d : Path)
    (w w' : World) (evs : list event) :
  localize_source sys source_image temp_dir w = (Ok d, w', evs) ->
  d = local_blob_dir_of source_image temp_dir
  /\ evs = map (fun layer => transport_event layer
                               (mkBlob (digest layer) (NydusLocalFilesystemBackend d)))
             (filter (fun layer => backend layer <> NydusLocalFilesystemBackend d)
                (match layers source_image with
                 | first :: _ =>
                     match local_dir_of (backend first) with
                     | Some _ => []
                     | None => layers source_image
                     end
                 | [] => []
                 end)).
Proof.
  intros H.
  assert (Hdl : match layers source_image with
                | first :: _ => local_dir_of (backend first) = None
                | [] => True
                end ->
                d = path_join temp_dir "local_blobs"
                /\ evs = map (fun layer => transport_event layer
                               (mkBlob (digest layer) (NydusLocalFilesystemBackend d)))
                           (filter (fun layer => backend layer <> NydusLocalFilesystemBackend d)
                              (layers source_image))).
  { intros Hfirst. rewrite (localize_source_download sys source_image temp_dir Hfirst) in H.
    cbv zeta in H.
    apply bind_Ok_inv in H as (u1 & w1 & ev1 & ev1' & Hmk & H & ->).
    apply call_Ok_inv in Hmk as [_ ->].
    apply bind_Ok_inv in H as (u2 & w2 & ev2 & ev2' & Hcopy & H & ->).
    unfold ret in H. injection H as <- <- <-. split; [reflexivity|].
    pose proof (change_backends_compatible source_image
                  (NydusLocalFilesystemBackend (path_join temp_dir "local_blobs"))) as Hc.
    rewrite (copy_blobs_compatible _ _ _ _ Hc) in Hcopy.
    apply (loop_ok_events _ _ (compatible_pairs _ _ Hc)) in Hcopy.
    rewrite app_nil_r. cbn [app]. rewrite Hcopy. apply zip_rewritten_transports. }
  unfold local_blob_dir_of.
  destruct (layers source_image) as [|first rest] eqn:Hl.
  - destruct (Hdl I) as [-> ->]. by rewrite filter_nil.
  - destruct (backend first) as [e bk r ak sk op|dir] eqn:Hb; cbn [local_dir_of].
    + destruct (Hdl eq_refl) as [-> ->]. done.
    + rewrite (localize_source_first_local sys source_image temp_dir dir first rest w Hl Hb) in H.
      injection H as <- _ <-. by rewrite filter_nil.
Qed.

(** The shape of a successful [repack_image]. *)
Lemma repack_image_Ok_inv (source_image : NydusImageWithBackends)
    (target_backend : NydusBackend) (create_opts : string) (temp_dir : Path)
    (w w' : World) (target temp_source : NydusImageWithBackends) (evs : list event) :
  repack_image sys source_image target_backend create_opts temp_dir w
    = (Ok (target, temp_source), w', evs) ->
  let tar := path_join temp_dir "unpacked.tar" in
  let new_bootstrap := path_join (path_join temp_dir "repack") "bootstrap" in
  let actual_blob_dir :=
    match local_dir_of target_backend with
    | Some d => d
    | None => path_join (path_join temp_dir "repack") "blobs"
    end in
  let local_blob_dir := local_blob_dir_of source_image temp_dir in
  exists w1 w2 ev_loc opts ds,
    localize_source sys source_image temp_dir w1 = (Ok local_blob_dir, w2, ev_loc)
    /\ create_args sys create_opts = Some opts
    /\ evs = ev_loc ++ [ unpack_event (bootstrap_local_path source_image) local_blob_dir tar;
                         create_event new_bootstrap actual_blob_dir tar opts;
                         inspect_event new_bootstrap ]
    /\ target = mkImage new_bootstrap (map (fun d => mkBlob d target_backend) ds)
                  (image_config source_image)
    /\ temp_source = mkImage new_bootstrap
                       (map (fun d => mkBlob d (NydusLocalFilesystemBackend actual_blob_dir)) ds)
                       (image_config source_image).
Proof.
  unfold repack_image. intros H. cbv zeta.
  apply bind_Ok_inv in H as (u1 & w1 & ev1 & ev1' & Hmk & H & ->).
  apply call_Ok_inv in Hmk as [_ ->].
  apply bind_Ok_inv in H as (local_blob_dir & w2 & ev2 & ev2' & Hloc & H & ->).
  apply bind_Ok_inv in H as (u3 & w3 & ev3 & ev3' & Hunpack & H & ->).
  apply bind_Ok_inv in H as (created & w4 & ev4 & ev4' & Hcreate & H & ->).
  apply bind_Ok_inv in H as (ds & w5 & ev5 & ev5' & Hinspect & H & ->).
  apply repack_nydus_image_Ok_args in Hcreate as [-> (opts & Hargs & ->)].
  cbn [fst snd] in *.
  apply get_blob_digests_events in Hinspect as ->.
  unfold ret in H. injection H as <- <- <- <-.
  assert (ev3 = [unpack_event (bootstrap_local_path source_image) local_blob_dir
                   (path_join temp_dir "unpacked.tar")]) as ->.
  { unfold unpack_nydus_image in Hunpack.
    apply bind_Ok_inv in Hunpack as (cp & w6 & ev6 & ev6' & Hrun & Hunpack & ->).
    unfold subprocess_run in Hrun. destruct (exec sys _ w2) as [cp' w2'].
    injection Hrun as <- <- <-.
    destruct (negb _); [discriminate|]. unfold ret in Hunpack.
    by injection Hunpack as _ _ <-. }
  pose proof (localize_source_Ok _ _ _ _ _ _ Hloc) as [Hd _].
  rewrite <- Hd.
  exists w1, w2, ev2, opts, ds. rewrite !app_nil_r. cbn [app].
  repeat split; done.
Qed.

(** X12.  A [repack_image] that returns has run, in this order and nothing
    else: the transports that bring the source blobs to the local directory
    (none when the first layer is local; otherwise one for each layer of the
    source that is not in that directory already, in layer order), the
    unpacking of the source bootstrap against that directory, the creation of
    the new image, and the inspection of the new bootstrap.  The options
    given to the creation are the split [create_opts]; a [create_opts] that
    [strip] empties adds no argument at all. *)
Theorem repack_image_pipeline (source_image : NydusImageWithBackends)
    (target_backend : NydusBackend) (create_opts : string) (temp_dir : Path)
    (w w' : World) (target temp_source : NydusImageWithBackends) (evs : list event) :
  repack_image sys source_image target_backend create_opts temp_dir w
    = (Ok (target, temp_source), w', evs) ->
  let tar := path_join temp_dir "unpacked.tar" in
  let local_blob_dir := local_blob_dir_of source_image temp_dir in
  let pulled :=
    filter (fun layer => backend layer <> NydusLocalFilesystemBackend local_blob_dir)
      (match layers source_image with
       | first :: _ =>
           match local_dir_of (backend first) with
           | Some _ => []
           | None => layers source_image
           end
       | [] => []
       end) in
  exists opts,
    evs = map (fun layer => transport_event layer
                 (mkBlob (digest layer) (NydusLocalFilesystemBackend local_blob_dir)))
            pulled
          ++ [ unpack_event (bootstrap_local_path source_image) local_blob_dir tar;
               create_event (bootstrap_local_path target)
                 (match local_dir_of target_backend with
                  | Some d => d
                  | None => path_join (path_join temp_dir "repack") "blobs"
                  end) tar opts;
               inspect_event (bootstrap_local_path target) ]
    /\ (strip create_opts = "" -> opts = [])
    /\ (strip create_opts <> "" -> shlex_split sys create_opts = Some opts).
Proof.
  intros H. cbv zeta.
  apply repack_image_Ok_inv in H as (w1 & w2 & ev_loc & opts & ds & Hloc & Hargs & -> & -> & ->).
  cbn [bootstrap_local_path].
  apply localize_source_Ok in Hloc as [_ ->].
  exists opts. split; [reflexivity|]. unfold create_args, is_blank in Hargs. split.
  - intros Hb. rewrite Hb in Hargs. cbn in Hargs. congruence.
  - intros Hb. apply String.eqb_neq in Hb. by rewrite Hb in Hargs.
Qed.

(** X13.  When every layer of the source is on object storage, a
    [localize_source] that returns has pulled every blob, one [rclone copy]
    each and in layer order, into the fresh directory
    [temp_dir/local_blobs], which is the directory it returns. *)
Theorem localize_source_pulls_every_blob (source_image : NydusImageWithBackends)
    (temp_dir d : Path) (w w' : World) (evs : list event) :
  Forall (fun layer => local_dir_of (backend layer) = None) (layers source_image) ->
  localize_source sys source_image temp_dir w = (Ok d, w', evs) ->
  d = path_join temp_dir "local_blobs"
  /\ evs = map (fun layer => transport_event layer
                   (mkBlob (digest layer) (NydusLocalFilesystemBackend d)))
           (layers source_image).
Proof.
  intros Hall H. apply localize_source_Ok in H as [Hd ->].
  unfold local_blob_dir_of in Hd.
  assert (Hfilter : forall l : list NydusBlobLocation,
            Forall (fun layer => local_dir_of (backend layer) = None) l ->
            filter (fun layer => backend layer <> NydusLocalFilesystemBackend d) l = l).
  { intros l Hl. induction Hl as [|x l Hx _ IH]; [reflexivity|].
    rewrite filter_cons, decide_True, IH; [reflexivity|].
    intros Heq. rewrite Heq in Hx. discriminate. }
  destruct (layers source_image) as [|first rest] eqn:Hl.
  - split; [exact Hd | reflexivity].
  - pose proof (Forall_inv Hall) as Hfirst. rewrite Hfirst in Hd |- *.
    split; [exact Hd|]. by rewrite Hfilter.
Qed.

(** X14.  Repacking to a local-filesystem target creates the blobs in the
    target directory itself: the temp source and the target then have the
    same backends, and [copy_blobs] from the one to the other returns at
    once, without starting a process. *)
Theorem repack_to_local_target_needs_no_copy (source_image : NydusImageWithBackends)
    (target_dir : Path) (create_opts : string) (temp_dir : Path)
    (w w' : World) (target temp_source : NydusImageWithBackends) (evs : list event) :
  repack_image sys source_image (NydusLocalFilesystemBackend target_dir) create_opts
    temp_dir w = (Ok (target, temp_source), w', evs) ->
  temp_source = target
  /\ forall (W2 : Type) (oracle : event -> W2 -> completed_process * W2) (w2 : W2),
       copy_blobs oracle temp_source target w2 = (Ok tt, w2, []).
Proof.
  intros H.
  apply repack_image_Ok_inv in H as (w1 & w2 & ev_loc & opts & ds & _ & _ & _ & -> & ->).
  cbn [local_dir_of]. split; [reflexivity|].
  intros W2 oracle w0.
  set (img := mkImage _ _ _).
  assert (Hc : copy_compatible img img).
  { split; [reflexivity|]. split; [reflexivity|]. intros i sb tb Hs Ht. congruence. }
  rewrite (copy_blobs_compatible oracle _ _ w0 Hc).
  apply loop_same_backends.
  apply Forall_lookup_2. intros i [sb tb] Hi.
  apply lookup_zip_with_Some in Hi as (x & y & [= -> ->] & Hx & Hy).
  assert (x = y) as -> by congruence.
  split; [reflexivity|]. unfold backends_differ. cbn.
  by apply negb_false_iff, backend_eqb_eq.
Qed.

(** X15.  When the unpacking exits with a non-zero status, [repack_image]
    raises [RuntimeError] and stops there: after the transports of the
    localisation the unpacking is the last process, and neither the creation
    nor the inspection is started. *)
Theorem repack_image_unpack_failure (source_image : NydusImageWithBackends)
    (target_backend : NydusBackend) (create_opts : string) (temp_dir : Path)
    (w w1 w2 : World) (d : Path) (ev_loc : list event) :
  mkdir sys (path_join temp_dir "repack") true false w = (Ok tt, w1) ->
  localize_source sys source_image temp_dir w1 = (Ok d, w2, ev_loc) ->
  let unpack := unpack_event (bootstrap_local_path source_image) d
                  (path_join temp_dir "unpacked.tar") in
  returncode (fst (exec sys unpack w2)) <> 0 ->
  repack_image sys source_image target_backend create_opts temp_dir w
  = (Raise (RuntimeError "nydus-image unpack failed"),
     snd (exec sys unpack w2), ev_loc ++ [unpack]).
Proof.
  intros Hmk Hloc unpack Hrc. unfold repack_image, bind, call.
  rewrite Hmk, Hloc. unfold unpack_nydus_image, bind, subprocess_run. fold unpack.
  destruct (exec sys unpack w2) as [cp w3]. cbn [fst snd] in *.
  apply Z.eqb_neq in Hrc. rewrite Hrc. cbn. reflexivity.
Qed.

End RepackMore.

(** ** The S3 config file *)

Lemma assoc_get_set {V} (k k' : string) (v : V) (d : list (string * V)) :
  assoc_get k' (assoc_set k v d) = if String.eqb k' k then Some v else assoc_get k' d.
Proof.
  induction d as [|[k0 v0] d IH]; simpl.
  - by destruct (String.eqb k' k).
  - destruct (String.eqb k k0) eqn:Hk; simpl.
    + apply String.eqb_eq in Hk as <-. by destruct (String.eqb k' k).
    + destruct (String.eqb k' k0) eqn:Hk0; [|exact IH].
      apply String.eqb_eq in Hk0 as ->. by rewrite String.eqb_sym, Hk.
Qed.

Lemma assoc_get_del {V} (k k' : string) (d : list (string * V)) :
  assoc_get k' (assoc_del k d) = if String.eqb k' k then None else assoc_get k' d.
Proof.
  induction d as [|[k0 v0] d IH]; simpl.
  - by destruct (String.eqb k' k).
  - destruct (String.eqb k k0) eqn:Hk; simpl.
    + apply String.eqb_eq in Hk as <-. rewrite IH. by destruct (String.eqb k' k).
    + rewrite IH. destruct (String.eqb k' k0) eqn:Hk0; [|reflexivity].
      apply String.eqb_eq in Hk0 as ->. by rewrite String.eqb_sym, Hk.
Qed.

Lemma assoc_get_filter {V} (P : string -> bool) (k : string) (d : list (string * V)) :
  assoc_get k (filter (fun kv => P (fst kv) = true) d)
  = if P k then assoc_get k d else None.
Proof.
  induction d as [|[k0 v0] d IH]; simpl; [by destruct (P k)|].
  rewrite filter_cons. simpl. destruct (decide (P k0 = true)) as [Hp|Hp]; simpl.
  - destruct (String.eqb k k0) eqn:Hk; [|exact IH].
    apply String.eqb_eq in Hk as ->. by rewrite Hp.
  - rewrite IH. destruct (String.eqb k k0) eqn:Hk; [|reflexivity].
    apply String.eqb_eq in Hk as ->. by destruct (P k0).
Qed.

Lemma assoc_get_is_Some {V} (k : string) (d : list (string * V)) :
  is_Some (assoc_get k d) <-> k ∈ map fst d.
Proof.
  induction d as [|[k0 v0] d IH]; simpl.
  - split; [intros [? ?]; discriminate | intros H; by apply elem_of_nil in H].
  - rewrite elem_of_cons. destruct (String.eqb k k0) eqn:Hk.
    + apply String.eqb_eq in Hk. split; [by left | eauto].
    + apply String.eqb_neq in Hk. rewrite IH. split; [by right | by intros [?|?]].
Qed.

Lemma rename_key_get (alias name k : string) (d : list (string * value)) :
  alias <> name ->
  assoc_get k (rename_key alias name d) =
  if String.eqb k name then alias_or alias name d
  else if String.eqb k alias then None
  else assoc_get k d.
Proof.
  intros Hne. unfold rename_key, alias_or.
  destruct (assoc_get alias d) as [v|] eqn:Ha.
  - rewrite assoc_get_set. destruct (String.eqb k name); [reflexivity|].
    apply assoc_get_del.
  - destruct (String.eqb k name) eqn:Hn.
    + by apply String.eqb_eq in Hn as ->.
    + destruct (String.eqb k alias) eqn:Hk; [|reflexivity].
      by apply String.eqb_eq in Hk as ->.
Qed.

(** The lookups in the config as [parse_s3_config] has it after the three
    renamings. *)
Lemma renamed_get (k : string) (d : list (string * value)) :
  assoc_get k
    (rename_key "access_key_secret" "secret_key"
       (rename_key "access_key_id" "access_key"
          (rename_key "bucket_name" "bucket" d)))
  = if String.eqb k "secret_key" then alias_or "access_key_secret" "secret_key" d
    else if String.eqb k "access_key_secret" then None
    else if String.eqb k "access_key" then alias_or "access_key_id" "access_key" d
    else if String.eqb k "access_key_id" then None
    else if String.eqb k "bucket" then alias_or "bucket_name" "bucket" d
    else if String.eqb k "bucket_name" then None
    else assoc_get k d.
Proof.
  rewrite rename_key_get by discriminate.
  destruct (String.eqb k "secret_key") eqn:H1.
  { unfold alias_or. rewrite !rename_key_get by discriminate. reflexivity. }
  destruct (String.eqb k "access_key_secret") eqn:H2; [reflexivity|].
  rewrite rename_key_get by discriminate.
  destruct (String.eqb k "access_key") eqn:H3.
  { unfold alias_or. rewrite !rename_key_get by discriminate. reflexivity. }
  destruct (String.eqb k "access_key_id") eqn:H4; [reflexivity|].
  by rewrite rename_key_get by discriminate.
Qed.

(** [parse_s3_config] in closed form, on the config as the file has it. *)
Lemma parse_s3_config_closed (config : list (string * value)) :
  fst (parse_s3_config config) =
  match assoc_get "endpoint" config,
        alias_or "bucket_name" "bucket" config,
        assoc_get "region" config,
        alias_or "access_key_id" "access_key" config,
        alias_or "access_key_secret" "secret_key" config with
  | Some e, Some b, Some r, Some a, Some s =>
      Ok (mkS3Fields e b r a s
            (match assoc_get "object_prefix" config with
             | Some o => o
             | None => VStr "nydus/"
             end))
  | _, _, _, _, _ => Raise TypeError
  end.
Proof.
  unfold parse_s3_config. cbn [fst].
  set (renamed := rename_key "access_key_secret" "secret_key" _).
  assert (Hget : forall k, is_expected k = true ->
            assoc_get k (filter (fun kv => is_expected (fst kv) = true)
                           (match assoc_get "object_prefix" renamed with
                            | Some _ => renamed
                            | None => assoc_set "object_prefix" (VStr "nydus/") renamed
                            end))
            = if String.eqb k "object_prefix"
              then Some (match assoc_get "object_prefix" config with
                         | Some o => o
                         | None => VStr "nydus/"
                         end)
              else assoc_get k renamed).
  { intros k Hk. rewrite (assoc_get_filter is_expected), Hk.
    assert (Hop : assoc_get "object_prefix" renamed = assoc_get "object_prefix" config)
      by (unfold renamed; by rewrite renamed_get).
    rewrite Hop. destruct (assoc_get "object_prefix" config) as [o|] eqn:Ho.
    - destruct (String.eqb k "object_prefix") eqn:Hk'; [|reflexivity].
      apply String.eqb_eq in Hk' as ->. congruence.
    - apply assoc_get_set. }
  unfold NydusS3Backend_kwargs. rewrite !Hget by reflexivity. cbn [String.eqb Ascii.eqb].
  unfold renamed. rewrite !renamed_get. reflexivity.
Qed.

(** X16.  The fields [parse_s3_config] gives the backend: [endpoint] and
    [region] as the file has them; [bucket], [access_key] and [secret_key]
    from [bucket_name], [access_key_id] and [access_key_secret] when the file
    has the alias, whatever it says under the name itself, and from the name
    otherwise; [object_prefix] as the file has it, or ["nydus/"].  It fails
    only with [TypeError], and exactly when one of the first five is missing
    under every spelling. *)
Theorem parse_s3_config_fields (config : list (string * value)) :
  (forall f, fst (parse_s3_config config) = Ok f ->
     assoc_get "endpoint" config = Some (f_endpoint f)
     /\ alias_or "bucket_name" "bucket" config = Some (f_bucket f)
     /\ assoc_get "region" config = Some (f_region f)
     /\ alias_or "access_key_id" "access_key" config = Some (f_access_key f)
     /\ alias_or "access_key_secret" "secret_key" config = Some (f_secret_key f)
     /\ f_object_prefix f = match assoc_get "object_prefix" config with
                            | Some o => o
                            | None => VStr "nydus/"
                            end)
  /\ (forall e, fst (parse_s3_config config) = Raise e ->
        e = TypeError
        /\ (assoc_get "endpoint" config = None
            \/ alias_or "bucket_name" "bucket" config = None
            \/ assoc_get "region" config = None
            \/ alias_or "access_key_id" "access_key" config = None
            \/ alias_or "access_key_secret" "secret_key" config = None)).
Proof.
  rewrite parse_s3_config_closed.
  destruct (assoc_get "endpoint" config) as [e|];
    [|split; [discriminate | intros e' [= <-]; auto]].
  destruct (alias_or "bucket_name" "bucket" config) as [b|];
    [|split; [discriminate | intros e' [= <-]; auto]].
  destruct (assoc_get "region" config) as [r|];
    [|split; [discriminate | intros e' [= <-]; auto]].
  destruct (alias_or "access_key_id" "access_key" config) as [a|];
    [|split; [discriminate | intros e' [= <-]; auto 6]].
  destruct (alias_or "access_key_secret" "secret_key" config) as [s|];
    [|split; [discriminate | intros e' [= <-]; auto 6]].
  split; [|discriminate]. intros f [= <-]. cbn. repeat split; reflexivity.
Qed.

(** X17.  The keys the warning names are the keys of the file that are
    neither expected nor an alias; such a key changes nothing else: with it
    or without it, the fields of the backend, or the failure, are the
    same. *)
Theorem parse_s3_config_unknown_keys (config : list (string * value)) (k : string) :
  (k ∈ snd (parse_s3_config config) <->
     is_expected k = false /\ (k ∉ alias_keys) /\ k ∈ map fst config)
  /\ (forall v, is_expected k = false -> (k ∉ alias_keys) ->
        fst (parse_s3_config (assoc_set k v config)) = fst (parse_s3_config config)).
Proof.
  split.
  - unfold parse_s3_config. cbn [snd]. rewrite list_elem_of_filter.
    rewrite <- !assoc_get_is_Some, renamed_get.
    split.
    + intros [Hexp Hsome]. split; [exact Hexp|].
      destruct (String.eqb k "secret_key") eqn:H1;
        [apply String.eqb_eq in H1 as ->; discriminate|].
      destruct (String.eqb k "access_key_secret") eqn:H2;
        [destruct Hsome as [x Hx]; discriminate|].
      destruct (String.eqb k "access_key") eqn:H3;
        [apply String.eqb_eq in H3 as ->; discriminate|].
      destruct (String.eqb k "access_key_id") eqn:H4; [destruct Hsome as [x Hx]; discriminate|].
      destruct (String.eqb k "bucket") eqn:H5;
        [apply String.eqb_eq in H5 as ->; discriminate|].
      destruct (String.eqb k "bucket_name") eqn:H6; [destruct Hsome as [x Hx]; discriminate|].
      split; [|exact Hsome]. apply String.eqb_neq in H2, H4, H6.
      unfold alias_keys. rewrite !not_elem_of_cons.
      repeat split; auto using not_elem_of_nil.
    + intros (Hexp & Halias & Hsome). split; [exact Hexp|].
      assert (k <> "bucket_name" /\ k <> "access_key_id" /\ k <> "access_key_secret")
        as (N1 & N2 & N3)
        by (unfold alias_keys in Halias; rewrite !not_elem_of_cons in Halias; tauto).
      apply String.eqb_neq in N1, N2, N3. rewrite N1, N2, N3.
      destruct (String.eqb k "secret_key") eqn:H1;
        [apply String.eqb_eq in H1 as ->; discriminate|].
      destruct (String.eqb k "access_key") eqn:H3;
        [apply String.eqb_eq in H3 as ->; discriminate|].
      destruct (String.eqb k "bucket") eqn:H5;
        [apply String.eqb_eq in H5 as ->; discriminate|].
      exact Hsome.
  - intros v Hexp Halias.
    assert (Hget : forall k', is_expected k' = true \/ k' ∈ alias_keys ->
              assoc_get k' (assoc_set k v config) = assoc_get k' config).
    { intros k' Hk'. rewrite assoc_get_set.
      destruct (String.eqb k' k) eqn:Heq; [|reflexivity].
      apply String.eqb_eq in Heq as ->. destruct Hk'; [congruence | contradiction]. }
    rewrite !parse_s3_config_closed. unfold alias_or.
    rewrite !Hget; [reflexivity|..];
      first [ left; reflexivity
            | right; unfold alias_keys; rewrite !elem_of_cons; tauto ].
Qed.

(** [strip] on the output of a put, and on white space outside ASCII: a
    no-break space (U+00A0) given as its two UTF-8 bytes or as the single byte
    160, an em space (U+2003), a next-line character (U+0085).  The byte 160
    that ends the encoding of U+00E0 is part of that letter and stays. *)
Example strip_ex :
  strip (String " " (String " " ("sha256:abc" +:+ String "010" "")))
  = "sha256:abc"
  /\ strip (SampleText.nbsp +:+ "sha256:abc" +:+ SampleText.em_space +:+ SampleText.nel)
     = "sha256:abc"
  /\ strip (SampleText.byte_160 +:+ "a b" +:+ SampleText.byte_160) = "a b"
  /\ is_blank (SampleText.nbsp +:+ " " +:+ SampleText.byte_160 +:+ SampleText.em_space)
     = true
  /\ strip (SampleText.a_grave +:+ " ") = SampleText.a_grave
  /\ is_blank "" = true.
Proof. repeat split; vm_compute; reflexivity. Qed.

(** ** Upload *)

Section UploadFacts.

Context {World : Type}.
Variable sys : OS World.
Variable ext : OSExt World.

(** X18.  The upload is strictly ordered: its processes are an initial
    segment of "put the bootstrap archive, put the config blob, put the
    manifest", each on a temporary file.  A second process is started only
    after the put of the bootstrap archive exited with status 0, a third
    only after the put of the config blob did too, and a run that returns
    has made all three, the put of the manifest exiting with status 0. *)
Theorem upload_order (nydus_image : NydusImageWithBackends) (reference : string)
    (w : World) :
  let r := upload_bootstrap_and_manifest sys ext nydus_image reference w in
  exists temp_tar config_path manifest_path,
    events r `prefix_of` [ blob_put_event reference temp_tar;
                           blob_put_event reference config_path;
                           manifest_put_event reference manifest_path ]
    /\ ((2 <= List.length (events r))%nat ->
        exists w1 w2,
          mktemp sys ".tar.gz" w = (Ok temp_tar, w1)
          /\ tar_add ext temp_tar (bootstrap_local_path nydus_image) "image/image.boot" w1
             = (Ok tt, w2)
          /\ let put1 := exec sys (blob_put_event reference temp_tar) w2 in
             returncode (fst put1) = 0
             /\ ((3 <= List.length (events r))%nat ->
                 exists w4 w5,
                   mktemp sys ".json" (snd put1) = (Ok config_path, w4)
                   /\ write_text sys config_path
                        (json_dumps_compact ext
                           (config_blob (image_config nydus_image)
                              (strip (stdout (fst put1))))) w4
                      = (Ok tt, w5)
                   /\ let put2 := exec sys (blob_put_event reference config_path) w5 in
                      returncode (fst put2) = 0
                      /\ (outcome r = Ok tt ->
                          exists w7 w8 text,
                            mktemp sys ".json" (snd put2) = (Ok manifest_path, w7)
                            /\ write_text sys manifest_path text w7 = (Ok tt, w8)
                            /\ returncode
                                 (fst (exec sys
                                         (manifest_put_event reference manifest_path) w8))
                               = 0)))
    /\ (outcome r = Ok tt ->
        events r = [ blob_put_event reference temp_tar;
                     blob_put_event reference config_path;
                     manifest_put_event reference manifest_path ]).
Proof.
  cbv zeta. unfold upload_bootstrap_and_manifest, with_tempfile, bind, call,
    subprocess_run_check, ret, outcome, events.
  destruct (mktemp sys ".tar.gz" w) as [[tar|e] w1] eqn:Htar; cbn;
    [|exists [], [], []; split; [apply prefix_nil | split; [lia | discriminate]]].
  destruct (tar_add ext tar _ _ w1) as [[[]|e] w2] eqn:Hadd; cbn;
    [|exists [], [], []; split; [apply prefix_nil | split; [lia | discriminate]]].
  destruct (exec sys (blob_put_event reference tar) w2) as [cp1 w3] eqn:Hput1.
  destruct (returncode cp1 =? 0) eqn:Hrc1; cbn;
    [|exists tar, [], []; split; [apply prefix_cons, prefix_nil | split; [lia | discriminate]]].
  apply Z.eqb_eq in Hrc1.
  destruct (stat_size ext tar w3) as [n1|e]; cbn;
    [|exists tar, [], []; split; [apply prefix_cons, prefix_nil | split; [lia | discriminate]]].
  destruct (mktemp sys ".json" w3) as [[cfg|e] w4] eqn:Hcfg; cbn;
    [|exists tar, [], []; split; [apply prefix_cons, prefix_nil | split; [lia | discriminate]]].
  destruct (write_text sys cfg _ w4) as [[[]|e] w5] eqn:Hwcfg; cbn;
    [|exists tar, [], []; split; [apply prefix_cons, prefix_nil | split; [lia | discriminate]]].
  destruct (exec sys (blob_put_event reference cfg) w5) as [cp2 w6] eqn:Hput2.
  assert (Hstop : forall (r : result unit) (wz : World),
    r <> Ok tt ->
    exists temp_tar config_path manifest_path,
      [blob_put_event reference tar; blob_put_event reference cfg]
        `prefix_of` [ blob_put_event reference temp_tar;
                      blob_put_event reference config_path;
                      manifest_put_event reference manifest_path ]
      /\ ((2 <= 2)%nat ->
          exists w1' w2',
            (Ok tar, w1) = (Ok temp_tar, w1')
            /\ tar_add ext temp_tar (bootstrap_local_path nydus_image) "image/image.boot" w1'
               = (Ok tt, w2')
            /\ returncode (fst (exec sys (blob_put_event reference temp_tar) w2')) = 0
            /\ ((3 <= 2)%nat ->
                exists w4' w5',
                  mktemp sys ".json" (snd (exec sys (blob_put_event reference temp_tar) w2'))
                  = (Ok config_path, w4')
                  /\ write_text sys config_path
                       (json_dumps_compact ext
                          (config_blob (image_config nydus_image)
                             (strip (stdout (fst (exec sys
                                                    (blob_put_event reference temp_tar)
                                                    w2')))))) w4'
                     = (Ok tt, w5')
                  /\ returncode (fst (exec sys (blob_put_event reference config_path) w5'))
                     = 0
                  /\ (r = Ok tt ->
                      exists w7 w8 text,
                        mktemp sys ".json"
                          (snd (exec sys (blob_put_event reference config_path) w5'))
                        = (Ok manifest_path, w7)
                        /\ write_text sys manifest_path text w7 = (Ok tt, w8)
                        /\ returncode
                             (fst (exec sys (manifest_put_event reference manifest_path)
                                     w8)) = 0)))
      /\ (r = Ok tt ->
          [blob_put_event reference tar; blob_put_event reference cfg]
          = [ blob_put_event reference temp_tar;
              blob_put_event reference config_path;
              manifest_put_event reference manifest_path ])).
  { intros r wz Hr. exists tar, cfg, []. split; [do 2 apply prefix_cons; apply prefix_nil|].
    split; [|done]. intros _. exists w1, w2. split; [done|]. split; [done|].
    rewrite Hput1. cbn. split; [done|]. lia. }
  destruct (returncode cp2 =? 0) eqn:Hrc2; cbn; [|by apply (Hstop _ w6)].
  apply Z.eqb_eq in Hrc2.
  destruct (stat_size ext cfg w6) as [n2|e]; cbn; [|by apply (Hstop _ w6)].
  destruct (mktemp sys ".json" w6) as [[man|e] w7] eqn:Hman; cbn; [|by apply (Hstop _ w6)].
  destruct (write_text sys man _ w7) as [[[]|e] w8] eqn:Hwman; cbn;
    [|by apply (Hstop _ w6)].
  clear Hstop.
  destruct (exec sys (manifest_put_event reference man) w8) as [cp3 w9] eqn:Hput3.
  exists tar, cfg, man.
  destruct (returncode cp3 =? 0) eqn:Hrc3; cbn.
  - apply Z.eqb_eq in Hrc3. split; [done|]. split; [|done].
    intros _. exists w1, w2. split; [done|]. split; [done|].
    rewrite Hput1. cbn. split; [done|]. intros _. exists w4, w5.
    split; [done|]. split; [done|]. rewrite Hput2. cbn. split; [done|].
    intros _. exists w7, w8. eexists. split; [done|]. split; [exact Hwman|].
    by rewrite Hput3.
  - split; [done|]. split; [|discriminate].
    intros _. exists w1, w2. split; [done|]. split; [done|].
    rewrite Hput1. cbn. split; [done|]. intros _. exists w4, w5.
    split; [done|]. split; [done|]. rewrite Hput2. cbn. split; [done|].
    discriminate.
Qed.

(** X19.  The success path of the upload, step by step: the bootstrap is
    archived under [image/image.boot] and put; the config blob written is the
    image config with a root file system whose only layer is the digest the
    first put printed (stripped); the manifest written is
    [create_oci_manifest] of the two printed digests and the sizes of the two
    temporary files; and the three temporary files are removed, last made
    first. *)
Theorem upload_success_path (nydus_image : NydusImageWithBackends) (reference : string)
    (w w1 w2 w3 w4 w5 w6 w7 w8 w9 : World)
    (temp_tar config_path manifest_path : Path) (cp1 cp2 cp3 : completed_process)
    (bootstrap_size config_size : Z) :
  mktemp sys ".tar.gz" w = (Ok temp_tar, w1) ->
  tar_add ext temp_tar (bootstrap_local_path nydus_image) "image/image.boot" w1
    = (Ok tt, w2) ->
  exec sys (blob_put_event reference temp_tar) w2 = (cp1, w3) ->
  returncode cp1 = 0 ->
  stat_size ext temp_tar w3 = Ok bootstrap_size ->
  mktemp sys ".json" w3 = (Ok config_path, w4) ->
  write_text sys config_path
    (json_dumps_compact ext (config_blob (image_config nydus_image) (strip (stdout cp1))))
    w4 = (Ok tt, w5) ->
  exec sys (blob_put_event reference config_path) w5 = (cp2, w6) ->
  returncode cp2 = 0 ->
  stat_size ext config_path w6 = Ok config_size ->
  mktemp sys ".json" w6 = (Ok manifest_path, w7) ->
  write_text sys manifest_path
    (json_dumps_compact ext
       (create_oci_manifest (strip (stdout cp2)) config_size
          (strip (stdout cp1)) bootstrap_size))
    w7 = (Ok tt, w8) ->
  exec sys (manifest_put_event reference manifest_path) w8 = (cp3, w9) ->
  returncode cp3 = 0 ->
  upload_bootstrap_and_manifest sys ext nydus_image reference w
  = (Ok tt,
     remove sys temp_tar (remove sys config_path (remove sys manifest_path w9)),
     [ blob_put_event reference temp_tar;
       blob_put_event reference config_path;
       manifest_put_event reference manifest_path ]).
Proof.
  intros H1 H2 H3 Hr1 H4 H5 H6 H7 Hr2 H8 H9 H10 H11 Hr3.
  unfold upload_bootstrap_and_manifest, with_tempfile, bind, call,
    subprocess_run_check, ret.
  rewrite H1, H2, H3, Hr1. cbn. rewrite H4, H5. cbn. rewrite H6, H7, Hr2. cbn.
  rewrite H8, H9. cbn. rewrite H10, H11, Hr3. reflexivity.
Qed.

End UploadFacts.

(** ** The copy command *)

Section CopyCommandFacts.

Context {World : Type}.
Variable sys : OS World.
Variable ext : OSExt World.

Lemma write_to_dir_events (img : NydusImageWithBackends) (directory : Path) (w : World) :
  events (write_to_dir sys img directory w) = [].
Proof.
  unfold write_to_dir, bind, call, ret, events.
  destruct (mkdir sys directory true true w) as [[[]|e] w1]; [|reflexivity].
  destruct (negb _).
  - destruct (copy2 sys _ _ w1) as [[[]|e] w2]; [|reflexivity].
    by destruct (write_text sys _ _ w2) as [r w3].
  - by destruct (write_text sys _ _ w1) as [r w3].
Qed.

Lemma read_from_dir_Ok_shape (directory : Path) (b : NydusBackend) (w w' : World)
    (img : NydusImageWithBackends) (evs : list event) :
  read_from_dir sys directory b w = (Ok img, w', evs) ->
  evs = [inspect_event (path_join directory "bootstrap")]
  /\ forall i l, layers img !! i = Some l -> backend l = b.
Proof.
  unfold read_from_dir. intros H.
  apply bind_Ok_inv in H as (present & w1 & ev1 & ev1' & Hp & H & ->).
  injection Hp as <- <- <-.
  destruct (path_exists sys (path_join directory "bootstrap") w); [|discriminate].
  cbn [negb] in H.
  apply bind_Ok_inv in H as (has_config & w2 & ev2 & ev2' & Hc & H & ->).
  injection Hc as <- <- <-.
  apply bind_Ok_inv in H as (cfg & w3 & ev3 & ev3' & Hcfg & H & ->).
  apply bind_Ok_inv in H as (ds & w4 & ev4 & ev4' & Hds & H & ->).
  injection H as <- <- <-.
  assert (ev3 = []) as ->.
  { destruct (path_exists sys (path_join directory "config.json") w).
    - apply bind_Ok_inv in Hcfg as (text & w5 & ev5 & ev5' & Ht & Hcfg & ->).
      injection Ht as _ _ <-. unfold lift in Hcfg. by injection Hcfg as _ _ <-.
    - by injection Hcfg as _ _ <-. }
  apply get_blob_digests_events in Hds as ->. split; [reflexivity|].
  cbn. intros i l Hl. rewrite list_lookup_fmap in Hl.
  destruct (ds !! i); [|discriminate]. by injection Hl as <-.
Qed.

(** X20.  Nothing is saved unless every blob was copied: when the source
    image was loaded and [copy_blobs] raises, [copy_command_run] raises the
    same exception, the temporary directory is removed, and after the
    processes of the load and of the copy nothing else is started and no
    world-changing step follows. *)
Theorem copy_command_copy_failure (args : CopyArgs)
    (source_backend target_backend : NydusBackend) (w w1 w2 w3 : World)
    (temp_path : Path) (source_image : NydusImageWithBackends)
    (ev_load ev_copy : list event) (e : exn) :
  mkdtemp ext w = (Ok temp_path, w1) ->
  load_source sys ext args source_backend temp_path w1 = (Ok source_image, w2, ev_load) ->
  copy_blobs (exec sys) source_image (change_backends source_image target_backend) w2
    = (Raise e, w3, ev_copy) ->
  copy_command_run sys ext args source_backend target_backend w
  = (Raise e, rmtree ext temp_path w3, ev_load ++ ev_copy).
Proof.
  intros Hmk Hload Hcopy. unfold copy_command_run, with_tempdir, bind, call.
  rewrite Hmk, Hload, Hcopy. reflexivity.
Qed.

Lemma events_bind {A B} (m : M World A) (k : A -> M World B) (w : World) :
  events (bind m k w) =
  events (m w) ++ match outcome (m w) with
                  | Ok a => events (k a (world_after (m w)))
                  | Raise _ => []
                  end.
Proof.
  unfold bind, events, outcome, world_after.
  destruct (m w) as [[[a|e] w1] ev1]; cbn; [|by rewrite app_nil_r].
  by destruct (k a w1) as [[r w2] ev2].
Qed.

Lemma get_blob_digests_events_any (p : Path) (w : World) :
  events (get_blob_digests sys p w) = [inspect_event p].
Proof.
  unfold get_blob_digests, bind, subprocess_run_check, lift, events.
  destruct (exec sys (inspect_event p) w) as [cp w'].
  by destruct (returncode cp =? 0).
Qed.

Lemma read_from_dir_events_prefix (directory : Path) (b : NydusBackend) (w : World) :
  events (read_from_dir sys directory b w)
  `prefix_of` [inspect_event (path_join directory "bootstrap")].
Proof.
  unfold read_from_dir. rewrite events_bind. cbn [events outcome world_after fst snd app].
  destruct (path_exists sys (path_join directory "bootstrap") w); cbn [negb];
    [|apply prefix_nil].
  rewrite events_bind. cbn [events outcome world_after fst snd app].
  rewrite events_bind.
  assert (Hcfg : forall (m : M World NydusImageConfig),
            (m = ret default_image_config
             \/ m = (let* text := (fun w0 => (read_text sys (path_join directory "config.json") w0, w0, [])) in
                     lift (let+ config_data := parse_json sys text in from_dict config_data))) ->
            events (m w) = [] /\ world_after (m w) = w).
  { intros m [-> | ->]; [done|].
    unfold bind, lift, events, world_after. cbn.
    by destruct (read_text sys _ w). }
  destruct (path_exists sys (path_join directory "config.json") w).
  - destruct (Hcfg _ (or_intror eq_refl)) as [-> ->]. cbn [app].
    destruct (outcome _); [|apply prefix_nil].
    rewrite events_bind, get_blob_digests_events_any.
    destruct (outcome _); cbn; done.
  - destruct (Hcfg _ (or_introl eq_refl)) as [-> ->]. cbn [app].
    destruct (outcome _); [|apply prefix_nil].
    rewrite events_bind, get_blob_digests_events_any.
    destruct (outcome _); cbn; done.
Qed.

Lemma with_tempdir_events {A} (body : Path -> M World A) (w : World) :
  events (with_tempdir ext body w) =
  match mkdtemp ext w with
  | (Ok p, w1) => events (body p w1)
  | (Raise _, _) => []
  end.
Proof.
  unfold with_tempdir, bind, call, events.
  destruct (mkdtemp ext w) as [[p|e] w1]; [|reflexivity].
  by destruct (body p w1) as [[r w2] ev].
Qed.

(** X21.  Copying from a directory to a directory with one and the same
    backend moves no blob: whatever happens, the only process the command
    may start is the inspection of the source bootstrap. *)
Theorem copy_command_same_backend_dirs (args : CopyArgs) (b : NydusBackend)
    (source_dir target_dir : string) (w : World) :
  given (source_oci_reference args) = None ->
  given (source_oci_dir args) = Some source_dir ->
  given (target_oci_reference args) = None ->
  given (target_oci_dir args) = Some target_dir ->
  events (copy_command_run sys ext args b b w)
  `prefix_of` [inspect_event (path_join (to_path ext source_dir) "bootstrap")].
Proof.
  intros Hs1 Hs2 Ht1 Ht2.
  unfold copy_command_run, load_source, save_target.
  rewrite Hs1, Hs2, Ht1, Ht2. rewrite with_tempdir_events.
  destruct (mkdtemp ext w) as [[temp|e] w1]; [|apply prefix_nil].
  rewrite events_bind.
  pose proof (read_from_dir_events_prefix (to_path ext source_dir) b w1) as Hpre.
  destruct (read_from_dir sys (to_path ext source_dir) b w1) as [[[img|e] w2] ev1] eqn:Hread;
    cbn [events outcome world_after fst snd] in *; [|by rewrite app_nil_r].
  apply read_from_dir_Ok_shape in Hread as [-> Hb].
  assert (Hnoop : copy_blobs (exec sys) img (change_backends img b) w2 = (Ok tt, w2, [])).
  { pose proof (change_backends_compatible img b) as Hc.
    rewrite (copy_blobs_compatible _ _ _ _ Hc). apply loop_same_backends.
    apply Forall_lookup_2. intros i [sb tb] Hi.
    apply lookup_zip_with_Some in Hi as (x & y & [= -> ->] & Hx & Hy).
    split; [destruct Hc as (_ & _ & Hd); exact (Hd i x y Hx Hy)|].
    unfold backends_differ. cbn. apply negb_false_iff, backend_eqb_eq.
    unfold change_backends in Hy. cbn in Hy. rewrite list_lookup_fmap, Hx in Hy.
    injection Hy as <-. cbn. by eapply Hb. }
  rewrite events_bind, Hnoop. cbn [events outcome world_after fst snd app].
  pose proof (write_to_dir_events (change_backends img b) (to_path ext target_dir) w2) as Hev.
  rewrite Hev. done.
Qed.

End CopyCommandFacts.

(** ** The phases of the copy command *)

Section Phases.

Context {World : Type}.
Variable sys : OS World.
Variable ext : OSExt World.

Lemma Forall_events_bind {A B} (P : event -> Prop) (m : M World A) (k : A -> M World B)
    (w : World) :
  Forall P (events (m w)) ->
  (forall a w', Forall P (events (k a w'))) ->
  Forall P (events (bind m k w)).
Proof.
  intros Hm Hk. rewrite (events_bind m k w). apply Forall_app. split; [exact Hm|].
  destruct (outcome (m w)); [apply Hk | constructor].
Qed.

Lemma Forall_events_with_tempfile {A} (P : event -> Prop) (suffix : string)
    (body : Path -> M World A) (w : World) :
  (forall p w', Forall P (events (body p w'))) ->
  Forall P (events (with_tempfile sys suffix body w)).
Proof.
  intros Hb. unfold with_tempfile, bind, call, events.
  destruct (mktemp sys suffix w) as [[p|e] w1]; [|constructor].
  specialize (Hb p w1). unfold events in Hb.
  destruct (body p w1) as [[r w2] ev]. cbn in *. exact Hb.
Qed.

Lemma Forall_events_call {A} (P : event -> Prop) (f : World -> result A * World)
    (w : World) :
  Forall P (events (call f w)).
Proof. unfold call, events. destruct (f w). constructor. Qed.

Lemma Forall_events_check (P : event -> Prop) (e : event) (w : World) :
  P e -> Forall P (events (subprocess_run_check (exec sys) e w)).
Proof.
  intros He. unfold subprocess_run_check, events. destruct (exec sys e w) as [cp w'].
  destruct (returncode cp =? 0); by repeat constructor.
Qed.

Lemma get_blob_digests_read_only (p : Path) (w : World) :
  Forall (fun e => is_read_only e = true) (events (get_blob_digests sys p w)).
Proof.
  rewrite (get_blob_digests_events_any sys p w). by repeat constructor.
Qed.

Lemma download_read_only (reference : string) (b : NydusBackend) (output_dir : Path)
    (w : World) :
  Forall (fun e => is_read_only e = true)
    (events (download_bootstrap_and_manifest sys reference b output_dir w)).
Proof.
  unfold download_bootstrap_and_manifest.
  apply Forall_events_bind; [apply Forall_events_call|]. intros _ w1.
  apply Forall_events_with_tempfile. intros p1 w2.
  apply Forall_events_bind; [by apply Forall_events_check|]. intros cp w3.
  destruct (is_blank (stdout cp)); [constructor|].
  apply Forall_events_bind; [constructor|]. intros m w4.
  unfold download_from_manifest.
  apply Forall_events_bind; [constructor|]. intros cd w5.
  apply Forall_events_with_tempfile. intros p2 w6.
  apply Forall_events_bind; [constructor|]. intros cds w7.
  apply Forall_events_bind; [by apply Forall_events_check|]. intros cres w8.
  apply Forall_events_bind; [constructor|]. intros cdata w9.
  apply Forall_events_bind; [constructor|]. intros bd w10.
  apply Forall_events_with_tempfile. intros p3 w11.
  apply Forall_events_bind; [constructor|]. intros bds w12.
  apply Forall_events_bind; [by apply Forall_events_check|]. intros u w13.
  apply Forall_events_bind.
  { unfold events. destruct (tar_extract sys p3 _ _ output_dir w13) as [[x|[]] w14];
      constructor. }
  intros u2 w14.
  apply Forall_events_bind; [apply get_blob_digests_read_only|]. intros ds w15.
  apply Forall_events_bind; constructor.
Qed.

Lemma read_from_dir_read_only (directory : Path) (b : NydusBackend) (w : World) :
  Forall (fun e => is_read_only e = true) (events (read_from_dir sys directory b w)).
Proof.
  destruct (read_from_dir_events_prefix sys directory b w) as [k Hk].
  destruct (events (read_from_dir sys directory b w)) as [|e l]; [constructor|].
  injection Hk as <- Hl. destruct l; [|discriminate]. by repeat constructor.
Qed.

Lemma copy_pair_transports (p : NydusBlobLocation * NydusBlobLocation) (w : World) :
  Forall (fun e => is_transport e = true) (events (copy_pair (exec sys) p w)).
Proof.
  unfold copy_pair, copy_blob.
  destruct (negb (String.eqb _ _)); [constructor|].
  cbv zeta. destruct (backend_eqb _ _); [constructor|].
  replace (RcloneConfig_init (backend p.1) "source")
    with (Ok (mkRclone (backend p.1) "source")) by reflexivity.
  replace (RcloneConfig_init (backend p.2) "target")
    with (Ok (mkRclone (backend p.2) "target")) by reflexivity.
  apply Forall_events_bind; [constructor|]. intros s w1.
  apply Forall_events_bind; [constructor|]. intros t w2.
  unfold rclone_copy. destruct (String.eqb _ _); [constructor|].
  apply Forall_events_bind; [|constructor].
  by apply Forall_events_check.
Qed.

Lemma copy_blobs_transports (a b : NydusImageWithBackends) (w : World) :
  Forall (fun e => is_transport e = true) (events (copy_blobs (exec sys) a b w)).
Proof.
  unfold copy_blobs.
  destruct (negb (path_eqb _ _)); [constructor|].
  destruct (negb (Nat.eqb _ _)); [constructor|].
  destruct (existsb _ _); [constructor|].
  generalize (zip (layers a) (layers b)). intros ps. revert w.
  induction ps as [|p ps IH]; intros w; [constructor|].
  cbn [for_each]. apply Forall_events_bind; [|intros _ w'; apply IH].
  apply copy_pair_transports.
Qed.

Lemma upload_puts (img : NydusImageWithBackends) (reference : string) (w : World) :
  Forall (fun e => is_put e = true)
    (events (upload_bootstrap_and_manifest sys ext img reference w)).
Proof.
  unfold upload_bootstrap_and_manifest.
  apply Forall_events_with_tempfile. intros p1 w1.
  apply Forall_events_bind; [apply Forall_events_call|]. intros _ w2.
  apply Forall_events_bind; [by apply Forall_events_check|]. intros cp1 w3.
  apply Forall_events_bind.
  { unfold events. cbn. constructor. }
  intros n1 w4.
  apply Forall_events_with_tempfile. intros p2 w5.
  apply Forall_events_bind; [apply Forall_events_call|]. intros _ w6.
  apply Forall_events_bind; [by apply Forall_events_check|]. intros cp2 w7.
  apply Forall_events_bind.
  { unfold events. cbn. constructor. }
  intros n2 w8.
  apply Forall_events_with_tempfile. intros p3 w9.
  apply Forall_events_bind; [apply Forall_events_call|]. intros _ w10.
  apply Forall_events_bind; [by apply Forall_events_check|]. intros cp3 w11.
  constructor.
Qed.

(** X22.  The processes of the copy command come in three phases that never
    interleave: first those that only read (manifest and blob downloads,
    the inspection), then the transports, then the puts of the upload.  The
    first phase is the loading of the source image; the second is
    [copy_blobs] from the image that was loaded to that image rewritten to
    the target backend; the third is the saving of the rewritten image in
    the world [copy_blobs] left, and it takes place only when [copy_blobs]
    returned normally: otherwise the command ends with the exception of
    [copy_blobs] and nothing is saved. *)
Theorem copy_command_phases (args : CopyArgs) (source_backend target_backend : NydusBackend)
    (w : World) :
  let r := copy_command_run sys ext args source_backend target_backend w in
  exists ev_load ev_copy ev_save,
    events r = ev_load ++ ev_copy ++ ev_save
    /\ Forall (fun e => is_read_only e = true) ev_load
    /\ Forall (fun e => is_transport e = true) ev_copy
    /\ Forall (fun e => is_put e = true) ev_save
    /\ (forall temp_path w1, mkdtemp ext w = (Ok temp_path, w1) ->
        let l := load_source sys ext args source_backend temp_path w1 in
        ev_load = events l
        /\ (forall e, outcome l = Raise e ->
              outcome r = Raise e /\ ev_copy = [] /\ ev_save = [])
        /\ (forall img, outcome l = Ok img ->
              let target_image := change_backends img target_backend in
              let c := copy_blobs (exec sys) img target_image (world_after l) in
              ev_copy = events c
              /\ (forall e, outcome c = Raise e -> outcome r = Raise e /\ ev_save = [])
              /\ (outcome c = Ok tt ->
                  let s := save_target sys ext args target_image (world_after c) in
                  ev_save = events s /\ outcome r = outcome s))).
Proof.
  cbv zeta. unfold copy_command_run.
  assert (Hout : forall (body : Path -> M World unit),
            outcome (with_tempdir ext body w)
            = match mkdtemp ext w with
              | (Ok p, w1) => outcome (body p w1)
              | (Raise e, _) => Raise e
              end).
  { intros body. unfold with_tempdir, bind, call, outcome.
    destruct (mkdtemp ext w) as [[p|e] w1]; [|reflexivity]. cbn.
    by destruct (body p w1) as [[r0 w2] ev]. }
  rewrite with_tempdir_events, Hout.
  destruct (mkdtemp ext w) as [[temp|e] w1].
  2:{ exists [], [], []. split; [reflexivity|]. do 3 (split; [constructor|]).
      discriminate. }
  rewrite events_bind, outcome_bind.
  assert (Hload : Forall (fun e => is_read_only e = true)
                    (events (load_source sys ext args source_backend temp w1))).
  { unfold load_source. destruct (given (source_oci_reference args)) as [reference|].
    - apply download_read_only.
    - destruct (given (source_oci_dir args)) as [dir|]; [|constructor].
      apply read_from_dir_read_only. }
  destruct (load_source sys ext args source_backend temp w1) as [[[img|e] w2] ev1] eqn:Hl;
    cbn [events outcome world_after fst snd] in *.
  2:{ exists ev1, [], []. rewrite !app_nil_r.
      split; [reflexivity|]. split; [exact Hload|]. split; [constructor|].
      split; [constructor|]. intros p wz [= <- <-]. rewrite Hl.
      cbn [events outcome world_after fst snd].
      split; [reflexivity|]. split; [|discriminate].
      intros e' [= <-]. done. }
  rewrite events_bind, outcome_bind.
  pose proof (copy_blobs_transports img (change_backends img target_backend) w2) as Hcopy.
  destruct (copy_blobs (exec sys) img (change_backends img target_backend) w2)
    as [[[[]|e] w3] ev2] eqn:Hrun; cbn [events outcome world_after fst snd] in *.
  2:{ exists ev1, ev2, []. rewrite !app_nil_r.
      split; [reflexivity|]. split; [exact Hload|]. split; [exact Hcopy|].
      split; [constructor|]. intros p wz [= <- <-]. rewrite Hl.
      cbn [events outcome world_after fst snd].
      split; [reflexivity|]. split; [discriminate|].
      intros img' [= <-]. rewrite Hrun. cbn [events outcome world_after fst snd].
      split; [reflexivity|]. split; [|discriminate].
      intros e' [= <-]. done. }
  assert (Hsave : Forall (fun e => is_put e = true)
                    (events (save_target sys ext args (change_backends img target_backend) w3))).
  { unfold save_target. destruct (given (target_oci_reference args)) as [reference|].
    - apply upload_puts.
    - destruct (given (target_oci_dir args)) as [dir|]; [|constructor].
      rewrite write_to_dir_events. constructor. }
  exists ev1, ev2, (events (save_target sys ext args (change_backends img target_backend) w3)).
  split; [reflexivity|]. split; [exact Hload|]. split; [exact Hcopy|]. split; [exact Hsave|].
  intros p wz [= <- <-]. rewrite Hl. cbn [events outcome world_after fst snd].
  split; [reflexivity|]. split; [discriminate|].
  intros img' [= <-]. rewrite Hrun. cbn [events outcome world_after fst snd].
  split; [reflexivity|]. split; [discriminate|]. done.
Qed.

End Phases.

(** ** The image config as a JSON object *)

(** X23.  [to_dict] gives a JSON object from which [from_dict] reads the
    same config back; the object has a [config] entry exactly when the
    config is not [None].  [from_dict] never fails on a JSON object, missing
    entries getting the defaults (amd64, linux, [None]), and raises
    [AttributeError] on anything that is not an object. *)
Theorem image_config_as_dict (c : NydusImageConfig) (data : value) :
  from_dict (to_dict c) = Ok c
  /\ (get (to_dict c) "config" = Ok (config c))
  /\ ((exists v, getitem (to_dict c) "config" = Ok v) <-> config c <> VNone)
  /\ from_dict (VDict []) = Ok default_image_config
  /\ (match data with
      | VDict kvs =>
          from_dict data =
          Ok (mkConfig
                (match assoc_get "architecture" kvs with Some v => v | None => VStr "amd64" end)
                (match assoc_get "os" kvs with Some v => v | None => VStr "linux" end)
                (match assoc_get "config" kvs with Some v => v | None => VNone end))
      | _ => from_dict data = Raise AttributeError
      end).
Proof.
  split; [apply from_dict_to_dict|]. split; [|split; [|split; [reflexivity|]]].
  - destruct c as [a o c]. unfold to_dict. cbn. by destruct c.
  - destruct c as [a o c]. unfold to_dict. cbn. destruct c; cbn; split;
      try (intros [v Hv]; discriminate); try (intros H; by destruct H);
      try (intros _; eauto); try discriminate.
  - destruct data; reflexivity.
Qed.

Section DownloadPrelude.

Context {World : Type}.
Variable sys : OS World.

(** X24.  Before the manifest is looked at: when the output directory and
    the temporary file could be made, a [regctl manifest get] that exits
    with a non-zero status is raised as [CalledProcessError]; output that is
    empty or white space only is a [ValueError], not a JSON error; output
    that is not JSON is a [JSONDecodeError].  In each case the manifest
    request was the only process, and the temporary file is removed. *)
Theorem download_manifest_fetch_failures (reference : string) (b : NydusBackend)
    (output_dir manifest_path : Path) (w w1 w2 : World) :
  mkdir sys output_dir true true w = (Ok tt, w1) ->
  mktemp sys ".json" w1 = (Ok manifest_path, w2) ->
  let cp := fst (exec sys (manifest_get_event reference) w2) in
  let w3 := snd (exec sys (manifest_get_event reference) w2) in
  let r := download_bootstrap_and_manifest sys reference b output_dir w in
  (returncode cp <> 0 ->
   r = (Raise (CalledProcessError (returncode cp) (stdout cp) (stderr cp)),
        remove sys manifest_path w3, [manifest_get_event reference]))
  /\ (returncode cp = 0 -> is_blank (stdout cp) = true ->
      r = (Raise (ValueError "regctl returned empty output for manifest"),
           remove sys manifest_path w3, [manifest_get_event reference]))
  /\ (returncode cp = 0 -> is_blank (stdout cp) = false ->
      json_loads sys (stdout cp) = None ->
      r = (Raise JSONDecodeError, remove sys manifest_path w3,
           [manifest_get_event reference])).
Proof.
  intros Hmk Htmp. cbv zeta.
  unfold download_bootstrap_and_manifest, with_tempfile, bind, call,
    subprocess_run_check, lift, parse_json, raise.
  rewrite Hmk, Htmp.
  destruct (exec sys (manifest_get_event reference) w2) as [cp w3]. cbn [fst snd].
  split; [|split].
  - intros Hrc. apply Z.eqb_neq in Hrc. by rewrite Hrc.
  - intros Hrc Hblank. rewrite Hrc. cbn. by rewrite Hblank.
  - intros Hrc Hblank Hjson. rewrite Hrc. cbn. by rewrite Hblank, Hjson.
Qed.

End DownloadPrelude.

Import Sample SampleWorld.

Lemma copy_blobs_same_backends_noop_witness :
  copy_blobs always_fails remote_image remote_image 0%nat = (Ok tt, 0%nat, []).
Proof.
  apply copy_blobs_same_backends_noop.
  - apply copy_compatibleb_sound. vm_compute. reflexivity.
  - intros i sb tb Hs Ht. congruence.
Defined.

Lemma copy_blobs_reliable_transport_witness :
  outcome (copy_blobs always_succeeds remote_image local_image 0%nat) = Ok tt
  /\ events (copy_blobs always_succeeds remote_image local_image 0%nat)
     = [ transport_event (mkBlob "00112233" s3) (mkBlob "00112233" localfs);
         transport_event (mkBlob "aabbccdd" s3) (mkBlob "aabbccdd" localfs) ].
Proof.
  apply (copy_blobs_reliable_transport always_succeeds remote_image local_image 0%nat).
  - apply copy_compatibleb_sound. vm_compute. reflexivity.
  - intros e w0. reflexivity.
Defined.

Lemma read_from_dir_behaviour_witness :
  exists img w' evs,
    read_from_dir reliable_os ["src"] s3 0%nat = (Ok img, w', evs)
    /\ bootstrap_local_path img = ["src"; "bootstrap"]
    /\ evs = [inspect_event ["src"; "bootstrap"]].
Proof.
  eexists _, _, _. split; [vm_compute; reflexivity|].
  match goal with
  | |- bootstrap_local_path ?img = _ /\ ?evs = _ =>
      pose proof (proj2 (read_from_dir_behaviour reliable_os ["src"] s3 0%nat _ img evs)
                    eq_refl) as (Hb & _ & _ & He & _)
  end.
  split; [exact Hb | exact He].
Defined.

Lemma write_to_dir_frame_witness :
  outcome (write_to_dir SampleFS.disk_os SampleFS.image_read SampleFS.target_dir
             SampleFS.disk) = Ok tt
  /\ world_after (write_to_dir SampleFS.disk_os SampleFS.image_read SampleFS.target_dir
                    SampleFS.disk) !! SampleFS.target_dir = Some FileSystem.Dir.
Proof.
  assert (H : outcome (write_to_dir SampleFS.disk_os SampleFS.image_read
                         SampleFS.target_dir SampleFS.disk) = Ok tt)
    by (vm_compute; reflexivity).
  split; [exact H|].
  exact (proj1 (proj2 (FileSystemMore.write_to_dir_frame SampleFS.inspector SampleFS.loads
                         SampleFS.dumps SampleFS.image_read SampleFS.target_dir
                         SampleFS.disk H))).
Defined.

Lemma download_from_manifest_Ok_witness :
  exists img w' evs,
    download_from_manifest reliable_os "registry.example/repo:tag" localfs ["out"]
      valid_manifest 0%nat = (Ok img, w', evs)
    /\ schema_is_2 valid_manifest = true
    /\ bootstrap_local_path img = ["out"; "image.boot"].
Proof.
  eexists _, _, _. split; [vm_compute; reflexivity|].
  match goal with
  | |- _ /\ bootstrap_local_path ?img = _ =>
      pose proof (download_from_manifest_Ok reliable_os "registry.example/repo:tag"
                    localfs ["out"] valid_manifest 0%nat _ img _ eq_refl)
        as (Hs & _ & _ & _ & Hb & _)
  end.
  split; [exact Hs | exact Hb].
Defined.

Lemma repack_image_pipeline_witness :
  exists target temp_source w' evs opts,
    repack_image reliable_os remote_image localfs "" SampleRepack.work_dir 0%nat
      = (Ok (target, temp_source), w', evs)
    /\ evs = map (fun layer => transport_event layer
                    (mkBlob (digest layer)
                       (NydusLocalFilesystemBackend
                          (path_join SampleRepack.work_dir "local_blobs"))))
               (layers remote_image)
             ++ [ unpack_event boot (path_join SampleRepack.work_dir "local_blobs")
                    (path_join SampleRepack.work_dir "unpacked.tar");
                  create_event (bootstrap_local_path target) ["/"; "blobs"]
                    (path_join SampleRepack.work_dir "unpacked.tar") opts;
                  inspect_event (bootstrap_local_path target) ]
    /\ opts = [].
Proof.
  eexists _, _, _, _.
  match goal with
  | |- exists opts, ?body = (Ok (?t, ?ts), ?wz, ?evs) /\ _ =>
      assert (Hrun : body = (Ok (t, ts), wz, evs)) by (vm_compute; reflexivity);
      destruct (repack_image_pipeline reliable_os remote_image localfs ""
                  SampleRepack.work_dir 0%nat _ _ _ _ Hrun)
        as (opts & Hev & Hblank & _)
  end.
  exists opts. split; [exact Hrun|]. split; [exact Hev|].
  apply Hblank. reflexivity.
Defined.

Lemma localize_source_pulls_every_blob_witness :
  exists d w' evs,
    localize_source reliable_os remote_image SampleRepack.work_dir 0%nat = (Ok d, w', evs)
    /\ d = path_join SampleRepack.work_dir "local_blobs"
    /\ List.length evs = 2%nat.
Proof.
  eexists _, _, _.
  match goal with
  | |- ?body = (Ok ?d, ?wz, ?evs) /\ _ =>
      assert (Hrun : body = (Ok d, wz, evs)) by (vm_compute; reflexivity);
      destruct (localize_source_pulls_every_blob reliable_os remote_image
                  SampleRepack.work_dir d 0%nat wz evs ltac:(repeat constructor) Hrun)
        as [Hd Hev]
  end.
  split; [exact Hrun|]. split; [exact Hd|]. rewrite Hev. reflexivity.
Defined.

Lemma repack_to_local_target_needs_no_copy_witness :
  exists target temp_source w' evs,
    repack_image reliable_os remote_image localfs "" SampleRepack.work_dir 0%nat
      = (Ok (target, temp_source), w', evs)
    /\ copy_blobs always_fails temp_source target 0%nat = (Ok tt, 0%nat, []).
Proof.
  eexists _, _, _, _. split; [vm_compute; reflexivity|].
  match goal with
  | |- copy_blobs _ ?ts ?t _ = _ =>
      exact (proj2 (repack_to_local_target_needs_no_copy reliable_os remote_image
                      ["/"; "blobs"] "" SampleRepack.work_dir 0%nat _ t ts _ eq_refl)
               nat always_fails 0%nat)
  end.
Defined.

Lemma repack_image_unpack_failure_witness :
  repack_image (scripted_os is_unpack) SampleRepack.mixed_image s3 ""
    SampleRepack.work_dir 0%nat
  = (Raise (RuntimeError "nydus-image unpack failed"), 2%nat,
     [unpack_event boot ["/"; "blobs"] (path_join SampleRepack.work_dir "unpacked.tar")]).
Proof.
  exact (repack_image_unpack_failure (scripted_os is_unpack) SampleRepack.mixed_image s3 ""
           SampleRepack.work_dir 0%nat 1%nat 1%nat ["/"; "blobs"] []
           eq_refl eq_refl ltac:(vm_compute; discriminate)).
Defined.

Lemma parse_s3_config_fields_witness :
  (exists f, fst (parse_s3_config SampleConfig.with_aliases) = Ok f
             /\ alias_or "bucket_name" "bucket" SampleConfig.with_aliases = Some (f_bucket f)
             /\ backend_of_fields f
                = Some (NydusS3Backend "https://s3.example" "x" "eu-1" "a" "s" "nydus/"))
  /\ fst (parse_s3_config SampleConfig.aliases_only) = Raise TypeError.
Proof.
  split.
  - eexists. split; [reflexivity|].
    split; [|reflexivity].
    exact (proj1 (proj2 (proj1 (parse_s3_config_fields SampleConfig.with_aliases)
                           _ eq_refl))).
  - destruct (fst (parse_s3_config SampleConfig.aliases_only)) as [f|e] eqn:H;
      [discriminate|].
    by destruct (proj2 (parse_s3_config_fields SampleConfig.aliases_only) e H) as [-> _].
Defined.

Lemma upload_success_path_witness :
  upload_bootstrap_and_manifest reliable_os counting_ext remote_image
    "registry.example/repo:tag" 0%nat
  = (Ok tt, 12%nat,
     [ blob_put_event "registry.example/repo:tag" ["/"; "tmp"; "tmp.tar.gz"];
       blob_put_event "registry.example/repo:tag" ["/"; "tmp"; "tmp.json"];
       manifest_put_event "registry.example/repo:tag" ["/"; "tmp"; "tmp.json"] ]).
Proof.
  exact (upload_success_path reliable_os counting_ext remote_image
           "registry.example/repo:tag" 0%nat 1%nat 2%nat 3%nat 4%nat 5%nat 6%nat 7%nat 8%nat
           9%nat ["/"; "tmp"; "tmp.tar.gz"] ["/"; "tmp"; "tmp.json"] ["/"; "tmp"; "tmp.json"]
           (mkProc 0 "[]" "failed") (mkProc 0 "[]" "failed") (mkProc 0 "[]" "failed") 10 10
           eq_refl eq_refl eq_refl eq_refl eq_refl eq_refl eq_refl eq_refl eq_refl eq_refl
           eq_refl eq_refl eq_refl eq_refl).
Defined.

Lemma copy_command_copy_failure_witness :
  copy_command_run (scripted_os is_transport) counting_ext dir_to_dir s3 localfs 0%nat
  = (Raise (CalledProcessError 1 "[]" "failed"), 4%nat,
     [ inspect_event ["src"; "bootstrap"];
       transport_event (mkBlob "00112233" s3) (mkBlob "00112233" localfs) ]).
Proof.
  exact (copy_command_copy_failure (scripted_os is_transport) counting_ext dir_to_dir
           s3 localfs 0%nat 1%nat 2%nat 3%nat ["/"; "tmp"; "work"]
           (mkImage ["src"; "bootstrap"]
              [mkBlob "00112233" s3; mkBlob "AABBccdd99" s3] default_image_config)
           [inspect_event ["src"; "bootstrap"]]
           [transport_event (mkBlob "00112233" s3) (mkBlob "00112233" localfs)]
           (CalledProcessError 1 "[]" "failed")
           eq_refl eq_refl eq_refl).
Defined.

Lemma copy_command_same_backend_dirs_witness :
  events (copy_command_run reliable_os counting_ext dir_to_dir s3 s3 0%nat)
  `prefix_of` [inspect_event ["src"; "bootstrap"]].
Proof.
  exact (copy_command_same_backend_dirs reliable_os counting_ext dir_to_dir s3
           "src" "dst" 0%nat eq_refl eq_refl eq_refl eq_refl).
Defined.

Lemma download_manifest_fetch_failures_witness :
  download_bootstrap_and_manifest (scripted_os (fun _ => true))
    "registry.example/repo:tag" localfs ["out"] 0%nat
  = (Raise (CalledProcessError 1 "[]" "failed"), 4%nat,
     [manifest_get_event "registry.example/repo:tag"]).
Proof.
  exact (proj1 (download_manifest_fetch_failures (scripted_os (fun _ => true))
                  "registry.example/repo:tag" localfs ["out"] ["/"; "tmp"; "tmp.json"]
                  0%nat 1%nat 2%nat eq_refl eq_refl)
           ltac:(vm_compute; discriminate)).
Defined.
